(** * CriaCode V2: the deploy engine

    A shallow embedding of [backend/deploy-engine.js] (class [DeployEngine]),
    of the tables of [database/schema_v2.sql] it reads and writes, and of the
    way [backend/server.js] calls it.

    The engine is asynchronous JavaScript that talks to three collaborators:
    a PostgreSQL pool, the host (child processes and the filesystem) and a
    socket.io server.  It is modelled as a state-and-exception monad over a
    [world]:

    - the tables are lists of rows, in insertion order;
    - every child process and filesystem call is recorded, with its outcome,
      in a chronological [trace]; the outcome is chosen by an arbitrary
      function [respond] of the history and the command, so a theorem that
      quantifies over [respond] covers every behaviour of the host;
    - [await] is sequencing: one invocation runs from start to end with no
      other invocation interleaved. *)

From Stdlib Require Import ZArith List String Ascii Bool Lia DecimalString.
From Stdlib Require Import RelationClasses.
Import ListNotations.
Open Scope string_scope.
Open Scope Z_scope.

(** ** JavaScript values that reach the engine *)

(** A project or deployment identifier is a number when it comes from a row
    of the database and a string when it comes from a route parameter
    ([req.params] in [server.js]). *)
Inductive jsval : Type :=
| JNum (n : Z)
| JStr (s : string).

Definition string_of_Z (n : Z) : string := NilZero.string_of_int (Z.to_int n).

(** [String(v)], as a template literal applies it. *)
Definition to_string (v : jsval) : string :=
  match v with
  | JNum n => string_of_Z n
  | JStr s => s
  end.

(** The binary [+]: a sum of two numbers, a concatenation as soon as one
    operand is a string.  The numbers that reach the engine are the base
    port and identifiers of rows, integers of a [SERIAL] column; on
    integers below 2^53 the sum of JavaScript is the sum of [Z]. *)
Definition js_add (a b : jsval) : jsval :=
  match a, b with
  | JNum x, JNum y => JNum (x + y)
  | _, _ => JStr (to_string a ++ to_string b)
  end.

(** [a || d] on a nullable text column: [null] and the empty string are
    falsy. *)
Definition or_else (a : option string) (d : string) : string :=
  match a with
  | Some s => if String.eqb s EmptyString then d else s
  | None => d
  end.

(** [a || d] on a nullable integer column: [null] and [0] are falsy. *)
Definition or_elseZ (a : option Z) (d : Z) : Z :=
  match a with
  | Some n => if Z.eqb n 0 then d else n
  | None => d
  end.

(** Truthiness of a nullable text column. *)
Definition truthy (a : option string) : bool :=
  match a with
  | Some s => negb (String.eqb s EmptyString)
  | None => false
  end.

Inductive exn : Type :=
| JsError (message : string)
| ReferenceError (message : string).

Definition message (e : exn) : string :=
  match e with
  | JsError m => m
  | ReferenceError m => m
  end.

Definition nl : string := String (ascii_of_nat 10) EmptyString.
Definition dq : string := String (ascii_of_nat 34) EmptyString.

(** The lines of a template literal, joined by line feeds. *)
Fixpoint unlines (ls : list string) : string :=
  match ls with
  | [] => EmptyString
  | [l] => l
  | l :: rest => l ++ nl ++ unlines rest
  end.

(** ** Rows of [schema_v2.sql] *)

Record project : Type := {
  proj_id : Z;
  user_id : option Z;
  framework : option string;
  build_command : option string;
  start_command : option string;
  output_dir : option string;
  port : option Z
}.

Record file : Type := {
  file_project_id : option Z;
  path : string;
  content : option string
}.

Record deployment : Type := {
  id : Z;
  project_id : option Z;
  status : string;
  container_id : option string;
  container_name : option string;
  url : option string;
  commit_message : option string;
  build_duration : option Z
}.

Record build_log : Type := {
  deployment_id : Z;
  log_type : string;
  log_message : string
}.

(** ** The host and the socket server *)

Inductive cmd : Type :=
| Exec (command : string) (cwd : option string) (timeout : option Z)
| Mkdir (dir : string)
| WriteFile (target : string) (data : string)
| Unlink (target : string)
| Symlink (target : string) (link : string).

Inductive outcome : Type :=
| Done (stdout : string)
| Failed (reason : string).

Definition event : Type := (cmd * outcome)%type.

Record emission : Type := {
  room : string;
  event_name : string;
  payload_type : string;
  payload_message : string;
  timestamp : Z
}.

Record world : Type := {
  projects : list project;
  files : list file;
  deployments : list deployment;
  deployments_id_seq : Z;
  build_logs : list build_log;
  emitted : list emission;
  console : list string;
  trace : list event;
  ticks : nat
}.

Definition with_deployments (ds : list deployment) (w : world) : world :=
  {| projects := projects w; files := files w; deployments := ds;
     deployments_id_seq := deployments_id_seq w; build_logs := build_logs w;
     emitted := emitted w; console := console w; trace := trace w;
     ticks := ticks w |}.

Definition with_seq (n : Z) (w : world) : world :=
  {| projects := projects w; files := files w; deployments := deployments w;
     deployments_id_seq := n; build_logs := build_logs w;
     emitted := emitted w; console := console w; trace := trace w;
     ticks := ticks w |}.

Definition with_build_logs (ls : list build_log) (w : world) : world :=
  {| projects := projects w; files := files w; deployments := deployments w;
     deployments_id_seq := deployments_id_seq w; build_logs := ls;
     emitted := emitted w; console := console w; trace := trace w;
     ticks := ticks w |}.

Definition with_emitted (es : list emission) (w : world) : world :=
  {| projects := projects w; files := files w; deployments := deployments w;
     deployments_id_seq := deployments_id_seq w; build_logs := build_logs w;
     emitted := es; console := console w; trace := trace w;
     ticks := ticks w |}.

Definition with_console (c : list string) (w : world) : world :=
  {| projects := projects w; files := files w; deployments := deployments w;
     deployments_id_seq := deployments_id_seq w; build_logs := build_logs w;
     emitted := emitted w; console := c; trace := trace w;
     ticks := ticks w |}.

Definition with_trace (t : list event) (w : world) : world :=
  {| projects := projects w; files := files w; deployments := deployments w;
     deployments_id_seq := deployments_id_seq w; build_logs := build_logs w;
     emitted := emitted w; console := console w; trace := t;
     ticks := ticks w |}.

Definition with_ticks (n : nat) (w : world) : world :=
  {| projects := projects w; files := files w; deployments := deployments w;
     deployments_id_seq := deployments_id_seq w; build_logs := build_logs w;
     emitted := emitted w; console := console w; trace := trace w;
     ticks := n |}.

(** ** The monad of an invocation *)

Inductive completion (A : Type) : Type :=
| Return (a : A)
| Throw (e : exn).

Arguments Return {A} a.
Arguments Throw {A} e.

Definition M (A : Type) : Type := world -> completion A * world.

Definition ret {A : Type} (a : A) : M A := fun w => (Return a, w).

Definition throw {A : Type} (e : exn) : M A := fun w => (Throw e, w).

Definition bind {A B : Type} (m : M A) (f : A -> M B) : M B :=
  fun w =>
    match m w with
    | (Return a, w1) => f a w1
    | (Throw e, w1) => (Throw e, w1)
    end.

(** [try { m } catch (error) { h error }] *)
Definition try_catch {A : Type} (m : M A) (h : exn -> M A) : M A :=
  fun w =>
    match m w with
    | (Return a, w1) => (Return a, w1)
    | (Throw e, w1) => h e w1
    end.

Declare Scope js_scope.
Delimit Scope js_scope with js.
Notation "x <- m ;; k" := (bind m (fun x => k))
  (at level 61, m at next level, right associativity) : js_scope.
Notation "m ;; k" := (bind m (fun _ => k))
  (at level 61, right associativity) : js_scope.
Open Scope js_scope.

(** ** A sample runtime, sample hosts and sample databases

    Concrete values of everything the engine is parameterised by, on which
    the properties below are tried. *)

Definition sample_join (a b : string) : string := a ++ "/" ++ b.

(** What precedes the last slash of a path, when it has one. *)
Fixpoint before_last_slash (s : string) : option string :=
  match s with
  | EmptyString => None
  | String c rest =>
      match before_last_slash rest with
      | Some d => Some (String c d)
      | None => if Ascii.eqb c "/"%char then Some EmptyString else None
      end
  end.

Definition sample_dirname (s : string) : string :=
  match before_last_slash s with
  | Some d => d
  | None => "."
  end.

Definition is_space (c : ascii) : bool :=
  let n := nat_of_ascii c in
  (Nat.leb 9 n && Nat.leb n 13) || Nat.eqb n 32.

Fixpoint trim_start (s : string) : string :=
  match s with
  | EmptyString => EmptyString
  | String c rest => if is_space c then trim_start rest else s
  end.

Fixpoint reverse (s : string) : string :=
  match s with
  | EmptyString => EmptyString
  | String c rest => reverse rest ++ String c EmptyString
  end.

Definition sample_trim (s : string) : string :=
  reverse (trim_start (reverse (trim_start s))).

(** Decimal text, with an optional sign. *)
Definition sample_int4in (s : string) : option Z :=
  option_map Z.of_int (NilZero.int_of_string s).

Definition sample_clock (n : nat) : Z := 1700000000000 + 1500 * Z.of_nat n.

(** A host on which every command succeeds; [docker run] prints the id of
    the container it started. *)
Definition obliging (history : list event) (c : cmd) : outcome :=
  match c with
  | Exec command _ _ =>
      if String.prefix "docker run" command
      then Done ("4f2a9c0d71be" ++ nl)
      else Done EmptyString
  | _ => Done EmptyString
  end.

(** The same host, except that one command line fails. *)
Definition failing_on (bad reason : string) (history : list event) (c : cmd)
    : outcome :=
  match c with
  | Exec command _ _ =>
      if String.eqb command bad then Failed reason else obliging history c
  | _ => obliging history c
  end.

Definition spa_project : project :=
  {| proj_id := 7; user_id := Some 1; framework := Some "react";
     build_command := Some "npm run build"; start_command := Some "npm start";
     output_dir := Some "dist"; port := Some 3000 |}.

Definition node_project : project :=
  {| proj_id := 9; user_id := Some 1; framework := Some "node";
     build_command := None; start_command := Some "node server.js";
     output_dir := None; port := Some 8080 |}.

Definition svelte_project : project :=
  {| proj_id := 11; user_id := Some 1; framework := Some "svelte";
     build_command := None; start_command := None;
     output_dir := None; port := None |}.

Definition index_html : file :=
  {| file_project_id := Some 7; path := "index.html";
     content := Some "<!doctype html><script src=app.js></script>" |}.

Definition app_js : file :=
  {| file_project_id := Some 7; path := "app.js";
     content := Some "document.title = 'app'" |}.

Definition server_js : file :=
  {| file_project_id := Some 9; path := "src/server.js";
     content := Some "require('http').createServer().listen(8080)" |}.

(** Projects 7 and 9 with their files, nothing deployed yet. *)
Definition fresh_world : world :=
  {| projects := [spa_project; node_project; svelte_project];
     files := [index_html; app_js; server_js];
     deployments := []; deployments_id_seq := 1; build_logs := [];
     emitted := []; console := []; trace := []; ticks := 0 |}.


Definition earlier_deployment : deployment :=
  {| id := 1; project_id := Some 7; status := "running";
     container_id := Some "9d3e5b6a0c11";
     container_name := Some "criacode-project-7-1699999990000";
     url := Some "http://project-7.local";
     commit_message := Some "first"; build_duration := Some 12 |}.

Definition aborted_deployment : deployment :=
  {| id := 2; project_id := Some 9; status := "building";
     container_id := None; container_name := None; url := None;
     commit_message := Some "stuck"; build_duration := None |}.

(** Project 7 is running from an earlier deployment; a deployment of
    project 9 never got a container. *)
Definition busy_world : world :=
  {| projects := [spa_project; node_project; svelte_project];
     files := [index_html; app_js; server_js];
     deployments := [earlier_deployment; aborted_deployment];
     deployments_id_seq := 3; build_logs := [];
     emitted := []; console := []; trace := []; ticks := 0 |}.

(** The first deployment of project 7 has been recorded and nothing of it
    has been done yet. *)
Definition pending_deployment : deployment :=
  {| id := 1; project_id := Some 7; status := "building";
     container_id := None; container_name := None; url := None;
     commit_message := Some "first"; build_duration := None |}.

Definition building_world : world :=
  {| projects := [spa_project; node_project; svelte_project];
     files := [index_html; app_js; server_js];
     deployments := [pending_deployment]; deployments_id_seq := 2;
     build_logs := []; emitted := []; console := []; trace := []; ticks := 0 |}.



(** The payload the tokens of [server.js] are signed with, and a
    verification that accepts one token, signed with the default key. *)
Record session : Type := {
  session_user : Z;
  session_email : string
}.

Definition sample_verify (token secret : string) : option session :=
  if String.eqb token "header.payload.signature"
     && String.eqb secret "criacode-secret-key"
  then Some {| session_user := 1; session_email := "ana@criacode.dev" |}
  else None.

(** ** The engine *)

Section Engine.

(** Library functions of the runtime, taken as they are: [path.join] and
    [path.dirname] of Node, [String.prototype.trim], and the conversion
    PostgreSQL applies to a text parameter compared with an [INTEGER]
    column ([None] when the text is no integer: the query is rejected). *)
Variable path_join : string -> string -> string.
Variable path_dirname : string -> string.
Variable trim : string -> string.
Variable int4in : string -> option Z.

(** The host: what a command answers after a given history; and the clock
    at its [n]-th reading. *)
Variable respond : list event -> cmd -> outcome.
Variable now : nat -> Z.

(** *** Primitives *)

Definition get : M world := fun w => (Return w, w).

Definition modify (f : world -> world) : M unit := fun w => (Return tt, f w).

(** A child process or filesystem call: the answer is logged, a failure is
    a rejected promise. *)
Definition run (c : cmd) : M string :=
  fun w =>
    let o := respond (trace w) c in
    (match o with
     | Done out => Return out
     | Failed m => Throw (JsError m)
     end,
     with_trace (trace w ++ [(c, o)]) w).

Definition execPromise (command : string) (cwd : option string)
    (timeout : option Z) : M string :=
  run (Exec command cwd timeout).

Definition fs_mkdir (dir : string) : M unit := run (Mkdir dir) ;; ret tt.

Definition fs_writeFile (target data : string) : M unit :=
  run (WriteFile target data) ;; ret tt.

Definition fs_unlink (target : string) : M unit := run (Unlink target) ;; ret tt.

Definition fs_symlink (target link : string) : M unit :=
  run (Symlink target link) ;; ret tt.

(** [Date.now()] and [new Date()] *)
Definition Date_now : M Z :=
  fun w => (Return (now (ticks w)), with_ticks (S (ticks w)) w).

(** An entry on the console.  [console.error(label, error)] is recorded as
    the label followed by the message of the error; what Node prints after
    the label is its rendering of the error object, which has the name and
    the stack of the error around the message. *)
Definition console_log (line : string) : M unit :=
  modify (fun w => with_console (console w ++ [line]) w).

Definition io_emit (e : emission) : M unit :=
  modify (fun w => with_emitted (emitted w ++ [e]) w).

(** Resolution of an identifier against the names bound where it is
    evaluated. *)
Definition identifier (scope : list string) (x : string) : M unit :=
  if existsb (String.eqb x) scope then ret tt
  else throw (ReferenceError (x ++ " is not defined")).

(** *** Queries of the pool

    The pool is the in-memory store of the [world].  A query is rejected
    only where PostgreSQL's own rules reject it: a parameter that is no
    integer where one is compared with an integer column, and a duplicate
    primary key.  Timestamps kept by the database are left out, and so are
    the foreign keys: a row of [build_logs] is accepted whether or not the
    row of its deployment is in the table.  Within [deploy] it always is,
    since the row is inserted before the first log and no row is ever
    deleted; a property of a stage taken alone that depends on it states
    it as a hypothesis ([recorded]). *)

(** An identifier sent as the parameter of a comparison with an integer
    column. *)
Definition sql_int (v : jsval) : M Z :=
  match v with
  | JNum n => ret n
  | JStr s =>
      match int4in s with
      | Some n => ret n
      | None => throw (JsError "invalid input syntax for type integer")
      end
  end.

Definition int_is (a : option Z) (n : Z) : bool :=
  match a with
  | Some m => Z.eqb m n
  | None => false
  end.

(** [SELECT * FROM projects WHERE id = $1 AND user_id = $2], first row *)
Definition select_project (projectId : jsval) (userId : Z) : M (option project) :=
  pid <- sql_int projectId ;;
  w <- get ;;
  ret (hd_error (filter (fun p => Z.eqb (proj_id p) pid && int_is (user_id p) userId)
                        (projects w))).

(** [INSERT INTO deployments (project_id, status, commit_message) ...
    RETURNING id]: the id is drawn from the sequence of the [SERIAL] column;
    the primary key rejects an id already present. *)
Definition insert_deployment (projectId : jsval) (st commitMessage : string) : M Z :=
  pid <- sql_int projectId ;;
  w <- get ;;
  let n := deployments_id_seq w in
  modify (with_seq (n + 1)) ;;
  if existsb (fun d => Z.eqb (id d) n) (deployments w)
  then throw (JsError "duplicate key value violates unique constraint")
  else
    modify (fun w => with_deployments
              (deployments w ++
               [{| id := n; project_id := Some pid; status := st;
                   container_id := None; container_name := None; url := None;
                   commit_message := Some commitMessage;
                   build_duration := None |}]) w) ;;
    ret n.

(** [SELECT * FROM files WHERE project_id = $1] *)
Definition select_files (projectId : jsval) : M (list file) :=
  pid <- sql_int projectId ;;
  w <- get ;;
  ret (filter (fun f => int_is (file_project_id f) pid) (files w)).

(** [SELECT container_name FROM deployments WHERE project_id = $1 AND
    status = $2 AND id != $3] *)
Definition select_container_names (projectId : jsval) (st : string)
    (deploymentId : Z) : M (list (option string)) :=
  pid <- sql_int projectId ;;
  w <- get ;;
  ret (map container_name
         (filter (fun d => int_is (project_id d) pid && String.eqb (status d) st
                           && negb (Z.eqb (id d) deploymentId))
                 (deployments w))).

(** [SELECT * FROM deployments WHERE id = $1], first row *)
Definition select_deployment (deploymentId : jsval) : M (option deployment) :=
  did <- sql_int deploymentId ;;
  w <- get ;;
  ret (hd_error (filter (fun d => Z.eqb (id d) did) (deployments w))).

Definition set_status (st : string) (d : deployment) : deployment :=
  {| id := id d; project_id := project_id d; status := st;
     container_id := container_id d; container_name := container_name d;
     url := url d; commit_message := commit_message d;
     build_duration := build_duration d |}.

Definition set_running (cid cname u : string) (duration : Z) (d : deployment)
    : deployment :=
  {| id := id d; project_id := project_id d; status := "running";
     container_id := Some cid; container_name := Some cname;
     url := Some u; commit_message := commit_message d;
     build_duration := Some duration |}.

(** [UPDATE deployments SET ... WHERE ...] *)
Definition update_deployments (cond : deployment -> bool)
    (f : deployment -> deployment) : M unit :=
  modify (fun w => with_deployments
            (map (fun d => if cond d then f d else d) (deployments w)) w).

(** [INSERT INTO build_logs (deployment_id, log_type, message)] *)
Definition insert_build_log (deploymentId : Z) (logType msg : string) : M unit :=
  modify (fun w => with_build_logs
            (build_logs w ++
             [{| deployment_id := deploymentId; log_type := logType;
                 log_message := msg |}]) w).

(** *** [class DeployEngine] *)

Definition deploysDir : string := "/var/criacode/deploys".
Definition nginxConfigDir : string := "/etc/nginx/sites-available".
Definition nginxEnabledDir : string := "/etc/nginx/sites-enabled".

Definition createDeployDirectory (projectId : jsval) : M string :=
  let projectDir := path_join deploysDir ("project-" ++ to_string projectId) in
  fs_mkdir projectDir ;;
  ret projectDir.

(** The loop of [saveProjectFiles]. *)
Fixpoint writeEach (projectDir : string) (fs : list file) : M unit :=
  match fs with
  | [] => ret tt
  | f :: rest =>
      let filePath := path_join projectDir (path f) in
      let fileDir := path_dirname filePath in
      fs_mkdir fileDir ;;
      fs_writeFile filePath (or_else (content f) EmptyString) ;;
      writeEach projectDir rest
  end.

Definition saveProjectFiles (projectId : jsval) (fs : list file) : M string :=
  projectDir <- createDeployDirectory projectId ;;
  writeEach projectDir fs ;;
  ret projectDir.

Definition addBuildLog (deploymentId : Z) (logType msg : string) : M unit :=
  insert_build_log deploymentId logType msg ;;
  t <- Date_now ;;
  io_emit {| room := "deployment-" ++ string_of_Z deploymentId;
             event_name := "build-log"; payload_type := logType;
             payload_message := msg; timestamp := t |}.

Definition buildReactProject (projectDir : string) (deploymentId : Z)
    (p : project) : M bool :=
  try_catch
    (addBuildLog deploymentId "info" "📦 Instalando dependências..." ;;
     installOut <- execPromise "npm install" (Some projectDir) (Some 300000) ;;
     addBuildLog deploymentId "info" installOut ;;
     addBuildLog deploymentId "info" "🔨 Construindo projeto..." ;;
     let buildCommand := or_else (build_command p) "npm run build" in
     buildOut <- execPromise buildCommand (Some projectDir) (Some 600000) ;;
     addBuildLog deploymentId "info" buildOut ;;
     ret true)
    (fun error =>
       addBuildLog deploymentId "error" ("❌ Erro no build: " ++ message error) ;;
       throw error).

Definition buildNextProject (projectDir : string) (deploymentId : Z)
    (p : project) : M bool :=
  try_catch
    (addBuildLog deploymentId "info" "📦 Instalando dependências Next.js..." ;;
     installOut <- execPromise "npm install" (Some projectDir) (Some 300000) ;;
     addBuildLog deploymentId "info" installOut ;;
     addBuildLog deploymentId "info" "🔨 Construindo Next.js..." ;;
     buildOut <- execPromise "npm run build" (Some projectDir) (Some 600000) ;;
     addBuildLog deploymentId "info" buildOut ;;
     ret true)
    (fun error =>
       addBuildLog deploymentId "error" ("❌ Erro no build: " ++ message error) ;;
       throw error).

(** [project.framework === name] *)
Definition framework_is (p : project) (name : string) : bool :=
  match framework p with
  | Some f => String.eqb f name
  | None => false
  end.

Definition dockerfile_spa (p : project) : string :=
  unlines
    [ EmptyString;
      "FROM node:18-alpine AS builder";
      "WORKDIR /app";
      "COPY package*.json ./";
      "RUN npm install";
      "COPY . .";
      "RUN " ++ or_else (build_command p) "npm run build";
      EmptyString;
      "FROM nginx:alpine";
      "COPY --from=builder /app/" ++ or_else (output_dir p) "dist"
        ++ " /usr/share/nginx/html";
      "COPY nginx-spa.conf /etc/nginx/conf.d/default.conf";
      "EXPOSE 80";
      "CMD [" ++ dq ++ "nginx" ++ dq ++ ", " ++ dq ++ "-g" ++ dq ++ ", "
        ++ dq ++ "daemon off;" ++ dq ++ "]";
      "      " ].

Definition nginxSpaConfig : string :=
  unlines
    [ EmptyString;
      "server {";
      "    listen 80;";
      "    root /usr/share/nginx/html;";
      "    index index.html;";
      "    ";
      "    location / {";
      "        try_files $uri $uri/ /index.html;";
      "    }";
      "    ";
      "    gzip on;";
      "    gzip_types text/plain text/css application/json application/javascript text/xml application/xml;";
      "}";
      "      " ].

Definition dockerfile_nextjs (p : project) : string :=
  unlines
    [ EmptyString;
      "FROM node:18-alpine";
      "WORKDIR /app";
      "COPY package*.json ./";
      "RUN npm install";
      "COPY . .";
      "RUN npm run build";
      "EXPOSE " ++ string_of_Z (or_elseZ (port p) 3000);
      "CMD [" ++ dq ++ "npm" ++ dq ++ ", " ++ dq ++ "start" ++ dq ++ "]";
      "      " ].

Definition dockerfile_node (p : project) : string :=
  unlines
    [ EmptyString;
      "FROM node:18-alpine";
      "WORKDIR /app";
      "COPY package*.json ./";
      "RUN npm install --production";
      "COPY . .";
      "EXPOSE " ++ string_of_Z (or_elseZ (port p) 3000);
      "CMD [" ++ dq ++ or_else (start_command p) "node index.js" ++ dq ++ "]";
      "      " ].

Definition createDockerfile (projectDir : string) (p : project) : M unit :=
  dockerfile <-
    (if framework_is p "react" || framework_is p "html" then
       fs_writeFile (path_join projectDir "nginx-spa.conf") nginxSpaConfig ;;
       ret (dockerfile_spa p)
     else if framework_is p "nextjs" then ret (dockerfile_nextjs p)
     else if framework_is p "node" then ret (dockerfile_node p)
     else ret EmptyString) ;;
  fs_writeFile (path_join projectDir "Dockerfile") dockerfile.

(** The loop of [createContainer] over the superseded deployments; a name
    that is truthy is the text interpolated in the commands. *)
Fixpoint stopEach (names : list (option string)) : M unit :=
  match names with
  | [] => ret tt
  | name :: rest =>
      (if truthy name then
         execPromise ("docker stop " ++ or_else name EmptyString) None None ;;
         execPromise ("docker rm " ++ or_else name EmptyString) None None ;;
         ret tt
       else ret tt) ;;
      stopEach rest
  end.

Record container : Type := {
  containerId : string;
  containerName : string;
  hostPort : jsval
}.

(** [const hostPort = 10000 + projectId] *)
Definition host_port (projectId : jsval) : jsval := js_add (JNum 10000) projectId.

Definition docker_run_command (name : string) (hp : jsval) (p : Z)
    (imageName : string) : string :=
  "docker run -d --name " ++ name ++ " -p " ++ to_string hp ++ ":"
    ++ string_of_Z p ++ " --restart unless-stopped " ++ imageName.

Definition createContainer (projectId : jsval) (deploymentId : Z)
    (p : project) (projectDir : string) : M container :=
  t <- Date_now ;;
  let name := "criacode-project-" ++ to_string projectId ++ "-" ++ string_of_Z t in
  let innerPort := or_elseZ (port p) 3000 in
  let hp := host_port projectId in
  try_catch
    (addBuildLog deploymentId "info" "🐳 Criando container Docker..." ;;
     createDockerfile projectDir p ;;
     addBuildLog deploymentId "info" "🔨 Construindo imagem Docker..." ;;
     let imageName := "criacode-" ++ to_string projectId ++ ":latest" in
     execPromise ("docker build -t " ++ imageName ++ " .")
                 (Some projectDir) (Some 900000) ;;
     try_catch
       (oldDeployments <- select_container_names projectId "running" deploymentId ;;
        stopEach oldDeployments)
       (fun err => console_log "Nenhum container anterior para parar") ;;
     addBuildLog deploymentId "info" "🚀 Iniciando container..." ;;
     stdout <- execPromise (docker_run_command name hp innerPort imageName)
                           None None ;;
     let cid := trim stdout in
     addBuildLog deploymentId "info" ("✅ Container criado: " ++ name) ;;
     ret {| containerId := cid; containerName := name; hostPort := hp |})
    (fun error =>
       addBuildLog deploymentId "error"
         ("❌ Erro ao criar container: " ++ message error) ;;
       throw error).

Definition nginxConfig (serverName : string) (hp : jsval) : string :=
  unlines
    [ EmptyString;
      "server {";
      "    listen 80;";
      "    server_name " ++ serverName ++ ";";
      EmptyString;
      "    location / {";
      "        proxy_pass http://localhost:" ++ to_string hp ++ ";";
      "        proxy_http_version 1.1;";
      "        proxy_set_header Upgrade $http_upgrade;";
      "        proxy_set_header Connection 'upgrade';";
      "        proxy_set_header Host $host;";
      "        proxy_cache_bypass $http_upgrade;";
      "        proxy_set_header X-Real-IP $remote_addr;";
      "        proxy_set_header X-Forwarded-For $proxy_add_x_forwarded_for;";
      "        proxy_set_header X-Forwarded-Proto $scheme;";
      "    }";
      "}";
      "    " ].

(** [domain || `project-${projectId}.local`] *)
Definition server_name (projectId : jsval) (domain : option string) : string :=
  or_else domain ("project-" ++ to_string projectId ++ ".local").

Definition configureNginx (projectId : jsval) (hp : jsval)
    (domain : option string) : M string :=
  let serverName := server_name projectId domain in
  let configFile := "criacode-project-" ++ to_string projectId in
  try_catch
    (let configPath := path_join nginxConfigDir configFile in
     fs_writeFile configPath (nginxConfig serverName hp) ;;
     let enabledPath := path_join nginxEnabledDir configFile in
     try_catch (fs_unlink enabledPath) (fun err => ret tt) ;;
     fs_symlink configPath enabledPath ;;
     execPromise "nginx -t" None None ;;
     execPromise "nginx -s reload" None None ;;
     ret serverName)
    (fun error =>
       console_log ("Erro ao configurar Nginx: " ++ message error) ;;
       throw error).

Inductive deploy_result : Type :=
| DeploySucceeded (deploymentId : Z) (url : string) (buildDuration : Z)
| DeployFailed (error : string).

Definition success (r : deploy_result) : bool :=
  match r with
  | DeploySucceeded _ _ _ => true
  | DeployFailed _ => false
  end.

(** The names bound where the [catch] block of [deploy] is evaluated: its
    own parameter, the parameters and the [const] of the function body, and
    the bindings of the module.  The [const]s of the [try] block
    ([project], [deployment], [deploymentId], [files], ...) are scoped to
    that block and are not among them. *)
Definition deploy_catch_scope : list string :=
  [ "error"; "startTime"; "projectId"; "userId"; "commitMessage";
    "exec"; "fs"; "path"; "promisify"; "execPromise"; "DeployEngine" ].

(** The [try] block of [deploy]. *)
Definition deploy_try (projectId : jsval) (userId : Z) (commitMessage : string)
    (startTime : Z) : M deploy_result :=
  found <- select_project projectId userId ;;
  match found with
  | None => throw (JsError "Projeto não encontrado")
  | Some p =>
      deploymentId <- insert_deployment projectId "building" commitMessage ;;
      addBuildLog deploymentId "info" "🚀 Iniciando deploy..." ;;
      fs <- select_files projectId ;;
      if Nat.eqb (List.length fs) 0
      then throw (JsError "Projeto não tem arquivos")
      else
        addBuildLog deploymentId "info" "📁 Salvando arquivos..." ;;
        projectDir <- saveProjectFiles projectId fs ;;
        (if framework_is p "react" || framework_is p "html" then
           buildReactProject projectDir deploymentId p ;; ret tt
         else if framework_is p "nextjs" then
           buildNextProject projectDir deploymentId p ;; ret tt
         else ret tt) ;;
        c <- createContainer projectId deploymentId p projectDir ;;
        addBuildLog deploymentId "info" "⚙️ Configurando proxy reverso..." ;;
        serverName <- configureNginx projectId (hostPort c) None ;;
        finish <- Date_now ;;
        let buildDuration := (finish - startTime) / 1000 in
        let u := "http://" ++ serverName in
        update_deployments (fun d => Z.eqb (id d) deploymentId)
          (set_running (containerId c) (containerName c) u buildDuration) ;;
        pid <- sql_int projectId ;;
        update_deployments
          (fun d => int_is (project_id d) pid
                    && negb (Z.eqb (id d) deploymentId)
                    && String.eqb (status d) "running")
          (set_status "stopped") ;;
        addBuildLog deploymentId "info"
          ("✅ Deploy concluído com sucesso em " ++ string_of_Z buildDuration
           ++ "s!") ;;
        addBuildLog deploymentId "info" ("🌐 URL: " ++ u) ;;
        ret (DeploySucceeded deploymentId u buildDuration)
  end.

(** [x?.id] where the names of [scope] are bound: the identifier is resolved
    first, and an unbound one raises.  None of the values bound in the scopes
    used here has an [id] property, so a bound one yields [undefined]. *)
Definition optional_id (scope : list string) (x : string) : M (option Z) :=
  identifier scope x ;; ret None.

(** [WHERE id = $n] with a parameter that may be [undefined], sent as
    [NULL]. *)
Definition id_is (v : option Z) (d : deployment) : bool :=
  match v with
  | Some n => Z.eqb (id d) n
  | None => false
  end.

(** The [catch] block of [deploy].  The parameters of its query,
    ['failed'] and [deployment?.id], are evaluated before the query is
    sent. *)
Definition deploy_catch (error : exn) : M deploy_result :=
  console_log ("Erro no deploy: " ++ message error) ;;
  target <- optional_id deploy_catch_scope "deployment" ;;
  update_deployments (id_is target) (set_status "failed") ;;
  ret (DeployFailed (message error)).

Definition deploy (projectId : jsval) (userId : Z) (commitMessage : string)
    : M deploy_result :=
  startTime <- Date_now ;;
  try_catch (deploy_try projectId userId commitMessage startTime) deploy_catch.

Definition stopDeployment (deploymentId : jsval) : M bool :=
  try_catch
    (found <- select_deployment deploymentId ;;
     (match found with
      | Some d =>
          if truthy (container_name d) then
            execPromise ("docker stop " ++ or_else (container_name d) EmptyString)
                        None None ;;
            execPromise ("docker rm " ++ or_else (container_name d) EmptyString)
                        None None ;;
            did <- sql_int deploymentId ;;
            update_deployments (fun r => Z.eqb (id r) did) (set_status "stopped")
          else ret tt
      | None => ret tt
      end) ;;
     ret true)
    (fun error =>
       console_log ("Erro ao parar deployment: " ++ message error) ;;
       ret false).

(** The route [POST /api/deploy/:projectId] of [server.js], past its
    ownership check: the route parameter, a string, is handed to the engine
    as it is. *)
Definition route_deploy (projectId : string) (userId : Z)
    (commitMessage : option string) : M deploy_result :=
  deploy (JStr projectId) userId (or_else commitMessage "Deploy manual").

(** ** Vocabulary of the properties *)

(** A relation between the world before and the world after that a
    computation maintains, whether it returns or throws. *)
Definition respects (R : world -> world -> Prop) {A : Type} (m : M A) : Prop :=
  forall w, R w (snd (m w)).

(** The tables of the database are left as they were. *)
Definition same_tables (w w' : world) : Prop :=
  projects w' = projects w /\ files w' = files w /\
  deployments w' = deployments w /\
  deployments_id_seq w' = deployments_id_seq w.

(** The host sees further commands, each of a given kind. *)
Definition trace_extends (P : event -> Prop) (w w' : world) : Prop :=
  exists t, trace w' = (trace w ++ t)%list /\ Forall P t.

(** The commands issued between two worlds of one invocation. *)
Definition events_since (w w' : world) : list event :=
  skipn (List.length (trace w)) (trace w').

(** An install or build command of the build stage: the child processes
    started with the five and ten minute budgets. *)
Definition build_step (c : cmd) : bool :=
  match c with
  | Exec _ _ (Some t) => Z.eqb t 300000 || Z.eqb t 600000
  | _ => false
  end.

Definition quiet (e : event) : Prop := build_step (fst e) = false.

Definition is_exec (e : event) : bool :=
  match fst e with
  | Exec _ _ _ => true
  | _ => false
  end.

Definition on_disk (e : event) : Prop := is_exec e = false.

(** The integer PostgreSQL reads in an identifier sent as a parameter. *)
Definition param (v : jsval) : option Z :=
  match v with
  | JNum n => Some n
  | JStr s => int4in s
  end.

(** The row [insert_deployment] adds. *)
Definition building_row (n pid : Z) (commitMessage : string) : deployment :=
  {| id := n; project_id := Some pid; status := "building";
     container_id := None; container_name := None; url := None;
     commit_message := Some commitMessage; build_duration := None |}.

(** A host interaction other than a failed install or build command. *)
Definition calm (e : event) : Prop :=
  build_step (fst e) = true -> exists out, snd e = Done out.

(** The log [buildReactProject] and [buildNextProject] record when one of
    their commands fails for [reason]. *)
Definition build_error_log (deploymentId : Z) (reason : string) : build_log :=
  {| deployment_id := deploymentId; log_type := "error";
     log_message := "❌ Erro no build: " ++ reason |}.

(** The host has seen further commands, the last of which is an install or
    build command that failed, and the failure is in the logs. *)
Definition build_failure_recorded (deploymentId : Z) (w w' : world) : Prop :=
  exists pre c cwd budget reason,
    trace w' = (trace w ++ pre ++ [(Exec c cwd (Some budget), Failed reason)])%list /\
    Forall calm pre /\
    In (build_error_log deploymentId reason) (build_logs w').

(** No install or build command has failed, or the first that did ended the
    run and is in the logs. *)
Definition build_failures_end_the_run (deploymentId : Z) (w w' : world) : Prop :=
  trace_extends calm w w' \/ build_failure_recorded deploymentId w w'.

(** The build dispatch of [deploy], by framework. *)
Definition build_stage (projectDir : string) (deploymentId : Z) (p : project)
    : M unit :=
  if framework_is p "react" || framework_is p "html" then
    buildReactProject projectDir deploymentId p ;; ret tt
  else if framework_is p "nextjs" then
    buildNextProject projectDir deploymentId p ;; ret tt
  else ret tt.

(** The end of the [try] block of [deploy], once the proxy is configured. *)
Definition finish_deploy (projectId : jsval) (deploymentId : Z) (startTime : Z)
    (c : container) (serverName : string) : M deploy_result :=
  finish <- Date_now ;;
  let buildDuration := (finish - startTime) / 1000 in
  let u := "http://" ++ serverName in
  update_deployments (fun d => Z.eqb (id d) deploymentId)
    (set_running (containerId c) (containerName c) u buildDuration) ;;
  pid <- sql_int projectId ;;
  update_deployments
    (fun d => int_is (project_id d) pid
              && negb (Z.eqb (id d) deploymentId)
              && String.eqb (status d) "running")
    (set_status "stopped") ;;
  addBuildLog deploymentId "info"
    ("✅ Deploy concluído com sucesso em " ++ string_of_Z buildDuration
     ++ "s!") ;;
  addBuildLog deploymentId "info" ("🌐 URL: " ++ u) ;;
  ret (DeploySucceeded deploymentId u buildDuration).

(** The [try] block of [deploy] from the point where the files are known to
    be there. *)
Definition pipeline (projectId : jsval) (p : project) (deploymentId : Z)
    (fs : list file) (startTime : Z) : M deploy_result :=
  addBuildLog deploymentId "info" "📁 Salvando arquivos..." ;;
  projectDir <- saveProjectFiles projectId fs ;;
  build_stage projectDir deploymentId p ;;
  c <- createContainer projectId deploymentId p projectDir ;;
  addBuildLog deploymentId "info" "⚙️ Configurando proxy reverso..." ;;
  serverName <- configureNginx projectId (hostPort c) None ;;
  finish_deploy projectId deploymentId startTime c serverName.

(** The two updates of [finish_deploy], row by row. *)
Definition promote (deploymentId : Z) (cid cname u : string) (duration : Z)
    (d : deployment) : deployment :=
  if Z.eqb (id d) deploymentId then set_running cid cname u duration d else d.

Definition retire (pid deploymentId : Z) (d : deployment) : deployment :=
  if int_is (project_id d) pid && negb (Z.eqb (id d) deploymentId)
     && String.eqb (status d) "running"
  then set_status "stopped" d else d.

(** The rows of a project that are running. *)
Definition running_of (pid : Z) (ds : list deployment) : list deployment :=
  filter (fun d => int_is (project_id d) pid && String.eqb (status d) "running") ds.

(** ** Plans of commands

    Several blocks of the engine issue a fixed list of commands one after
    the other and give up at the first that fails. *)

Definition succeeded (e : event) : Prop := exists out, snd e = Done out.

(** Every command of the plan was issued, in order, and succeeded. *)
Definition ran_through (plan : list cmd) (ev : list event) : Prop :=
  map fst ev = plan /\ Forall succeeded ev.

(** The commands of the plan were issued in order up to one that failed for
    [reason]; those before it succeeded and nothing was issued after it. *)
Definition stopped_short (plan : list cmd) (ev : list event) (reason : string)
    : Prop :=
  exists pre c rest,
    ev = (pre ++ [(c, Failed reason)])%list /\ Forall succeeded pre /\
    plan = (map fst pre ++ c :: rest)%list.

(** The commands one after the other, until one fails. *)
Fixpoint run_all (plan : list cmd) : M unit :=
  match plan with
  | [] => ret tt
  | c :: rest => run c ;; run_all rest
  end.

(** What [saveProjectFiles] sets out to do. *)
Definition save_plan (projectId : jsval) (fs : list file) : list cmd :=
  let projectDir := path_join deploysDir ("project-" ++ to_string projectId) in
  Mkdir projectDir
  :: flat_map
       (fun f =>
          [ Mkdir (path_dirname (path_join projectDir (path f)));
            WriteFile (path_join projectDir (path f))
                      (or_else (content f) EmptyString) ])
       fs.

(** What the loop of [createContainer] sets out to do. *)
Definition cleanup_plan (names : list (option string)) : list cmd :=
  flat_map
    (fun name =>
       if truthy name then
         [ Exec ("docker stop " ++ or_else name EmptyString) None None;
           Exec ("docker rm " ++ or_else name EmptyString) None None ]
       else [])
    names.

(** What [createDockerfile] sets out to do, by framework. *)
Definition recipe_plan (projectDir : string) (p : project) : list cmd :=
  if framework_is p "react" || framework_is p "html" then
    [ WriteFile (path_join projectDir "nginx-spa.conf") nginxSpaConfig;
      WriteFile (path_join projectDir "Dockerfile") (dockerfile_spa p) ]
  else if framework_is p "nextjs" then
    [ WriteFile (path_join projectDir "Dockerfile") (dockerfile_nextjs p) ]
  else if framework_is p "node" then
    [ WriteFile (path_join projectDir "Dockerfile") (dockerfile_node p) ]
  else [ WriteFile (path_join projectDir "Dockerfile") EmptyString ].

(** The container names of the other deployments of the project that are
    [running]: what the query of [createContainer] returns. *)
Definition superseded_names (projectId : jsval) (deploymentId : Z) (w : world)
    : list (option string) :=
  match param projectId with
  | Some pid =>
      map container_name
        (filter (fun d => int_is (project_id d) pid
                          && String.eqb (status d) "running"
                          && negb (Z.eqb (id d) deploymentId))
                (deployments w))
  | None => []
  end.

(** The commands of [createContainer] around its cleanup loop. *)
Definition image_name (projectId : jsval) : string :=
  "criacode-" ++ to_string projectId ++ ":latest".

Definition docker_build (projectId : jsval) (projectDir : string) : cmd :=
  Exec ("docker build -t " ++ image_name projectId ++ " .")
       (Some projectDir) (Some 900000).

Definition container_name_at (projectId : jsval) (t : Z) : string :=
  "criacode-project-" ++ to_string projectId ++ "-" ++ string_of_Z t.

Definition docker_run (projectId : jsval) (p : project) (t : Z) : cmd :=
  Exec (docker_run_command (container_name_at projectId t) (host_port projectId)
          (or_elseZ (port p) 3000) (image_name projectId))
       None None.

(** The log [createContainer] records when it gives up for [reason]. *)
Definition container_error_log (deploymentId : Z) (reason : string) : build_log :=
  {| deployment_id := deploymentId; log_type := "error";
     log_message := "❌ Erro ao criar container: " ++ reason |}.

(** The cleanup loop went through its plan or gave up on the way. *)
Definition best_effort (plan : list cmd) (ev : list event) : Prop :=
  ran_through plan ev \/ exists reason, stopped_short plan ev reason.

(** ** The two sinks of a log line *)

(** An event of the socket server that carries a row of [build_logs] to
    the room of its deployment. *)
Definition announces (l : build_log) (e : emission) : Prop :=
  room e = "deployment-" ++ string_of_Z (deployment_id l) /\
  event_name e = "build-log" /\
  payload_type e = log_type l /\ payload_message e = log_message l.

(** Rows were added to [build_logs], all of one deployment, and as many
    events were sent, one for each row and in the same order. *)
Definition logs_of (deploymentId : Z) (w w' : world) : Prop :=
  exists ls es,
    build_logs w' = (build_logs w ++ ls)%list /\
    emitted w' = (emitted w ++ es)%list /\
    Forall2 announces ls es /\
    Forall (fun l => deployment_id l = deploymentId) ls.

(** ** The tables around a deployment *)

Definition same_catalogue (w w' : world) : Prop :=
  projects w' = projects w /\ files w' = files w.

(** The deployments of the other projects, in the order of the table. *)
Definition of_other_projects (pid : Z) (ds : list deployment) : list deployment :=
  filter (fun d => negb (int_is (project_id d) pid)) ds.

Definition one_running_per_project (ds : list deployment) : Prop :=
  forall pid, (List.length (running_of pid ds) <= 1)%nat.

(** The update of [stopDeployment], row by row. *)
Definition halt (deploymentId : Z) (d : deployment) : deployment :=
  if Z.eqb (id d) deploymentId then set_status "stopped" d else d.

(** ** The clock *)

Definition clock_never_goes_back : Prop :=
  forall a b : nat, (a <= b)%nat -> now a <= now b.

Definition no_earlier (w w' : world) : Prop := (ticks w <= ticks w')%nat.

(** ** The rule of the reverse proxy *)

Definition proxy_rule (projectId : jsval) : string :=
  path_join nginxConfigDir ("criacode-project-" ++ to_string projectId).

Definition proxy_link (projectId : jsval) : string :=
  path_join nginxEnabledDir ("criacode-project-" ++ to_string projectId).

(** What [configureNginx] sets out to do. *)
Definition proxy_plan (projectId hp : jsval) (domain : option string) : list cmd :=
  [ WriteFile (proxy_rule projectId)
      (nginxConfig (server_name projectId domain) hp);
    Unlink (proxy_link projectId);
    Symlink (proxy_rule projectId) (proxy_link projectId);
    Exec "nginx -t" None None;
    Exec "nginx -s reload" None None ].

(** A command that succeeded, or the removal of the former link, whose
    failure [configureNginx] ignores. *)
Definition tolerated (projectId : jsval) (e : event) : Prop :=
  succeeded e \/ fst e = Unlink (proxy_link projectId).

(** The commands of the build stage, for the frameworks that have one. *)
Definition npm_install (projectDir : string) : cmd :=
  Exec "npm install" (Some projectDir) (Some 300000).

Definition npm_build (projectDir : string) (p : project) : cmd :=
  Exec (if framework_is p "react" || framework_is p "html"
        then or_else (build_command p) "npm run build"
        else "npm run build")
       (Some projectDir) (Some 600000).

Definition has_build_stage (p : project) : bool :=
  framework_is p "react" || framework_is p "html" || framework_is p "nextjs".

(** ** The callers of the engine in [server.js] *)

(** *** [authenticateToken] *)

(** [s.split(' ')] *)
Fixpoint split_space (s : string) : list string :=
  match s with
  | EmptyString => [EmptyString]
  | String c rest =>
      if Ascii.eqb c " "%char then EmptyString :: split_space rest
      else
        match split_space rest with
        | piece :: pieces => String c piece :: pieces
        | [] => [String c EmptyString]
        end
  end.

(** [authHeader && authHeader.split(' ')[1]]: a header that is missing or
    empty is the token itself. *)
Definition header_token (authHeader : option string) : option string :=
  match authHeader with
  | None => None
  | Some h =>
      if String.eqb h EmptyString then Some EmptyString
      else nth_error (split_space h) 1
  end.

(** [jwt.verify(token, secret, callback)]: the payload, or an error. *)
Variable jwt_verify : string -> string -> option session.

(** [process.env.JWT_SECRET || 'criacode-secret-key'] *)
Definition jwt_secret (env : option string) : string :=
  or_else env "criacode-secret-key".

(** What the middleware does with a request: it answers, or it hands the
    request on with [req.user] set. *)
Inductive verdict : Type :=
| Refused (code : Z) (error : string)
| Passed (user : session).

Definition authenticateToken (env authHeader : option string) : verdict :=
  let token := header_token authHeader in
  if negb (truthy token) then Refused 401 "Token não fornecido"
  else
    match jwt_verify (or_else token EmptyString) (jwt_secret env) with
    | None => Refused 403 "Token inválido"
    | Some user => Passed user
    end.

Fixpoint no_space (s : string) : bool :=
  match s with
  | EmptyString => true
  | String c rest => negb (Ascii.eqb c " "%char) && no_space rest
  end.

(** *** The routes of deployments *)

Inductive body : Type :=
| ErrorBody (error : string)
| DeployStarted (text state : string)
| StopResult (stopped : bool).

Record response : Type := {
  status_code : Z;
  json : body
}.

(** [res.json(b)] and [res.status(code).json(b)] *)
Definition res_json (b : body) : response := {| status_code := 200; json := b |}.

Definition res_status_json (code : Z) (b : body) : response :=
  {| status_code := code; json := b |}.

(** [io.to(room).emit(name, result)] *)
Record notice : Type := {
  notice_room : string;
  notice_event : string;
  notice_result : deploy_result
}.

(** [POST /api/deploy/:projectId].  The deployment is started and not
    awaited: the answer does not wait for it and does not depend on it.
    The run of its promise up to the point where it settles is placed here
    after the ownership check; what the handlers of the promise do is the
    second component of the result. *)
Definition post_deploy (projectId : string) (userId : Z)
    (commitMessage : option string) : M (response * option notice) :=
  try_catch
    (projectCheck <- select_project (JStr projectId) userId ;;
     match projectCheck with
     | None => ret (res_status_json 403 (ErrorBody "Acesso negado"), None)
     | Some _ =>
         settled <-
           try_catch
             (result <- route_deploy projectId userId commitMessage ;;
              ret (Some {| notice_room := "project-" ++ projectId;
                           notice_event := "deploy-complete";
                           notice_result := result |}))
             (fun error =>
                console_log ("Erro no deploy: " ++ message error) ;;
                ret None) ;;
         ret (res_json (DeployStarted "Deploy iniciado" "building"), settled)
     end)
    (fun error =>
       console_log ("Erro ao iniciar deploy: " ++ message error) ;;
       ret (res_status_json 500 (ErrorBody "Erro ao iniciar deploy"), None)).

(** [SELECT d.* FROM deployments d JOIN projects p ON d.project_id = p.id
    WHERE d.id = $1 AND p.user_id = $2] *)
Definition select_owned_deployment (deployId : jsval) (userId : Z)
    : M (list deployment) :=
  did <- sql_int deployId ;;
  w <- get ;;
  ret (flat_map
         (fun d =>
            map (fun _ => d)
              (filter (fun p => int_is (project_id d) (proj_id p)
                                && int_is (user_id p) userId)
                      (projects w)))
         (filter (fun d => Z.eqb (id d) did) (deployments w))).

(** [POST /api/deploy/:deployId/stop] *)
Definition post_stop (deployId : string) (userId : Z) : M response :=
  try_catch
    (deployCheck <- select_owned_deployment (JStr deployId) userId ;;
     if Nat.eqb (List.length deployCheck) 0
     then ret (res_status_json 403 (ErrorBody "Acesso negado"))
     else
       result <- stopDeployment (JStr deployId) ;;
       ret (res_json (StopResult result)))
    (fun error =>
       console_log ("Erro ao parar deploy: " ++ message error) ;;
       ret (res_status_json 500 (ErrorBody "Erro ao parar deploy"))).

(** The deployment is of a project of the user. *)
Definition owned_by (userId : Z) (w : world) (d : deployment) : Prop :=
  exists p, In p (projects w) /\ project_id d = Some (proj_id p) /\
            user_id p = Some userId.

(** The sequence of the deployment identifiers is where it was. *)
Definition same_sequence (w w' : world) : Prop :=
  deployments_id_seq w' = deployments_id_seq w.

(** *** The rooms of the socket server

    [socket.on('join-project')] and [socket.on('join-deployment')] of
    [server.js] put a socket in the room named after the identifier it
    sends; an event sent to a room reaches the sockets that joined it. *)

Inductive join_request : Type :=
| JoinProject (projectId : jsval)
| JoinDeployment (deploymentId : jsval).

Definition room_of (j : join_request) : string :=
  match j with
  | JoinProject projectId => "project-" ++ to_string projectId
  | JoinDeployment deploymentId => "deployment-" ++ to_string deploymentId
  end.

Definition delivered (joined : list join_request) (e : emission) : bool :=
  existsb (fun j => String.eqb (room_of j) (room e)) joined.

(** The events sent between two worlds of one invocation. *)
Definition emitted_since (w w' : world) : list emission :=
  skipn (List.length (emitted w)) (emitted w').

Definition joins_a_project (j : join_request) : Prop :=
  exists projectId, j = JoinProject projectId.

(** The statuses the engine gives a deployment. *)
Definition engine_statuses : list string := ["building"; "running"; "stopped"].

(** The host has seen further commands. *)
Definition trace_grows (w w' : world) : Prop :=
  trace w' = (trace w ++ events_since w w')%list.

(** The directory [deploy] materializes a project in. *)
Definition project_dir (projectId : jsval) : string :=
  path_join deploysDir ("project-" ++ to_string projectId).

(** ** The programs the host is asked to start *)

(** A child process of the container runtime or of the proxy. *)
Definition runtime_command (c : cmd) : bool :=
  match c with
  | Exec command _ _ =>
      String.prefix "docker " command || String.prefix "nginx " command
  | _ => false
  end.

(** A call to the filesystem, or a child process of the container runtime
    or of the proxy: nothing of the package manager, whatever its budget. *)
Definition off_the_package_manager (e : event) : Prop :=
  is_exec e = false \/ runtime_command (fst e) = true.

(** ** The instructions of an image recipe *)

(** The lines of a text. *)
Fixpoint text_lines (s : string) : list string :=
  match s with
  | EmptyString => [EmptyString]
  | String c rest =>
      if Ascii.eqb c (ascii_of_nat 10) then EmptyString :: text_lines rest
      else
        match text_lines rest with
        | line :: lines => String c line :: lines
        | [] => [String c EmptyString]
        end
  end.

Fixpoint no_line_feed (s : string) : bool :=
  match s with
  | EmptyString => true
  | String c rest => negb (Ascii.eqb c (ascii_of_nat 10)) && no_line_feed rest
  end.

(** The [RUN] instructions of a recipe: what [docker build] executes. *)
Definition run_instructions (recipe : string) : list string :=
  filter (String.prefix "RUN ") (text_lines recipe).

(** The row of the deployment is in the table: a row of [build_logs] may
    refer to it. *)
Definition recorded (deploymentId : Z) (w : world) : Prop :=
  existsb (fun d => Z.eqb (id d) deploymentId) (deployments w) = true.


(** * Properties *)

(** Templates and renderings stay folded during symbolic execution. *)
Arguments string_of_Z : simpl never.
Arguments to_string : simpl never.
Arguments unlines : simpl never.
Arguments host_port : simpl never.
Arguments docker_run_command : simpl never.
Arguments nginxConfig : simpl never.
Arguments server_name : simpl never.
Arguments dockerfile_spa : simpl never.
Arguments dockerfile_nextjs : simpl never.
Arguments dockerfile_node : simpl never.
Arguments nginxSpaConfig : simpl never.
Arguments String.append : simpl never.

(** ** Running a sequence *)

Lemma bind_run {A B : Type} (m : M A) (f : A -> M B) (w : world) :
  bind m f w =
  match m w with
  | (Return a, w1) => f a w1
  | (Throw e, w1) => (Throw e, w1)
  end.
Proof. reflexivity. Qed.

Lemma try_catch_run {A : Type} (m : M A) (h : exn -> M A) (w : world) :
  try_catch m h w =
  match m w with
  | (Return a, w1) => (Return a, w1)
  | (Throw e, w1) => h e w1
  end.
Proof. reflexivity. Qed.

Lemma bind_returns {A B : Type} (m : M A) (f : A -> M B) (w w' : world) (b : B) :
  bind m f w = (Return b, w') ->
  exists a w1, m w = (Return a, w1) /\ f a w1 = (Return b, w').
Proof.
  rewrite bind_run. destruct (m w) as [[a | e] w1]; intros H.
  - exists a, w1. split; [reflexivity | exact H].
  - discriminate H.
Qed.

Lemma try_catch_returns {A : Type} (m : M A) (h : exn -> M A) (w w' : world) (a : A) :
  try_catch m h w = (Return a, w') ->
  m w = (Return a, w') \/
  exists e w1, m w = (Throw e, w1) /\ h e w1 = (Return a, w').
Proof.
  rewrite try_catch_run. destruct (m w) as [[x | e] w1]; intros H.
  - left. exact H.
  - right. exists e, w1. split; [reflexivity | exact H].
Qed.

(** ** Relations every step of an invocation respects

    A preorder on worlds that each primitive respects is respected by every
    composition of primitives, whether it returns or throws. *)

Section Respects.

Variable R : world -> world -> Prop.
Context {R_preorder : PreOrder R}.

Lemma respects_ret {A : Type} (a : A) : respects R (ret a).
Proof. intros w. reflexivity. Qed.

Lemma respects_throw {A : Type} (e : exn) : respects R (@throw A e).
Proof. intros w. reflexivity. Qed.

Lemma respects_get : respects R get.
Proof. intros w. reflexivity. Qed.

Lemma respects_bind {A B : Type} (m : M A) (f : A -> M B) :
  respects R m -> (forall a, respects R (f a)) -> respects R (bind m f).
Proof.
  intros Hm Hf w. rewrite bind_run. specialize (Hm w).
  destruct (m w) as [[a | e] w1]; cbn in *.
  - transitivity w1; [exact Hm | apply Hf].
  - exact Hm.
Qed.

Lemma respects_try_catch {A : Type} (m : M A) (h : exn -> M A) :
  respects R m -> (forall e, respects R (h e)) -> respects R (try_catch m h).
Proof.
  intros Hm Hh w. rewrite try_catch_run. specialize (Hm w).
  destruct (m w) as [[a | e] w1]; cbn in *.
  - exact Hm.
  - transitivity w1; [exact Hm | apply Hh].
Qed.

Lemma respects_if {A : Type} (b : bool) (m1 m2 : M A) :
  respects R m1 -> respects R m2 -> respects R (if b then m1 else m2).
Proof. destruct b; auto. Qed.

Lemma respects_sql_int (v : jsval) : respects R (sql_int v).
Proof.
  destruct v as [n | s]; cbn.
  - apply respects_ret.
  - destruct (int4in s); [apply respects_ret | apply respects_throw].
Qed.

Lemma respects_identifier (scope : list string) (x : string) :
  respects R (identifier scope x).
Proof.
  unfold identifier. apply respects_if; [apply respects_ret | apply respects_throw].
Qed.

(** What is left to check of a primitive that changes the world. *)
Lemma respects_modify (f : world -> world) :
  (forall w, R w (f w)) -> respects R (modify f).
Proof. intros H w. apply H. Qed.

Lemma respects_run (c : cmd) :
  (forall w o, R w (with_trace (trace w ++ [(c, o)]) w)) -> respects R (run c).
Proof. intros H w. apply H. Qed.

Lemma respects_Date_now :
  (forall w, R w (with_ticks (S (ticks w)) w)) -> respects R Date_now.
Proof. intros H w. apply H. Qed.

End Respects.

#[local] Instance same_tables_preorder : PreOrder same_tables.
Proof.
  split.
  - intros w. repeat split.
  - intros a b c (H1 & H2 & H3 & H4) (K1 & K2 & K3 & K4).
    repeat split; congruence.
Qed.

#[local] Instance trace_extends_preorder (P : event -> Prop) :
  PreOrder (trace_extends P).
Proof.
  split.
  - intros w. exists []. split; [now rewrite app_nil_r | constructor].
  - intros a b c (l1 & H1 & F1) (l2 & H2 & F2). exists (l1 ++ l2)%list. split.
    + rewrite H2, H1. now rewrite app_assoc.
    + apply Forall_app. split; assumption.
Qed.

Lemma trace_extends_weaken (P Q : event -> Prop) (w w' : world) :
  (forall e, P e -> Q e) -> trace_extends P w w' -> trace_extends Q w w'.
Proof.
  intros H (t & E & F). exists t. split; [exact E |].
  eapply Forall_impl; [exact H | exact F].
Qed.

Create HintDb respects discriminated.

Ltac preorder_side :=
  try match goal with |- PreOrder _ => typeclasses eauto end.

Ltac intro_argument :=
  match goal with
  | |- forall _, _ => intro
  | |- _ => idtac
  end.

Ltac respects_step :=
  first
    [ apply respects_ret | apply respects_throw | apply respects_get
    | apply respects_sql_int | apply respects_identifier
    | apply respects_bind
    | apply respects_try_catch
    | apply respects_if
    | match goal with
      | |- respects _ (match ?x with _ => _ end) => destruct x
      end ];
  preorder_side; intro_argument.

Ltac respects_with leaf :=
  repeat first [ solve [ auto with respects nocore ] | respects_step | leaf ].

(** *** The stages leave the tables alone *)

Ltac same_tables_leaf :=
  first [ apply respects_run | apply respects_Date_now | apply respects_modify ];
  preorder_side; intros; repeat split.

Lemma addBuildLog_same_tables (d : Z) (ty msg : string) :
  respects same_tables (addBuildLog d ty msg).
Proof. unfold addBuildLog, insert_build_log, io_emit. respects_with same_tables_leaf. Qed.

#[local] Hint Resolve addBuildLog_same_tables : respects.

Lemma writeEach_same_tables (dir : string) (fs : list file) :
  respects same_tables (writeEach dir fs).
Proof.
  induction fs as [| f rest IH]; cbn [writeEach].
  - respects_step.
  - respects_with same_tables_leaf.
Qed.

#[local] Hint Resolve writeEach_same_tables : respects.

Lemma saveProjectFiles_same_tables (projectId : jsval) (fs : list file) :
  respects same_tables (saveProjectFiles projectId fs).
Proof. unfold saveProjectFiles, createDeployDirectory. respects_with same_tables_leaf. Qed.

Lemma buildReactProject_same_tables (dir : string) (d : Z) (p : project) :
  respects same_tables (buildReactProject dir d p).
Proof. unfold buildReactProject, execPromise. respects_with same_tables_leaf. Qed.

Lemma buildNextProject_same_tables (dir : string) (d : Z) (p : project) :
  respects same_tables (buildNextProject dir d p).
Proof. unfold buildNextProject, execPromise. respects_with same_tables_leaf. Qed.

Lemma createDockerfile_same_tables (dir : string) (p : project) :
  respects same_tables (createDockerfile dir p).
Proof. unfold createDockerfile. respects_with same_tables_leaf. Qed.

Lemma stopEach_same_tables (names : list (option string)) :
  respects same_tables (stopEach names).
Proof.
  induction names as [| name rest IH]; cbn [stopEach].
  - respects_step.
  - unfold execPromise. respects_with same_tables_leaf.
Qed.

#[local] Hint Resolve saveProjectFiles_same_tables buildReactProject_same_tables
  buildNextProject_same_tables createDockerfile_same_tables
  stopEach_same_tables : respects.

Lemma createContainer_same_tables (projectId : jsval) (d : Z) (p : project)
    (dir : string) :
  respects same_tables (createContainer projectId d p dir).
Proof.
  unfold createContainer, select_container_names, console_log, execPromise.
  respects_with same_tables_leaf.
Qed.

Lemma configureNginx_same_tables (projectId hp : jsval) (domain : option string) :
  respects same_tables (configureNginx projectId hp domain).
Proof.
  unfold configureNginx, console_log, execPromise.
  respects_with same_tables_leaf.
Qed.

#[local] Hint Resolve createContainer_same_tables configureNginx_same_tables
  : respects.

(** *** What the host sees of an invocation *)

Lemma skipn_length_app {A : Type} (l t : list A) :
  skipn (List.length l) (l ++ t) = t.
Proof. induction l as [| x l IH]; [reflexivity | exact IH]. Qed.

Lemma trace_extends_events (P : event -> Prop) (w w' : world) :
  trace_extends P w w' ->
  trace w' = (trace w ++ events_since w w')%list /\ Forall P (events_since w w').
Proof.
  intros (t & E & F). unfold events_since. rewrite E, skipn_length_app.
  split; [reflexivity | exact F].
Qed.

Ltac trace_leaf :=
  first
    [ apply respects_run; preorder_side; intros ? ?;
      eexists [_]; split; [ reflexivity | repeat constructor ]
    | first [ apply respects_Date_now | apply respects_modify ];
      preorder_side; intros ?;
      exists []; split; [ cbn; now rewrite app_nil_r | constructor ] ].

Lemma addBuildLog_silent (P : event -> Prop) (d : Z) (ty msg : string) :
  respects (trace_extends P) (addBuildLog d ty msg).
Proof. unfold addBuildLog, insert_build_log, io_emit. respects_with trace_leaf. Qed.

#[local] Hint Resolve addBuildLog_silent : respects.

Lemma writeEach_on_disk (dir : string) (fs : list file) :
  respects (trace_extends on_disk) (writeEach dir fs).
Proof.
  induction fs as [| f rest IH]; cbn [writeEach].
  - respects_step.
  - respects_with trace_leaf.
Qed.

#[local] Hint Resolve writeEach_on_disk : respects.

Lemma saveProjectFiles_on_disk (projectId : jsval) (fs : list file) :
  respects (trace_extends on_disk) (saveProjectFiles projectId fs).
Proof. unfold saveProjectFiles, createDeployDirectory. respects_with trace_leaf. Qed.

Lemma createDockerfile_on_disk (dir : string) (p : project) :
  respects (trace_extends on_disk) (createDockerfile dir p).
Proof. unfold createDockerfile. respects_with trace_leaf. Qed.

Lemma on_disk_quiet (e : event) : on_disk e -> quiet e.
Proof. destruct e as [[] o]; cbn; intros H; [discriminate H | reflexivity ..]. Qed.

Lemma respects_weaken {A : Type} (R R' : world -> world -> Prop) (m : M A) :
  (forall w w', R w w' -> R' w w') -> respects R m -> respects R' m.
Proof. intros H Hm w. apply H, Hm. Qed.

Lemma saveProjectFiles_quiet (projectId : jsval) (fs : list file) :
  respects (trace_extends quiet) (saveProjectFiles projectId fs).
Proof.
  eapply respects_weaken; [| apply saveProjectFiles_on_disk].
  intros w w'. apply trace_extends_weaken, on_disk_quiet.
Qed.

Lemma createDockerfile_quiet (dir : string) (p : project) :
  respects (trace_extends quiet) (createDockerfile dir p).
Proof.
  eapply respects_weaken; [| apply createDockerfile_on_disk].
  intros w w'. apply trace_extends_weaken, on_disk_quiet.
Qed.

Lemma stopEach_quiet (names : list (option string)) :
  respects (trace_extends quiet) (stopEach names).
Proof.
  induction names as [| name rest IH]; cbn [stopEach].
  - respects_step.
  - unfold execPromise. respects_with trace_leaf.
Qed.

#[local] Hint Resolve saveProjectFiles_quiet createDockerfile_quiet stopEach_quiet
  : respects.

Lemma createContainer_quiet (projectId : jsval) (d : Z) (p : project)
    (dir : string) :
  respects (trace_extends quiet) (createContainer projectId d p dir).
Proof.
  unfold createContainer, select_container_names, console_log, execPromise.
  respects_with trace_leaf.
Qed.

Lemma configureNginx_quiet (projectId hp : jsval) (domain : option string) :
  respects (trace_extends quiet) (configureNginx projectId hp domain).
Proof.
  unfold configureNginx, console_log, execPromise.
  respects_with trace_leaf.
Qed.

#[local] Hint Resolve createContainer_quiet configureNginx_quiet : respects.

(** ** Port allocation *)

Lemma host_port_string (s : string) : host_port (JStr s) = JStr ("10000" ++ s).
Proof. reflexivity. Qed.

Lemma createContainer_hostPort (projectId : jsval) (d : Z) (p : project)
    (dir : string) (w w' : world) (c : container) :
  createContainer projectId d p dir w = (Return c, w') ->
  hostPort c = host_port projectId.
Proof.
  unfold createContainer. intros H.
  apply bind_returns in H. destruct H as (t & w1 & _ & H).
  apply try_catch_returns in H. destruct H as [H | (e & w2 & _ & H)].
  - repeat (apply bind_returns in H; destruct H as (? & ? & _ & H)).
    injection H as H _. now subst c.
  - apply bind_returns in H. destruct H as (? & ? & _ & H). discriminate H.
Qed.

(** ** Symbolic execution *)

Ltac exec_unfold :=
  unfold execPromise, fs_mkdir, fs_writeFile, fs_unlink, fs_symlink, console_log,
    io_emit, insert_build_log, identifier, select_deployment, select_project,
    select_files, select_container_names, update_deployments, bind, try_catch,
    ret, throw, run, get, modify, Date_now.

Ltac host_cases :=
  repeat match goal with
  | |- context [respond ?t ?c] =>
      let E := fresh "E" in destruct (respond t c) eqn:E; cbn in *
  end.

Lemma events_since_refl (w : world) : events_since w w = [].
Proof. unfold events_since. apply skipn_all. Qed.

Ltac events_norm :=
  unfold events_since; cbn;
  repeat rewrite <- app_assoc;
  repeat rewrite skipn_length_app;
  repeat rewrite skipn_all;
  cbn [app].

Ltac events_norm_in H :=
  unfold events_since in H; cbn in H;
  repeat rewrite <- app_assoc in H;
  repeat rewrite skipn_length_app in H;
  repeat rewrite skipn_all in H;
  cbn [app] in H.

(** A list of known length split around one of its elements: one goal for
    each position the element can take. *)
Ltac split_cases H :=
  match type of H with
  | [] = (?pre ++ _ :: _)%list => destruct pre; discriminate H
  | (_ :: _) = (?pre ++ _ :: _)%list =>
      destruct pre as [| ? pre]; cbn [app] in H;
      [ inversion H; subst; clear H
      | let Hx := fresh "Hx" in
        injection H as Hx H; subst; split_cases H ]
  end.

(** ** Stopping a deployment *)

(** C9. [stopDeployment] never raises.  When the deployment is missing or
    has no container name it returns [true] and changes nothing, so the
    container runtime is not invoked; when a [docker stop] or [docker rm]
    it starts fails, it returns [false]. *)
Theorem stopDeployment_is_best_effort (deploymentId : jsval) (w : world) :
  (exists b, fst (stopDeployment deploymentId w) = Return b) /\
  (forall found,
     fst (select_deployment deploymentId w) = Return found ->
     (forall d, found = Some d -> truthy (container_name d) = false) ->
     stopDeployment deploymentId w = (Return true, w)) /\
  (forall c reason,
     In (Exec c None None, Failed reason)
        (events_since w (snd (stopDeployment deploymentId w))) ->
     fst (stopDeployment deploymentId w) = Return false).
Proof.
  unfold stopDeployment, sql_int. exec_unfold.
  destruct deploymentId as [n | s]; cbn; [ | destruct (int4in s) as [n |] ]; cbn.
  1, 2: destruct (hd_error _) as [d |]; cbn;
    [ destruct (truthy (container_name d)) eqn:T; cbn; [ host_cases | ] | ].
  all: repeat split; eauto.
  all: try (intros found F K; injection F as F; symmetry in F;
            specialize (K _ F); congruence).
  all: try (intros found F; discriminate F).
  all: intros c reason I; events_norm_in I;
    repeat (destruct I as [I | I]; try discriminate I); try contradiction.
Qed.

(** ** The image recipe *)

Lemma framework_is_not (p : project) (name : string) :
  framework p <> Some name -> framework_is p name = false.
Proof.
  unfold framework_is. intros U. destruct (framework p) as [f |]; [| reflexivity].
  destruct (String.eqb_spec f name); [subst; congruence | reflexivity].
Qed.

(** C10. For a project whose framework is none of [react], [html],
    [nextjs] and [node], [createDockerfile] raises nothing of its own: the
    one thing it does is write the empty string to [Dockerfile] in the
    project directory, and it returns as soon as the filesystem accepts the
    write.  The empty recipe is left for [docker build] to reject. *)
Theorem unrecognized_framework_gets_an_empty_recipe
    (dir : string) (p : project) (w : world) :
  (forall name, In name ["react"; "html"; "nextjs"; "node"] ->
                framework p <> Some name) ->
  let recipe := WriteFile (path_join dir "Dockerfile") EmptyString in
  events_since w (snd (createDockerfile dir p w)) =
    [(recipe, respond (trace w) recipe)] /\
  (forall out, respond (trace w) recipe = Done out ->
     fst (createDockerfile dir p w) = Return tt).
Proof using path_join respond.
  intros U.
  assert (D : createDockerfile dir p w =
              fs_writeFile (path_join dir "Dockerfile") EmptyString w).
  { unfold createDockerfile.
    rewrite !framework_is_not by (apply U; cbn; auto). reflexivity. }
  cbn zeta. rewrite D. clear D. exec_unfold.
  destruct (respond _ _) as [out | reason]; cbn; split.
  all: try (events_norm; reflexivity).
  - intros out' E. discriminate E.
Qed.

(** ** The reverse proxy *)

(** C6. Within [configureNginx], a reload is only ever issued right after a
    syntax check that passed; and when the syntax check fails nothing is
    issued after it, so no reload, and the operation fails with the error
    of the check. *)
Theorem nginx_checks_before_it_reloads
    (projectId hp : jsval) (domain : option string) (w : world)
    (pre post : list event) (c : string) (o : outcome) :
  events_since w (snd (configureNginx projectId hp domain w)) =
    (pre ++ (Exec c None None, o) :: post)%list ->
  (c = "nginx -s reload" ->
     exists pre' out, pre = (pre' ++ [(Exec "nginx -t" None None, Done out)])%list) /\
  (c = "nginx -t" -> forall reason, o = Failed reason ->
     post = [] /\
     fst (configureNginx projectId hp domain w) = Throw (JsError reason)).
Proof.
  unfold configureNginx. exec_unfold. cbn. host_cases; events_norm; intros H.
  all: split_cases H.
  all: split; intros C; try discriminate C.
  all: try (intros ? R; try discriminate R; injection R as R; subst;
            split; reflexivity).
  all: try (eexists [_; _; _], _; reflexivity).
Qed.

(** ** The queries *)

Lemma sql_int_run (v : jsval) (w : world) :
  sql_int v w =
  match param v with
  | Some n => (Return n, w)
  | None => (Throw (JsError "invalid input syntax for type integer"), w)
  end.
Proof. destruct v as [n | s]; cbn; [reflexivity | destruct (int4in s); reflexivity]. Qed.

Lemma select_project_run (v : jsval) (u : Z) (w : world) :
  select_project v u w =
  match param v with
  | Some pid =>
      (Return (hd_error (filter (fun p => Z.eqb (proj_id p) pid && int_is (user_id p) u)
                                (projects w))), w)
  | None => (Throw (JsError "invalid input syntax for type integer"), w)
  end.
Proof.
  unfold select_project. rewrite bind_run, sql_int_run.
  destruct (param v); reflexivity.
Qed.

Lemma select_files_run (v : jsval) (w : world) :
  select_files v w =
  match param v with
  | Some pid => (Return (filter (fun f => int_is (file_project_id f) pid) (files w)), w)
  | None => (Throw (JsError "invalid input syntax for type integer"), w)
  end.
Proof.
  unfold select_files. rewrite bind_run, sql_int_run.
  destruct (param v); reflexivity.
Qed.

Lemma insert_deployment_run (v : jsval) (st msg : string) (w : world) :
  insert_deployment v st msg w =
  match param v with
  | Some pid =>
      let n := deployments_id_seq w in
      if existsb (fun d => Z.eqb (id d) n) (deployments w)
      then (Throw (JsError "duplicate key value violates unique constraint"),
            with_seq (n + 1) w)
      else (Return n,
            with_deployments
              (deployments w ++
               [{| id := n; project_id := Some pid; status := st;
                   container_id := None; container_name := None; url := None;
                   commit_message := Some msg; build_duration := None |}])
              (with_seq (n + 1) w))
  | None => (Throw (JsError "invalid input syntax for type integer"), w)
  end.
Proof.
  unfold insert_deployment. rewrite bind_run, sql_int_run.
  destruct (param v); [| reflexivity]. exec_unfold. cbn.
  destruct (existsb _ _); reflexivity.
Qed.

Lemma addBuildLog_run (d : Z) (ty msg : string) (w : world) :
  addBuildLog d ty msg w =
  (Return tt,
   with_emitted
     (emitted w ++
      [{| room := "deployment-" ++ string_of_Z d; event_name := "build-log";
          payload_type := ty; payload_message := msg;
          timestamp := now (ticks w) |}])
     (with_ticks (S (ticks w))
        (with_build_logs
           (build_logs w ++
            [{| deployment_id := d; log_type := ty; log_message := msg |}]) w))).
Proof. reflexivity. Qed.

(** ** The two blocks of [deploy] *)

Lemma deploy_try_run (projectId : jsval) (userId : Z) (msg : string)
    (startTime : Z) :
  deploy_try projectId userId msg startTime =
  (found <- select_project projectId userId ;;
   match found with
   | None => throw (JsError "Projeto não encontrado")
   | Some p =>
       deploymentId <- insert_deployment projectId "building" msg ;;
       addBuildLog deploymentId "info" "🚀 Iniciando deploy..." ;;
       fs <- select_files projectId ;;
       if Nat.eqb (List.length fs) 0
       then throw (JsError "Projeto não tem arquivos")
       else pipeline projectId p deploymentId fs startTime
   end).
Proof. reflexivity. Qed.

(** Whatever the [try] block raised, the [catch] block raises in turn before
    it sends its query: nothing named [deployment] is in scope. *)
Lemma deploy_catch_raises (e : exn) (w : world) :
  deploy_catch e w =
  (Throw (ReferenceError "deployment is not defined"),
   with_console (console w ++ ["Erro no deploy: " ++ message e]) w).
Proof. reflexivity. Qed.

Lemma deploy_run (projectId : jsval) (userId : Z) (msg : string) (w : world) :
  deploy projectId userId msg w =
  match deploy_try projectId userId msg (now (ticks w))
                   (with_ticks (S (ticks w)) w) with
  | (Return r, w1) => (Return r, w1)
  | (Throw e, w1) =>
      (Throw (ReferenceError "deployment is not defined"),
       with_console (console w1 ++ ["Erro no deploy: " ++ message e]) w1)
  end.
Proof.
  unfold deploy. rewrite bind_run. cbn. rewrite try_catch_run.
  destruct (deploy_try _ _ _ _ _) as [[r | e] w1]; [reflexivity |].
  apply deploy_catch_raises.
Qed.

(** ** The pipeline, stage by stage *)

Lemma bind_inv {A B : Type} (R : world -> world -> Prop) (m : M A)
    (f : A -> M B) (w w' : world) (r : completion B) :
  respects R m -> bind m f w = (r, w') ->
  (exists e, r = Throw e /\ m w = (Throw e, w') /\ R w w') \/
  (exists a w1, m w = (Return a, w1) /\ R w w1 /\ f a w1 = (r, w')).
Proof.
  intros Hm. specialize (Hm w). rewrite bind_run.
  destruct (m w) as [[a | e] w1]; cbn in Hm; intros H.
  - right. exists a, w1. auto.
  - left. injection H as <- <-. exists e. auto.
Qed.

Lemma configureNginx_returns (projectId hp : jsval) (domain : option string)
    (w w' : world) (serverName : string) :
  configureNginx projectId hp domain w = (Return serverName, w') ->
  serverName = server_name projectId domain.
Proof.
  unfold configureNginx. intros H.
  apply try_catch_returns in H. destruct H as [H | (e & w1 & _ & H)].
  - repeat (apply bind_returns in H; destruct H as (? & ? & _ & H)).
    injection H as H _. now symmetry.
  - apply bind_returns in H. destruct H as (? & ? & _ & H). discriminate H.
Qed.

Section Pipeline.

Variable R : world -> world -> Prop.
Context {R_preorder : PreOrder R}.

Variables (projectId : jsval) (p : project) (deploymentId : Z) (fs : list file).

Hypothesis log_ok : forall ty msg, respects R (addBuildLog deploymentId ty msg).
Hypothesis save_ok : respects R (saveProjectFiles projectId fs).
Hypothesis build_ok : forall dir, respects R (build_stage dir deploymentId p).
Hypothesis container_ok :
  forall dir, respects R (createContainer projectId deploymentId p dir).
Hypothesis proxy_ok : forall hp, respects R (configureNginx projectId hp None).

(** Up to [finish_deploy], a run of the pipeline is a chain of stages each
    of which respects [R]; it stops at the first that throws. *)
Lemma pipeline_inv (startTime : Z) (w w' : world) (r : completion deploy_result) :
  pipeline projectId p deploymentId fs startTime w = (r, w') ->
  (exists e, r = Throw e /\ R w w') \/
  (exists c wm,
     R w wm /\ hostPort c = host_port projectId /\
     finish_deploy projectId deploymentId startTime c
       ("project-" ++ to_string projectId ++ ".local") wm = (r, w')).
Proof.
  unfold pipeline. intros H.
  apply (bind_inv R) in H; [| apply log_ok].
  destruct H as [(e & -> & _ & H) | (_ & w1 & _ & R1 & H)]; [left; eauto |].
  apply (bind_inv R) in H; [| apply save_ok].
  destruct H as [(e & -> & _ & H) | (dir & w2 & _ & R2 & H)].
  { left. exists e. split; [reflexivity | now transitivity w1]. }
  apply (bind_inv R) in H; [| apply build_ok].
  destruct H as [(e & -> & _ & H) | (_ & w3 & _ & R3 & H)].
  { left. exists e. split; [reflexivity |].
    transitivity w1; [assumption |]. now transitivity w2. }
  assert (R03 : R w w3).
  { transitivity w1; [assumption |]. now transitivity w2. }
  clear R1 R2 R3.
  apply (bind_inv R) in H; [| apply container_ok].
  destruct H as [(e & -> & _ & H) | (c & w4 & C & R4 & H)].
  { left. exists e. split; [reflexivity | now transitivity w3]. }
  apply createContainer_hostPort in C.
  apply (bind_inv R) in H; [| apply log_ok].
  destruct H as [(e & -> & _ & H) | (_ & w5 & _ & R5 & H)].
  { left. exists e. split; [reflexivity |].
    transitivity w3; [assumption |]. now transitivity w4. }
  apply (bind_inv R) in H; [| apply proxy_ok].
  destruct H as [(e & -> & _ & H) | (sn & w6 & N & R6 & H)].
  { left. exists e. split; [reflexivity |].
    transitivity w3; [assumption |]. transitivity w4; [assumption |].
    now transitivity w5. }
  apply configureNginx_returns in N. subst sn.
  right. exists c, w6. repeat split; [| assumption | exact H].
  transitivity w3; [assumption |]. transitivity w4; [assumption |].
  now transitivity w5.
Qed.

End Pipeline.

Lemma build_stage_same_tables (dir : string) (d : Z) (p : project) :
  respects same_tables (build_stage dir d p).
Proof. unfold build_stage. respects_with same_tables_leaf. Qed.

Lemma finish_deploy_run (projectId : jsval) (d startTime : Z) (c : container)
    (serverName : string) (w : world) :
  exists w',
    finish_deploy projectId d startTime c serverName w =
      (match param projectId with
       | Some _ =>
           Return (DeploySucceeded d ("http://" ++ serverName)
                                   ((now (ticks w) - startTime) / 1000))
       | None => Throw (JsError "invalid input syntax for type integer")
       end, w') /\
    trace w' = trace w /\
    deployments_id_seq w' = deployments_id_seq w /\
    deployments w' =
      match param projectId with
      | Some pid =>
          map (retire pid d)
            (map (promote d (containerId c) (containerName c)
                          ("http://" ++ serverName)
                          ((now (ticks w) - startTime) / 1000))
                 (deployments w))
      | None =>
          map (promote d (containerId c) (containerName c)
                       ("http://" ++ serverName)
                       ((now (ticks w) - startTime) / 1000))
              (deployments w)
      end.
Proof.
  unfold finish_deploy, sql_int. exec_unfold.
  destruct projectId as [n | s]; cbn; [| destruct (int4in s)]; cbn.
  all: eexists; repeat split.
Qed.

(** A run of the [try] block, as far as the table of deployments goes. *)
Lemma deploy_try_table (projectId : jsval) (userId : Z) (msg : string)
    (startTime : Z) (w w' : world) (r : completion deploy_result) :
  deploy_try projectId userId msg startTime w = (r, w') ->
  match r with
  | Throw _ =>
      deployments w' = deployments w \/
      exists pid, param projectId = Some pid /\
        existsb (fun d => Z.eqb (id d) (deployments_id_seq w)) (deployments w) = false /\
        deployments w' =
          (deployments w ++ [building_row (deployments_id_seq w) pid msg])%list
  | Return res =>
      exists pid cid cname u duration,
        param projectId = Some pid /\
        existsb (fun d => Z.eqb (id d) (deployments_id_seq w)) (deployments w) = false /\
        res = DeploySucceeded (deployments_id_seq w) u duration /\
        u = "http://" ++ server_name projectId None /\
        deployments w' =
          map (retire pid (deployments_id_seq w))
            (map (promote (deployments_id_seq w) cid cname u duration)
               (deployments w ++ [building_row (deployments_id_seq w) pid msg]))
  end.
Proof.
  rewrite deploy_try_run, bind_run, select_project_run.
  destruct (param projectId) as [pid |] eqn:P;
    [| intros H; injection H as <- <-; now left].
  destruct (hd_error _) as [p |]; [| intros H; injection H as <- <-; now left].
  rewrite bind_run, insert_deployment_run, P. cbn zeta.
  destruct (existsb _ _) eqn:Fresh; [intros H; injection H as <- <-; now left |].
  rewrite bind_run, addBuildLog_run, bind_run, select_files_run, P.
  cbn [deployments files with_emitted with_ticks with_build_logs
       with_deployments with_seq].
  destruct (Nat.eqb _ 0).
  { intros H. injection H as <- <-. right. exists pid. auto. }
  intros H.
  apply (pipeline_inv same_tables) in H;
    auto using addBuildLog_same_tables, saveProjectFiles_same_tables,
      build_stage_same_tables, createContainer_same_tables,
      configureNginx_same_tables.
  destruct H as [(e & -> & _ & _ & T & _) | (c & wm & (_ & _ & T & _) & _ & H)].
  { right. exists pid. cbn in T. auto. }
  destruct (finish_deploy_run projectId (deployments_id_seq w) startTime c
              ("project-" ++ to_string projectId ++ ".local") wm)
    as (w2 & F & _ & _ & D).
  rewrite F in H. rewrite P in H, D. injection H as <- <-.
  exists pid. do 4 eexists.
  split; [reflexivity |]. split; [reflexivity |]. split; [reflexivity |].
  split; [reflexivity |].
  cbn in T. rewrite D, T. reflexivity.
Qed.

(** ** One running deployment per project *)

Lemma fresh_id_differs (n : Z) (ds : list deployment) (d : deployment) :
  existsb (fun d => Z.eqb (id d) n) ds = false -> In d ds -> Z.eqb (id d) n = false.
Proof.
  intros F I. destruct (Z.eqb (id d) n) eqn:E; [| reflexivity].
  assert (T : existsb (fun d => Z.eqb (id d) n) ds = true)
    by (apply existsb_exists; eauto).
  congruence.
Qed.

Lemma promote_old (n : Z) (cid cname u : string) (duration : Z)
    (ds : list deployment) :
  existsb (fun d => Z.eqb (id d) n) ds = false ->
  map (promote n cid cname u duration) ds = ds.
Proof.
  intros F. rewrite <- (map_id ds) at 2. apply map_ext_in. intros d I.
  unfold promote. now rewrite (fresh_id_differs n ds d F I).
Qed.

Lemma retire_old_not_running (pid n : Z) (ds : list deployment) :
  existsb (fun d => Z.eqb (id d) n) ds = false ->
  running_of pid (map (retire pid n) ds) = [].
Proof.
  intros F. unfold running_of.
  induction ds as [| d ds IH]; [reflexivity |]. cbn [map filter].
  cbn in F. apply orb_false_elim in F. destruct F as [Fd F].
  rewrite (IH F). unfold retire. rewrite Fd. cbn [negb].
  rewrite andb_true_r.
  destruct (int_is (project_id d) pid && String.eqb (status d) "running") eqn:C.
  - cbn. now rewrite andb_false_r.
  - now rewrite C.
Qed.

Lemma retire_old_running (pid n : Z) (ds : list deployment) (d : deployment) :
  existsb (fun d => Z.eqb (id d) n) ds = false ->
  In d ds -> project_id d = Some pid -> status d = "running" ->
  In (set_status "stopped" d) (map (retire pid n) ds).
Proof.
  intros F I P S. apply in_map_iff. exists d. split; [| exact I].
  unfold retire. rewrite (fresh_id_differs n ds d F I), P, S. cbn.
  now rewrite Z.eqb_refl.
Qed.

(** The table a successful [deploy] leaves. *)
Lemma deploy_success_table (projectId : jsval) (userId : Z) (msg : string)
    (w w' : world) (did : Z) (u : string) (duration : Z) :
  deploy projectId userId msg w = (Return (DeploySucceeded did u duration), w') ->
  exists pid cid cname,
    param projectId = Some pid /\
    did = deployments_id_seq w /\
    u = "http://" ++ server_name projectId None /\
    existsb (fun d => Z.eqb (id d) did) (deployments w) = false /\
    deployments w' =
      (map (retire pid did) (deployments w) ++
       [set_running cid cname u duration (building_row did pid msg)])%list.
Proof.
  rewrite deploy_run.
  destruct (deploy_try _ _ _ _ _) as [[r | e] w1] eqn:T; [| discriminate].
  intros H. injection H as -> ->.
  apply deploy_try_table in T.
  cbn [deployments deployments_id_seq with_ticks] in T.
  destruct T as (pid & cid & cname & u' & duration' & P & F & E & U & D).
  injection E as -> <- <-.
  exists pid, cid, cname. repeat split; try assumption.
  rewrite D, !map_app, (promote_old _ _ _ _ _ _ F). cbn [map].
  unfold promote at 1. cbn [id building_row]. rewrite Z.eqb_refl.
  unfold retire at 2. cbn [id set_running building_row].
  rewrite Z.eqb_refl. cbn [negb]. now rewrite andb_false_r.
Qed.

(** C1. When an invocation of [deploy], run on its own, returns a success,
    the deployments of that project that are [running] are one row exactly,
    the one the invocation created; and every row of the project that was
    [running] before is in the table with status [stopped], otherwise
    unchanged. *)
Theorem successful_deploy_leaves_exactly_one_running
    (projectId : jsval) (userId : Z) (msg : string) (w w' : world)
    (did : Z) (u : string) (duration : Z) :
  deploy projectId userId msg w = (Return (DeploySucceeded did u duration), w') ->
  exists pid,
    param projectId = Some pid /\
    (exists row,
       running_of pid (deployments w') = [row] /\
       id row = did /\ url row = Some u /\
       forall old, In old (deployments w) -> old <> row) /\
    (forall old,
       In old (deployments w) ->
       project_id old = Some pid -> status old = "running" ->
       In (set_status "stopped" old) (deployments w')).
Proof.
  intros H. apply deploy_success_table in H.
  destruct H as (pid & cid & cname & P & -> & _ & F & D).
  exists pid. split; [exact P |]. split.
  - exists (set_running cid cname u duration
              (building_row (deployments_id_seq w) pid msg)).
    repeat split.
    + rewrite D. unfold running_of. rewrite filter_app.
      fold (running_of pid (map (retire pid (deployments_id_seq w)) (deployments w))).
      rewrite (retire_old_not_running _ _ _ F). cbn.
      now rewrite Z.eqb_refl.
    + intros old I E.
      apply (fresh_id_differs _ _ _ F) in I. subst old. cbn in I.
      rewrite Z.eqb_refl in I. discriminate I.
  - intros old I Pr S. rewrite D. apply in_or_app. left.
    now apply retire_old_running.
Qed.

(** ** Failures of the pipeline *)

(** [deploy] returns a success or raises [ReferenceError]; it never returns
    a failure. *)
Lemma deploy_succeeds_or_raises (projectId : jsval) (userId : Z) (msg : string)
    (w : world) :
  (exists u duration,
     fst (deploy projectId userId msg w) =
       Return (DeploySucceeded (deployments_id_seq w) u duration)) \/
  fst (deploy projectId userId msg w) =
    Throw (ReferenceError "deployment is not defined").
Proof.
  rewrite deploy_run.
  destruct (deploy_try _ _ _ _ _) as [[r | e] w1] eqn:T; [| now right].
  apply deploy_try_table in T. cbn in T.
  destruct T as (pid & cid & cname & u & duration & _ & _ & -> & _).
  left. exists u, duration. reflexivity.
Qed.

(** When a stage raises, the row the invocation created keeps the status
    [building] and no row of the table changes. *)
Lemma failed_deploy_leaves_building (projectId : jsval) (userId : Z)
    (msg : string) (w : world) (e : exn) :
  fst (deploy projectId userId msg w) = Throw e ->
  e = ReferenceError "deployment is not defined" /\
  (deployments (snd (deploy projectId userId msg w)) = deployments w \/
   exists pid,
     deployments (snd (deploy projectId userId msg w)) =
       (deployments w ++ [building_row (deployments_id_seq w) pid msg])%list).
Proof.
  rewrite deploy_run.
  destruct (deploy_try _ _ _ _ _) as [[r | e'] w1] eqn:T; cbn; [discriminate |].
  intros H. injection H as <-. split; [reflexivity |].
  apply deploy_try_table in T. cbn in T.
  destruct T as [T | (pid & _ & _ & T)]; [now left | right; eauto].
Qed.


(** ** Failures of the build stage *)

Lemma quiet_calm (e : event) : quiet e -> calm e.
Proof. unfold quiet, calm. intros Q B. congruence. Qed.

Lemma respects_calm {A : Type} (m : M A) :
  respects (trace_extends quiet) m -> respects (trace_extends calm) m.
Proof.
  apply respects_weaken. intros w w'. apply trace_extends_weaken, quiet_calm.
Qed.

Lemma prefix_then_failure (deploymentId : Z) (w w1 w2 : world) :
  trace_extends calm w w1 ->
  build_failures_end_the_run deploymentId w1 w2 ->
  build_failures_end_the_run deploymentId w w2.
Proof.
  intros H1 [H2 | (pre & c & cwd & b & reason & E & F & L)].
  - left. now transitivity w1.
  - right. destruct H1 as (t & E1 & F1).
    exists (t ++ pre)%list, c, cwd, b, reason. repeat split.
    + rewrite E, E1, <- !app_assoc. reflexivity.
    + apply Forall_app. split; assumption.
    + exact L.
Qed.

Lemma execPromise_run (c : string) (cwd : option string) (b : option Z) (w : world) :
  execPromise c cwd b w =
  (match respond (trace w) (Exec c cwd b) with
   | Done out => Return out
   | Failed m => Throw (JsError m)
   end,
   with_trace (trace w ++ [(Exec c cwd b, respond (trace w) (Exec c cwd b))]) w).
Proof. reflexivity. Qed.

Ltac simpl_world :=
  cbn [projects files deployments deployments_id_seq build_logs emitted console
       trace ticks with_deployments with_seq with_build_logs with_emitted
       with_console with_trace with_ticks fst snd message] in *.

(** One command of a straight-line block, run in the equation [H]. *)
Ltac step_in H :=
  repeat first [ rewrite bind_run in H | rewrite try_catch_run in H ];
  first
    [ rewrite addBuildLog_run in H
    | rewrite execPromise_run in H;
      match type of H with
      | context [respond ?t ?c] =>
          let E := fresh "E" in destruct (respond t c) eqn:E
      end ];
  cbv iota beta in H; simpl_world.

Ltac finish_in H :=
  unfold ret, throw in H; cbv iota beta in H; injection H as <- <-; simpl_world.

Ltac calm_events :=
  repeat constructor; unfold calm; cbn; intros; solve [ eauto | discriminate ].

Lemma buildReactProject_failures (dir : string) (d : Z) (p : project)
    (w w' : world) (r : completion bool) :
  buildReactProject dir d p w = (r, w') ->
  match r with
  | Return _ => trace_extends calm w w'
  | Throw _ => build_failure_recorded d w w'
  end.
Proof.
  unfold buildReactProject. intros H.
  step_in H. step_in H.
  - step_in H. step_in H. step_in H.
    + step_in H. finish_in H.
      eexists [_; _]. split; simpl_world; [now rewrite <- app_assoc | calm_events].
    + step_in H. finish_in H.
      exists [(Exec "npm install" (Some dir) (Some 300000), Done stdout)].
      do 4 eexists. repeat split; simpl_world.
      * now rewrite <- app_assoc.
      * calm_events.
      * apply in_or_app. right. now left.
  - step_in H. finish_in H.
    exists []. do 4 eexists. repeat split; simpl_world.
    + constructor.
    + apply in_or_app. right. now left.
Qed.

Lemma buildNextProject_failures (dir : string) (d : Z) (p : project)
    (w w' : world) (r : completion bool) :
  buildNextProject dir d p w = (r, w') ->
  match r with
  | Return _ => trace_extends calm w w'
  | Throw _ => build_failure_recorded d w w'
  end.
Proof.
  unfold buildNextProject. intros H.
  step_in H. step_in H.
  - step_in H. step_in H. step_in H.
    + step_in H. finish_in H.
      eexists [_; _]. split; simpl_world; [now rewrite <- app_assoc | calm_events].
    + step_in H. finish_in H.
      exists [(Exec "npm install" (Some dir) (Some 300000), Done stdout)].
      do 4 eexists. repeat split; simpl_world.
      * now rewrite <- app_assoc.
      * calm_events.
      * apply in_or_app. right. now left.
  - step_in H. finish_in H.
    exists []. do 4 eexists. repeat split; simpl_world.
    + constructor.
    + apply in_or_app. right. now left.
Qed.

Lemma build_stage_failures (dir : string) (d : Z) (p : project)
    (w w' : world) (r : completion unit) :
  build_stage dir d p w = (r, w') ->
  match r with
  | Return _ => trace_extends calm w w'
  | Throw _ => build_failure_recorded d w w'
  end.
Proof.
  unfold build_stage.
  destruct (framework_is p "react" || framework_is p "html");
    [| destruct (framework_is p "nextjs")]; rewrite ?bind_run.
  - pose proof (buildReactProject_failures dir d p w) as S.
    destruct (buildReactProject dir d p w) as [[b | e] w1];
      specialize (S _ _ eq_refl); intros H; injection H as <- <-; exact S.
  - pose proof (buildNextProject_failures dir d p w) as S.
    destruct (buildNextProject dir d p w) as [[b | e] w1];
      specialize (S _ _ eq_refl); intros H; injection H as <- <-; exact S.
  - intros H. injection H as <- <-. reflexivity.
Qed.

Lemma finish_deploy_quiet (projectId : jsval) (d startTime : Z) (c : container)
    (serverName : string) :
  respects (trace_extends quiet) (finish_deploy projectId d startTime c serverName).
Proof. unfold finish_deploy, update_deployments. respects_with trace_leaf. Qed.

#[local] Hint Resolve finish_deploy_quiet : respects.

Lemma build_failures_from (deploymentId : Z) (w0 w w' : world) :
  trace w0 = trace w ->
  build_failures_end_the_run deploymentId w0 w' ->
  build_failures_end_the_run deploymentId w w'.
Proof.
  unfold build_failures_end_the_run, build_failure_recorded, trace_extends.
  intros ->. auto.
Qed.

Lemma pipeline_build_failures (projectId : jsval) (p : project) (d : Z)
    (fs : list file) (startTime : Z) (w w' : world)
    (r : completion deploy_result) :
  pipeline projectId p d fs startTime w = (r, w') ->
  build_failures_end_the_run d w w'.
Proof.
  unfold pipeline. intros H.
  apply (bind_inv (trace_extends calm)) in H;
    [| apply respects_calm; auto with respects].
  destruct H as [(e & -> & _ & H) | (_ & w1 & _ & R1 & H)]; [now left |].
  apply (prefix_then_failure d w w1 w' R1). clear R1.
  apply (bind_inv (trace_extends calm)) in H;
    [| apply respects_calm; auto with respects].
  destruct H as [(e & -> & _ & H) | (dir & w2 & _ & R2 & H)]; [now left |].
  apply (prefix_then_failure d w1 w2 w' R2). clear R2.
  rewrite bind_run in H.
  destruct (build_stage dir d p w2) as [[u | e] w3] eqn:B;
    apply build_stage_failures in B.
  - apply (prefix_then_failure d w2 w3 w' B). left.
    assert (T : respects (trace_extends calm)
                  (c <- createContainer projectId d p dir ;;
                   addBuildLog d "info" "⚙️ Configurando proxy reverso..." ;;
                   serverName <- configureNginx projectId (hostPort c) None ;;
                   finish_deploy projectId d startTime c serverName)).
    { apply respects_calm. respects_with trace_leaf. }
    specialize (T w3). rewrite H in T. exact T.
  - injection H as <- <-. now right.
Qed.

Lemma deploy_try_build_failures (projectId : jsval) (userId : Z) (msg : string)
    (startTime : Z) (w w' : world) (r : completion deploy_result) :
  deploy_try projectId userId msg startTime w = (r, w') ->
  build_failures_end_the_run (deployments_id_seq w) w w'.
Proof.
  assert (Nothing : forall w1, trace w1 = trace w ->
            build_failures_end_the_run (deployments_id_seq w) w w1).
  { intros w1 E. left. exists []. split; [now rewrite app_nil_r | constructor]. }
  rewrite deploy_try_run, bind_run, select_project_run.
  destruct (param projectId) as [pid |] eqn:P;
    [| intros H; injection H as <- <-; now apply Nothing].
  destruct (hd_error _) as [p |];
    [| intros H; injection H as <- <-; now apply Nothing].
  rewrite bind_run, insert_deployment_run, P. cbn zeta.
  destruct (existsb _ _);
    [intros H; injection H as <- <-; now apply Nothing |].
  rewrite bind_run, addBuildLog_run, bind_run, select_files_run, P.
  destruct (Nat.eqb _ 0);
    [intros H; injection H as <- <-; now apply Nothing |].
  intros H. apply pipeline_build_failures in H.
  revert H. apply build_failures_from. reflexivity.
Qed.

Lemma deploy_build_failures (projectId : jsval) (userId : Z) (msg : string)
    (w : world) :
  build_failures_end_the_run (deployments_id_seq w) w
    (snd (deploy projectId userId msg w)).
Proof.
  rewrite deploy_run.
  destruct (deploy_try _ _ _ _ _) as [[r | e] w1] eqn:T;
    apply deploy_try_build_failures in T;
    apply (build_failures_from _ _ w) in T; try reflexivity; exact T.
Qed.

Lemma failed_build_step_not_calm (c : string) (cwd : option string)
    (budget : Z) (reason : string) :
  budget = 300000 \/ budget = 600000 ->
  ~ calm (Exec c cwd (Some budget), Failed reason).
Proof.
  intros B C. unfold calm in C. cbn in C.
  destruct C as (out & C); [| discriminate C].
  destruct B as [-> | ->]; reflexivity.
Qed.

Lemma calm_prefix_last {l0 pre post : list event} {x y : event} :
  Forall calm l0 -> ~ calm y ->
  (l0 ++ [x])%list = (pre ++ y :: post)%list -> y = x /\ post = [].
Proof.
  intros F N. revert pre. induction F as [| a l0 Ha F IH]; intros pre E.
  - destruct pre as [| a pre]; cbn in E.
    + injection E as -> <-. auto.
    + injection E as _ E. destruct pre; discriminate E.
  - destruct pre as [| a' pre]; cbn in E.
    + injection E as -> _. contradiction.
    + injection E as _ E. now apply (IH pre).
Qed.

(** C5. In any invocation of [deploy], if an install or build command (a
    child process of the build stage, started with the five or the ten
    minute budget) fails, by a non-zero exit or a timeout, then the log
    [❌ Erro no build: <reason>] is recorded with severity [error] for the
    deployment, and the failed command is the last thing the invocation
    asks of the host: no [docker run] and no [nginx -s reload] follow. *)
Theorem failed_build_is_logged_and_ends_the_run
    (projectId : jsval) (userId : Z) (msg : string) (w : world)
    (pre post : list event) (c : string) (cwd : option string) (budget : Z)
    (reason : string) :
  events_since w (snd (deploy projectId userId msg w)) =
    (pre ++ (Exec c cwd (Some budget), Failed reason) :: post)%list ->
  budget = 300000 \/ budget = 600000 ->
  In (build_error_log (deployments_id_seq w) reason)
     (build_logs (snd (deploy projectId userId msg w))) /\
  post = [].
Proof.
  intros E B. apply (failed_build_step_not_calm c cwd budget reason) in B.
  destruct (deploy_build_failures projectId userId msg w)
    as [T | (pre' & c' & cwd' & b' & reason' & T & F & L)].
  - apply trace_extends_events in T. destruct T as [_ F]. rewrite E in F.
    apply Forall_app in F. destruct F as [_ F]. inversion F. contradiction.
  - unfold events_since in E. rewrite T, skipn_length_app in E.
    destruct (calm_prefix_last F B E) as [X ->].
    injection X as _ _ _ ->. auto.
Qed.

(** ** The node-service framework *)

Lemma build_stage_node (dir : string) (d : Z) (p : project) :
  framework p = Some "node" -> build_stage dir d p = ret tt.
Proof. unfold build_stage, framework_is. intros ->. reflexivity. Qed.

Lemma createDockerfile_node (dir : string) (p : project) (w : world) :
  framework p = Some "node" ->
  createDockerfile dir p w =
  fs_writeFile (path_join dir "Dockerfile") (dockerfile_node p) w.
Proof.
  unfold createDockerfile, framework_is. intros ->. reflexivity.
Qed.

(** *** Nothing of the package manager on the host *)

Ltac runtime_leaf :=
  first
    [ apply respects_run; preorder_side; intros ? ?;
      eexists [_]; split;
      [ reflexivity
      | constructor;
        [ first [ left; reflexivity | right; reflexivity ] | constructor ] ]
    | first [ apply respects_Date_now | apply respects_modify ];
      preorder_side; intros ?;
      exists []; split; [ cbn; now rewrite app_nil_r | constructor ] ].

Lemma saveProjectFiles_off_the_package_manager (projectId : jsval)
    (fs : list file) :
  respects (trace_extends off_the_package_manager)
           (saveProjectFiles projectId fs).
Proof.
  eapply respects_weaken; [| apply saveProjectFiles_on_disk].
  intros w w'. apply trace_extends_weaken. intros e H. now left.
Qed.

Lemma createDockerfile_off_the_package_manager (dir : string) (p : project) :
  respects (trace_extends off_the_package_manager) (createDockerfile dir p).
Proof.
  eapply respects_weaken; [| apply createDockerfile_on_disk].
  intros w w'. apply trace_extends_weaken. intros e H. now left.
Qed.

Lemma stopEach_off_the_package_manager (names : list (option string)) :
  respects (trace_extends off_the_package_manager) (stopEach names).
Proof.
  induction names as [| name rest IH]; cbn [stopEach].
  - respects_step.
  - unfold execPromise. respects_with runtime_leaf.
Qed.

Lemma createContainer_off_the_package_manager (projectId : jsval) (d : Z)
    (p : project) (dir : string) :
  respects (trace_extends off_the_package_manager)
           (createContainer projectId d p dir).
Proof.
  pose proof createDockerfile_off_the_package_manager as Recipe.
  pose proof stopEach_off_the_package_manager as Cleanup.
  unfold createContainer, select_container_names, console_log, execPromise.
  respects_with runtime_leaf.
Qed.

Lemma configureNginx_off_the_package_manager (projectId hp : jsval)
    (domain : option string) :
  respects (trace_extends off_the_package_manager)
           (configureNginx projectId hp domain).
Proof.
  unfold configureNginx, console_log, execPromise.
  respects_with runtime_leaf.
Qed.

Lemma finish_deploy_silent (P : event -> Prop) (projectId : jsval)
    (d startTime : Z) (c : container) (serverName : string) :
  respects (trace_extends P) (finish_deploy projectId d startTime c serverName).
Proof. unfold finish_deploy, update_deployments. respects_with trace_leaf. Qed.

(** A deployment whose build stage does nothing issues the commands of its
    other stages only. *)
Lemma deploy_without_build_stage (P : event -> Prop) (projectId : jsval)
    (userId : Z) (msg : string) (w : world) (p : project) :
  (forall fs, respects (trace_extends P) (saveProjectFiles projectId fs)) ->
  (forall d dir, respects (trace_extends P) (createContainer projectId d p dir)) ->
  (forall hp, respects (trace_extends P) (configureNginx projectId hp None)) ->
  fst (select_project projectId userId w) = Return (Some p) ->
  (forall dir d, build_stage dir d p = ret tt) ->
  Forall P (events_since w (snd (deploy projectId userId msg w))).
Proof.
  intros Save Container Proxy Found Skip.
  assert (Nothing : forall w0 w1, trace w1 = trace w0 -> trace_extends P w0 w1).
  { intros w0 w1 E. exists []. split; [now rewrite app_nil_r | constructor]. }
  assert (T : trace_extends P (with_ticks (S (ticks w)) w)
                (snd (deploy projectId userId msg w))).
  { rewrite deploy_run, deploy_try_run, bind_run.
    rewrite select_project_run in Found |- *. cbn [projects with_ticks].
    destruct (param projectId) as [pid |] eqn:Pid; [| discriminate Found].
    cbn [fst] in Found. injection Found as ->.
    rewrite bind_run, insert_deployment_run, Pid. cbn zeta.
    destruct (existsb _ _); [now apply Nothing |].
    rewrite bind_run, addBuildLog_run, bind_run, select_files_run, Pid.
    destruct (Nat.eqb _ 0); [now apply Nothing |].
    match goal with
    | |- context [pipeline ?a ?b ?c ?e ?f ?w2] =>
        destruct (pipeline a b c e f w2) as [[r | e'] w3] eqn:H
    end; cbv iota beta; unfold trace_extends; cbn [snd trace with_console];
      fold (trace_extends P).
    all: apply (pipeline_inv (trace_extends P)) in H;
      [ | intros; apply addBuildLog_silent | apply Save
        | intros dir; rewrite Skip; respects_step | intros; apply Container
        | apply Proxy ].
    - destruct H as [(e & E & _) | (c & wm & (t & E & F) & _ & H)];
        [discriminate E |].
      match type of H with
      | finish_deploy ?a ?b ?s ?c ?sn ?wm = _ =>
          pose proof (finish_deploy_silent P a b s c sn wm) as Q
      end.
      rewrite H in Q. destruct Q as (t' & E' & F').
      exists (t ++ t')%list. split.
      + cbn [snd] in E' |- *. rewrite E', E, <- app_assoc. reflexivity.
      + apply Forall_app. split; assumption.
    - destruct H as [(e & E & (t & Et & F)) | (c & wm & (t & E & F) & _ & H)].
      + exists t. split; [exact Et | exact F].
      + match type of H with
        | finish_deploy ?a ?b ?s ?c ?sn ?wm = _ =>
            pose proof (finish_deploy_silent P a b s c sn wm) as Q
        end.
        rewrite H in Q. destruct Q as (t' & E' & F').
        exists (t ++ t')%list. split.
        * cbn [snd] in E' |- *. rewrite E', E, <- app_assoc. reflexivity.
        * apply Forall_app. split; assumption. }
  apply (trace_extends_events P w) in T. now destruct T.
Qed.

(** *** The recipe of a node service *)

Lemma unlines_cons (l l' : string) (rest : list string) :
  unlines (l :: l' :: rest) = l ++ nl ++ unlines (l' :: rest).
Proof. reflexivity. Qed.

Lemma text_lines_last (a : string) :
  no_line_feed a = true -> text_lines a = [a].
Proof.
  induction a as [| c a IH]; cbn [no_line_feed text_lines]; [reflexivity |].
  destruct (Ascii.eqb c (ascii_of_nat 10)); cbn [negb andb]; [discriminate |].
  intros H. now rewrite (IH H).
Qed.

Lemma text_lines_app (a b : string) :
  no_line_feed a = true ->
  text_lines (a ++ nl ++ b) = a :: text_lines b.
Proof.
  induction a as [| c a IH]; intros H.
  - reflexivity.
  - change (String c a ++ nl ++ b) with (String c (a ++ nl ++ b)).
    cbn [no_line_feed] in H. cbn [text_lines].
    destruct (Ascii.eqb c (ascii_of_nat 10)); cbn [negb andb] in H;
      [discriminate H |].
    now rewrite (IH H).
Qed.

Lemma no_line_feed_app (a b : string) :
  no_line_feed (a ++ b) = no_line_feed a && no_line_feed b.
Proof.
  induction a as [| c a IH]; [reflexivity |].
  change (String c a ++ b) with (String c (a ++ b)).
  cbn [no_line_feed]. now rewrite IH, andb_assoc.
Qed.

Lemma string_of_Z_no_line_feed (n : Z) : no_line_feed (string_of_Z n) = true.
Proof.
  assert (U : forall d, no_line_feed (NilEmpty.string_of_uint d) = true)
    by (induction d; cbn; auto).
  assert (V : forall d, no_line_feed (NilZero.string_of_uint d) = true)
    by (intros d; destruct d; try reflexivity; apply U).
  unfold string_of_Z. destruct (Z.to_int n) as [d | d]; cbn.
  - apply V.
  - apply V.
Qed.

Lemma dockerfile_node_run_instructions (p : project) :
  no_line_feed (or_else (start_command p) "node index.js") = true ->
  run_instructions (dockerfile_node p) = ["RUN npm install --production"].
Proof.
  intros S. unfold run_instructions, dockerfile_node.
  rewrite !unlines_cons.
  change (unlines ["      "]) with "      ".
  repeat rewrite text_lines_app
    by (rewrite ?no_line_feed_app, ?string_of_Z_no_line_feed, ?S; reflexivity).
  rewrite text_lines_last by reflexivity.
  reflexivity.
Qed.

(** C7 (amended). For a project whose framework is [node], [deploy] starts
    no install and no build command on the host: the dispatch by framework
    calls neither [buildReactProject] nor [buildNextProject], and every
    child process of the invocation is one of the container runtime
    ([docker]) or of the proxy ([nginx]).  [createDockerfile] does one
    thing for it, the write of the recipe, and the only instruction the
    recipe has [docker build] execute is [RUN npm install --production]:
    the dependencies are installed there, and nothing is built. *)
Theorem node_service_installs_only_inside_the_image
    (projectId : jsval) (userId : Z) (msg : string) (w : world) (p : project) :
  fst (select_project projectId userId w) = Return (Some p) ->
  framework p = Some "node" ->
  Forall quiet (events_since w (snd (deploy projectId userId msg w))) /\
  Forall off_the_package_manager
         (events_since w (snd (deploy projectId userId msg w))) /\
  (forall dir w1,
     events_since w1 (snd (createDockerfile dir p w1)) =
       [(WriteFile (path_join dir "Dockerfile") (dockerfile_node p),
         respond (trace w1)
           (WriteFile (path_join dir "Dockerfile") (dockerfile_node p)))]) /\
  (no_line_feed (or_else (start_command p) "node index.js") = true ->
   run_instructions (dockerfile_node p) = ["RUN npm install --production"]).
Proof.
  intros Found Node.
  assert (Skip : forall dir d, build_stage dir d p = ret tt)
    by (intros; now apply build_stage_node).
  split; [| split; [| split]].
  - apply (deploy_without_build_stage quiet _ _ _ _ p); auto with respects.
  - apply (deploy_without_build_stage off_the_package_manager _ _ _ _ p);
      auto using saveProjectFiles_off_the_package_manager,
        createContainer_off_the_package_manager,
        configureNginx_off_the_package_manager.
  - intros dir w1. rewrite (createDockerfile_node dir p w1 Node).
    exec_unfold. destruct (respond _ _); events_norm; reflexivity.
  - apply dockerfile_node_run_instructions.
Qed.

(** ** The public hostname *)

Lemma hostname_policy (projectId : jsval) :
  server_name projectId None = "project-" ++ to_string projectId ++ ".local" /\
  (forall domain, domain <> EmptyString ->
     server_name projectId (Some domain) = domain).
Proof.
  split; [reflexivity |]. intros domain N. unfold server_name, or_else.
  destruct (String.eqb_spec domain EmptyString); [contradiction | reflexivity].
Qed.

(** A deployment that succeeded is [running] under the synthesized hostname:
    [deploy] hands no domain to [configureNginx]. *)
Lemma successful_deploy_url (projectId : jsval) (userId : Z) (msg : string)
    (w w' : world) (did : Z) (u : string) (duration : Z) :
  deploy projectId userId msg w = (Return (DeploySucceeded did u duration), w') ->
  u = "http://" ++ "project-" ++ to_string projectId ++ ".local" /\
  exists row, In row (deployments w') /\ id row = did /\
              status row = "running" /\ url row = Some u.
Proof.
  intros H. apply deploy_success_table in H.
  destruct H as (pid & cid & cname & P & -> & -> & F & D).
  split; [reflexivity |]. eexists. split.
  - rewrite D. apply in_or_app. right. left. reflexivity.
  - repeat split.
Qed.

(** * Further properties of the engine and of its callers *)

(** ** Plans *)

Lemma run_all_outcome (plan : list cmd) (w w' : world) (r : completion unit) :
  run_all plan w = (r, w') ->
  trace w' = (trace w ++ events_since w w')%list /\
  match r with
  | Return _ => ran_through plan (events_since w w')
  | Throw e => stopped_short plan (events_since w w') (message e)
  end.
Proof.
  revert w. induction plan as [| c rest IH]; intros w H.
  - injection H as <- <-. rewrite events_since_refl, app_nil_r.
    split; [reflexivity |]. split; [reflexivity | constructor].
  - cbn [run_all] in H. rewrite bind_run in H. unfold run in H at 1.
    destruct (respond (trace w) c) as [out | reason] eqn:E.
    + apply IH in H. destruct H as [T H].
      assert (S : events_since w w' =
                  ((c, Done out) :: events_since (with_trace (trace w ++ [(c, Done out)]) w) w')).
      { unfold events_since at 1. rewrite T. cbn [trace with_trace].
        rewrite <- app_assoc. now rewrite skipn_length_app. }
      rewrite S. split.
      { rewrite T. cbn [trace with_trace]. now rewrite <- app_assoc. }
      destruct r as [u | e].
      * destruct H as [P F]. split; [cbn [map fst]; now rewrite P |].
        constructor; [now exists out | exact F].
      * destruct H as (pre & c' & rest' & Ev & F & P).
        exists ((c, Done out) :: pre), c', rest'. repeat split.
        -- cbn [app]. now rewrite Ev.
        -- constructor; [now exists out | exact F].
        -- cbn [map fst app]. now rewrite P.
    + injection H as <- <-. unfold events_since. cbn [trace with_trace].
      rewrite skipn_length_app. split; [reflexivity |].
      exists [], c, rest. repeat split. constructor.
Qed.

Lemma writeEach_run_all (dir : string) (fs : list file) (w : world) :
  writeEach dir fs w =
  run_all (flat_map
             (fun f =>
                [ Mkdir (path_dirname (path_join dir (path f)));
                  WriteFile (path_join dir (path f))
                            (or_else (content f) EmptyString) ])
             fs) w.
Proof.
  revert w. induction fs as [| f rest IH]; intros w; [reflexivity |].
  cbn [writeEach flat_map app run_all]. unfold fs_mkdir, fs_writeFile.
  rewrite !bind_run. destruct (run (Mkdir _) w) as [[o1 | e1] w1]; [| reflexivity].
  cbn [ret]. rewrite !bind_run.
  destruct (run (WriteFile _ _) w1) as [[o2 | e2] w2]; [| reflexivity].
  cbn [ret]. apply IH.
Qed.

Lemma saveProjectFiles_run_all (projectId : jsval) (fs : list file) (w : world) :
  saveProjectFiles projectId fs w =
  (run_all (save_plan projectId fs) ;;
   ret (path_join deploysDir ("project-" ++ to_string projectId))) w.
Proof.
  unfold saveProjectFiles, createDeployDirectory, save_plan, fs_mkdir.
  cbn [run_all]. rewrite !bind_run.
  destruct (run (Mkdir _) w) as [[o1 | e1] w1]; [| reflexivity].
  cbn [ret]. rewrite !bind_run, writeEach_run_all. reflexivity.
Qed.

(** X1. [saveProjectFiles] works through its plan: the project directory,
    then, for each file in order, the directory of the file and the file
    with its content (nothing for a missing content).  It returns the
    project directory when every command of the plan succeeded, and
    otherwise raises the error of the first command that failed, having
    issued nothing after it. *)
Theorem saveProjectFiles_follows_its_plan
    (projectId : jsval) (fs : list file) (w w' : world) (r : completion string) :
  saveProjectFiles projectId fs w = (r, w') ->
  match r with
  | Return dir =>
      dir = path_join deploysDir ("project-" ++ to_string projectId) /\
      ran_through (save_plan projectId fs) (events_since w w')
  | Throw e =>
      stopped_short (save_plan projectId fs) (events_since w w') (message e)
  end.
Proof.
  rewrite saveProjectFiles_run_all, bind_run.
  destruct (run_all (save_plan projectId fs) w) as [[u | e] w1] eqn:P;
    intros H; injection H as <- <-; apply run_all_outcome in P; destruct P as [_ P].
  - split; [reflexivity | exact P].
  - exact P.
Qed.

(** ** The container stage *)

Lemma stopEach_run_all (names : list (option string)) (w : world) :
  stopEach names w = run_all (cleanup_plan names) w.
Proof.
  revert w. induction names as [| name rest IH]; intros w; [reflexivity |].
  cbn [stopEach cleanup_plan flat_map]. destruct (truthy name).
  - cbn [app run_all]. unfold execPromise. rewrite !bind_run.
    destruct (run (Exec _ _ _) w) as [[o1 | e1] w1]; [| reflexivity].
    rewrite !bind_run.
    destruct (run (Exec _ _ _) w1) as [[o2 | e2] w2]; [| reflexivity].
    cbn [ret]. apply IH.
  - cbn [app]. rewrite bind_run. cbn [ret]. apply IH.
Qed.

Lemma createDockerfile_run_all (dir : string) (p : project) (w : world) :
  createDockerfile dir p w = run_all (recipe_plan dir p) w.
Proof.
  unfold createDockerfile, recipe_plan, fs_writeFile.
  destruct (framework_is p "react" || framework_is p "html");
    [| destruct (framework_is p "nextjs"); [| destruct (framework_is p "node")]];
    cbn [run_all]; rewrite !bind_run.
  - destruct (run (WriteFile _ _) w) as [[o1 | e1] w1]; [| reflexivity].
    cbn [ret]. rewrite !bind_run. reflexivity.
  - reflexivity.
  - reflexivity.
  - reflexivity.
Qed.

Lemma run_all_same_tables (plan : list cmd) : respects same_tables (run_all plan).
Proof.
  induction plan as [| c rest IH]; cbn [run_all]; respects_with same_tables_leaf.
Qed.

Lemma run_all_logs (plan : list cmd) (w : world) :
  build_logs (snd (run_all plan w)) = build_logs w /\
  ticks (snd (run_all plan w)) = ticks w /\
  emitted (snd (run_all plan w)) = emitted w.
Proof.
  revert w. induction plan as [| c rest IH]; intros w; [now repeat split |].
  cbn [run_all]. rewrite !bind_run. unfold run. cbv zeta.
  destruct (respond (trace w) c); [| repeat split; reflexivity].
  apply (IH (with_trace _ w)).
Qed.

Lemma select_container_names_run (projectId : jsval) (d : Z) (w : world) :
  select_container_names projectId "running" d w =
  match param projectId with
  | Some _ => (Return (superseded_names projectId d w), w)
  | None => (Throw (JsError "invalid input syntax for type integer"), w)
  end.
Proof.
  unfold select_container_names, superseded_names.
  rewrite bind_run, sql_int_run. destruct (param projectId); reflexivity.
Qed.

Lemma stopped_short_more (plan more : list cmd) (ev : list event) (reason : string) :
  stopped_short plan ev reason -> stopped_short (plan ++ more) ev reason.
Proof.
  intros (pre & c & rest & E & F & P). exists pre, c, (rest ++ more)%list.
  split; [exact E |]. split; [exact F |]. rewrite P, <- app_assoc. reflexivity.
Qed.

Lemma ran_through_then_failed (plan : list cmd) (ev : list event) (c : cmd)
    (reason : string) :
  ran_through plan ev ->
  stopped_short (plan ++ [c]) (ev ++ [(c, Failed reason)]) reason.
Proof.
  intros [P F]. exists ev, c, []. split; [reflexivity |]. split; [exact F |].
  now rewrite P.
Qed.

Lemma ran_through_then_done (plan : list cmd) (ev : list event) (c : cmd)
    (out : string) :
  ran_through plan ev -> ran_through (plan ++ [c]) (ev ++ [(c, Done out)]).
Proof.
  intros [P F]. split.
  - rewrite map_app. f_equal. exact P.
  - apply Forall_app. split; [exact F |]. constructor; [now exists out | constructor].
Qed.

Lemma superseded_names_tables (projectId : jsval) (d : Z) (a b : world) :
  deployments a = deployments b ->
  superseded_names projectId d a = superseded_names projectId d b.
Proof. unfold superseded_names. intros ->. reflexivity. Qed.

(** The cleanup loop of [createContainer] never raises and records nothing. *)
Lemma cleanup_outcome (projectId : jsval) (d : Z) (w : world) :
  exists w6,
    try_catch
      (oldDeployments <- select_container_names projectId "running" d ;;
       stopEach oldDeployments)
      (fun _ => console_log "Nenhum container anterior para parar") w =
      (Return tt, w6) /\
    trace w6 = (trace w ++ events_since w w6)%list /\
    best_effort (cleanup_plan (superseded_names projectId d w))
                (events_since w w6) /\
    build_logs w6 = build_logs w /\ ticks w6 = ticks w /\
    emitted w6 = emitted w /\ deployments w6 = deployments w.
Proof.
  rewrite try_catch_run, bind_run, select_container_names_run.
  destruct (param projectId) as [pid |] eqn:P.
  - rewrite stopEach_run_all.
    pose proof (run_all_logs (cleanup_plan (superseded_names projectId d w)) w)
      as (L & K & M).
    pose proof (run_all_same_tables
                  (cleanup_plan (superseded_names projectId d w)) w)
      as (_ & _ & D & _).
    destruct (run_all _ w) as [[u | e] w6] eqn:R; apply run_all_outcome in R;
      destruct R as [E R]; cbn [snd] in L, K, M, D.
    + destruct u. exists w6. repeat split; try assumption; now left.
    + eexists. split; [reflexivity |]. simpl_world.
      unfold events_since in *. simpl_world. repeat split; try assumption.
      right. eauto.
  - eexists. split; [reflexivity |]. simpl_world.
    unfold events_since. simpl_world. rewrite skipn_all, app_nil_r. repeat split.
    left. unfold superseded_names. rewrite P. split; [reflexivity | constructor].
Qed.

(** How a run of [createContainer] goes: the recipe and the image, then the
    cleanup, as far as it gets, then the new container. *)
Lemma createContainer_outcome (projectId : jsval) (d : Z) (p : project)
    (dir : string) (w w' : world) (r : completion container) :
  createContainer projectId d p dir w = (r, w') ->
  let t := now (ticks w) in
  let plan := cleanup_plan (superseded_names projectId d w) in
  let first := (recipe_plan dir p ++ [docker_build projectId dir])%list in
  match r with
  | Return c =>
      exists ev1 stops out,
        events_since w w' =
          (ev1 ++ stops ++ [(docker_run projectId p t, Done out)])%list /\
        ran_through first ev1 /\ best_effort plan stops /\
        c = {| containerId := trim out;
               containerName := container_name_at projectId t;
               hostPort := host_port projectId |}
  | Throw e =>
      (stopped_short first (events_since w w') (message e) \/
       exists ev1 stops,
         events_since w w' =
           (ev1 ++ stops ++ [(docker_run projectId p t, Failed (message e))])%list /\
         ran_through first ev1 /\ best_effort plan stops) /\
      exists logs,
        build_logs w' = (logs ++ [container_error_log d (message e)])%list
  end.
Proof.
  unfold createContainer. intros H. cbv zeta.
  rewrite bind_run in H. unfold Date_now in H at 1. cbv iota beta in H.
  rewrite try_catch_run, bind_run, addBuildLog_run in H. cbv iota beta in H.
  rewrite bind_run, createDockerfile_run_all in H.
  match type of H with
  | context [run_all ?pl ?w2] =>
      pose proof (run_all_same_tables pl w2) as (_ & _ & T1 & _);
      destruct (run_all pl w2) as [[u | e] w3] eqn:P1;
      apply run_all_outcome in P1; destruct P1 as [E1 P1]
  end; simpl_world.
  2: { rewrite bind_run, addBuildLog_run in H. cbv iota beta in H.
       finish_in H. split.
       - left. apply stopped_short_more.
         replace (events_since w _) with
           (events_since
              (with_emitted
                 (emitted w ++
                  [{| room := "deployment-" ++ string_of_Z d;
                      event_name := "build-log"; payload_type := "info";
                      payload_message := "🐳 Criando container Docker...";
                      timestamp := now (S (ticks w)) |}])
                 (with_ticks (S (S (ticks w)))
                    (with_build_logs
                       (build_logs w ++
                        [{| deployment_id := d; log_type := "info";
                            log_message := "🐳 Criando container Docker..." |}])
                       (with_ticks (S (ticks w)) w)))) w3)
           by reflexivity.
         exact P1.
       - eexists. reflexivity. }
  rewrite bind_run, addBuildLog_run in H. cbv iota beta in H.
  rewrite bind_run, execPromise_run in H. simpl_world.
  fold (image_name projectId) in H. fold (docker_build projectId dir) in H.
  match type of H with
  | context [respond ?tr (docker_build projectId dir)] =>
      destruct (respond tr (docker_build projectId dir)) as [o2 | reason2] eqn:B
  end; cbv iota beta in H.
  2: { rewrite bind_run, addBuildLog_run in H. cbv iota beta in H.
       finish_in H. split.
       - left. unfold events_since. simpl_world. rewrite E1. simpl_world.
         rewrite <- app_assoc, skipn_length_app.
         now apply ran_through_then_failed.
       - eexists. reflexivity. }
  rewrite bind_run in H.
  match type of H with
  | context [try_catch _ _ ?w5] =>
      destruct (cleanup_outcome projectId d w5)
        as (w6 & C & E2 & BE & L2 & K2 & M2 & D2);
      rewrite (superseded_names_tables projectId d w5 w) in BE by exact T1
  end.
  rewrite C in H. cbv iota beta in H.
  match type of E2 with
  | _ = (_ ++ ?s)%list => set (stops := s) in E2, BE; clearbody stops
  end.
  match type of E1 with
  | _ = (_ ++ ?s)%list => set (ev1 := s) in E1, P1; clearbody ev1
  end.
  cbn [trace with_trace with_emitted with_ticks with_build_logs] in E1, E2.
  rewrite bind_run, addBuildLog_run in H. cbv iota beta in H.
  rewrite bind_run, execPromise_run in H.
  cbn [ticks with_trace with_emitted with_ticks with_build_logs] in H.
  rewrite K2 in H.
  cbn [ticks with_trace with_emitted with_ticks with_build_logs] in H.
  fold (container_name_at projectId (now (ticks w))) in H.
  fold (docker_run projectId p (now (ticks w))) in H.
  match type of H with
  | context [respond ?tr (docker_run projectId p (now (ticks w)))] =>
      destruct (respond tr (docker_run projectId p (now (ticks w))))
        as [out | reason3] eqn:B3
  end; cbv iota beta in H.
  - rewrite bind_run, addBuildLog_run in H. cbv iota beta in H. finish_in H.
    exists (ev1 ++ [(docker_build projectId dir, Done o2)])%list, stops, out.
    split; [| split; [| split; [exact BE | reflexivity]]].
    + unfold events_since.
      cbn [trace with_trace with_emitted with_ticks with_build_logs].
      rewrite E2, E1, <- !app_assoc, skipn_length_app. reflexivity.
    + now apply ran_through_then_done.
  - rewrite bind_run, addBuildLog_run in H. cbv iota beta in H. finish_in H.
    split; [| eexists; reflexivity].
    right. exists (ev1 ++ [(docker_build projectId dir, Done o2)])%list, stops.
    split; [| split; [| exact BE]].
    + unfold events_since.
      cbn [trace with_trace with_emitted with_ticks with_build_logs].
      rewrite E2, E1, <- !app_assoc, skipn_length_app. reflexivity.
    + now apply ran_through_then_done.
Qed.

(** ** The container stage *)


(** X3. When [createContainer] raises for a deployment whose row is in the
    table, the command that failed is a command of the recipe, the build of
    the image or the start of the container, never a command of the
    cleanup; it is the last the host has seen, the error raised is its
    error, and the last log recorded is the [error] log of the deployment
    with that message. *)
Theorem createContainer_logs_the_failure_it_raises
    (projectId : jsval) (d : Z) (p : project) (dir : string) (w w' : world)
    (e : exn) :
  recorded d w ->
  createContainer projectId d p dir w = (Throw e, w') ->
  (stopped_short (recipe_plan dir p ++ [docker_build projectId dir])%list
     (events_since w w') (message e) \/
   exists ev1 stops,
     events_since w w' =
       (ev1 ++ stops ++
        [(docker_run projectId p (now (ticks w)), Failed (message e))])%list /\
     ran_through (recipe_plan dir p ++ [docker_build projectId dir])%list ev1 /\
     best_effort (cleanup_plan (superseded_names projectId d w)) stops) /\
  recorded d w' /\
  exists logs,
    build_logs w' = (logs ++ [container_error_log d (message e)])%list.
Proof.
  intros Row H.
  pose proof (createContainer_same_tables projectId d p dir w) as T.
  rewrite H in T. destruct T as (_ & _ & T & _). cbn [snd] in T.
  destruct (createContainer_outcome _ _ _ _ _ _ _ H) as [Ev Logs].
  split; [exact Ev |]. split; [| exact Logs].
  unfold recorded in Row |- *. now rewrite T.
Qed.

(** ** Relations the stages respect as soon as the primitives do *)

Section Stages.

Variable R : world -> world -> Prop.
Context {R_preorder : PreOrder R}.

Variable deploymentId : Z.

Hypothesis run_ok : forall c, respects R (run c).
Hypothesis clock_ok : respects R Date_now.
Hypothesis console_ok : forall line, respects R (console_log line).
Hypothesis update_ok : forall cond f, respects R (update_deployments cond f).
Hypothesis log_ok : forall ty msg, respects R (addBuildLog deploymentId ty msg).

Ltac stage_leaf :=
  first [ apply run_ok | apply clock_ok | apply console_ok | apply update_ok
        | apply log_ok ].

Lemma writeEach_stage (dir : string) (fs : list file) :
  respects R (writeEach dir fs).
Proof.
  induction fs as [| f rest IH]; cbn [writeEach].
  - respects_step.
  - unfold fs_mkdir, fs_writeFile. respects_with stage_leaf.
Qed.

Lemma saveProjectFiles_stage (projectId : jsval) (fs : list file) :
  respects R (saveProjectFiles projectId fs).
Proof.
  unfold saveProjectFiles, createDeployDirectory, fs_mkdir.
  pose proof writeEach_stage. respects_with stage_leaf.
Qed.

Lemma build_stage_stage (dir : string) (p : project) :
  respects R (build_stage dir deploymentId p).
Proof.
  unfold build_stage, buildReactProject, buildNextProject, execPromise.
  respects_with stage_leaf.
Qed.

Lemma createDockerfile_stage (dir : string) (p : project) :
  respects R (createDockerfile dir p).
Proof. unfold createDockerfile, fs_writeFile. respects_with stage_leaf. Qed.

Lemma stopEach_stage (names : list (option string)) :
  respects R (stopEach names).
Proof.
  induction names as [| name rest IH]; cbn [stopEach].
  - respects_step.
  - unfold execPromise. respects_with stage_leaf.
Qed.

Lemma createContainer_stage (projectId : jsval) (p : project) (dir : string) :
  respects R (createContainer projectId deploymentId p dir).
Proof.
  unfold createContainer, select_container_names, execPromise.
  pose proof createDockerfile_stage. pose proof stopEach_stage.
  respects_with stage_leaf.
Qed.

Lemma configureNginx_stage (projectId hp : jsval) (domain : option string) :
  respects R (configureNginx projectId hp domain).
Proof.
  unfold configureNginx, execPromise, fs_writeFile, fs_unlink, fs_symlink.
  respects_with stage_leaf.
Qed.

Lemma finish_deploy_stage (projectId : jsval) (startTime : Z) (c : container)
    (serverName : string) :
  respects R (finish_deploy projectId deploymentId startTime c serverName).
Proof. unfold finish_deploy. respects_with stage_leaf. Qed.

Lemma pipeline_stage (projectId : jsval) (p : project) (fs : list file)
    (startTime : Z) :
  respects R (pipeline projectId p deploymentId fs startTime).
Proof.
  unfold pipeline.
  pose proof saveProjectFiles_stage. pose proof build_stage_stage.
  pose proof createContainer_stage. pose proof configureNginx_stage.
  pose proof finish_deploy_stage.
  respects_with stage_leaf.
Qed.

Lemma stopDeployment_stage (deploymentId' : jsval) :
  respects R (stopDeployment deploymentId').
Proof.
  unfold stopDeployment, select_deployment, execPromise.
  respects_with stage_leaf.
Qed.

End Stages.

(** ** The two sinks of a log line *)

#[local] Instance logs_of_preorder (d : Z) : PreOrder (logs_of d).
Proof.
  split.
  - intros w. exists [], []. rewrite !app_nil_r.
    split; [reflexivity |]. split; [reflexivity |]. split; constructor.
  - intros a b c (l1 & e1 & B1 & E1 & A1 & D1) (l2 & e2 & B2 & E2 & A2 & D2).
    exists (l1 ++ l2)%list, (e1 ++ e2)%list.
    rewrite B2, B1, E2, E1, !app_assoc.
    split; [reflexivity |]. split; [reflexivity |]. split.
    + now apply Forall2_app.
    + apply Forall_app. now split.
Qed.

Lemma logs_of_same (d : Z) (w w' : world) :
  build_logs w' = build_logs w -> emitted w' = emitted w -> logs_of d w w'.
Proof.
  intros B E. exists [], []. rewrite B, E, !app_nil_r.
  split; [reflexivity |]. split; [reflexivity |]. split; constructor.
Qed.

Lemma addBuildLog_logs (d : Z) (ty msg : string) :
  respects (logs_of d) (addBuildLog d ty msg).
Proof.
  intros w. rewrite addBuildLog_run. cbn [snd].
  eexists [_], [_].
  cbn [build_logs emitted with_emitted with_ticks with_build_logs].
  split; [reflexivity |]. split; [reflexivity |]. split.
  - constructor; [| constructor]. repeat split.
  - repeat constructor.
Qed.

Lemma pipeline_logs (projectId : jsval) (p : project) (d : Z) (fs : list file)
    (startTime : Z) :
  respects (logs_of d) (pipeline projectId p d fs startTime).
Proof.
  apply pipeline_stage; try typeclasses eauto.
  - intros c w. now apply logs_of_same.
  - intros w. now apply logs_of_same.
  - intros line w. now apply logs_of_same.
  - intros cond f w. now apply logs_of_same.
  - apply addBuildLog_logs.
Qed.

(** The rows [deploy] adds to [build_logs] and the events it sends. *)
Lemma deploy_logs
    (projectId : jsval) (userId : Z) (msg : string) (w : world) :
  logs_of (deployments_id_seq w) w (snd (deploy projectId userId msg w)).
Proof.
  rewrite deploy_run, deploy_try_run, bind_run, select_project_run.
  destruct (param projectId) as [pid |] eqn:P; [| now apply logs_of_same].
  destruct (hd_error _) as [p |]; [| now apply logs_of_same].
  rewrite bind_run, insert_deployment_run, P. cbn zeta.
  cbn [deployments deployments_id_seq with_ticks].
  destruct (existsb _ _); [now apply logs_of_same |].
  rewrite bind_run, addBuildLog_run, bind_run, select_files_run, P.
  cbn [files with_emitted with_ticks with_build_logs with_deployments with_seq].
  set (d := deployments_id_seq w).
  destruct (Nat.eqb _ 0).
  { cbn [snd]. eexists [_], [_].
    cbn [build_logs emitted with_emitted with_ticks with_build_logs
         with_deployments with_seq with_console].
    split; [reflexivity |]. split; [reflexivity |]. split.
    - constructor; [| constructor]. repeat split.
    - repeat constructor. }
  match goal with
  | |- context [pipeline ?a ?b ?c ?e ?f ?w2] =>
      pose proof (pipeline_logs a b c e f w2) as K;
      assert (L : logs_of d w w2);
      [| destruct (pipeline a b c e f w2) as [[r | e'] w3] ]
  end.
  - eexists [_], [_].
    cbn [build_logs emitted with_emitted with_ticks with_build_logs
         with_deployments with_seq with_console].
    split; [reflexivity |]. split; [reflexivity |]. split.
    + constructor; [| constructor]. repeat split.
    + repeat constructor.
  - cbn [snd] in *. etransitivity; [exact L | exact K].
  - cbn [snd] in *. etransitivity; [exact L |].
    destruct K as (ls & es & B & E & A & D). exists ls, es. auto.
Qed.

(** X4. Every log line of a deployment goes to both of its sinks: whatever
    the outcome of [deploy], the rows it adds to [build_logs] all belong to
    the deployment it creates, and the events it sends are one [build-log]
    event for each of these rows, in the same order, with the type and the
    message of the row, sent to the room of that deployment. *)
Theorem deploy_logs_to_both_sinks
    (projectId : jsval) (userId : Z) (msg : string) (w : world) :
  logs_of (deployments_id_seq w) w (snd (deploy projectId userId msg w)).
Proof. apply deploy_logs. Qed.

(** ** Relations an invocation respects as soon as the primitives do *)

Section Invocations.

Variable R : world -> world -> Prop.
Context {R_preorder : PreOrder R}.

Hypothesis run_ok : forall c, respects R (run c).
Hypothesis clock_ok : respects R Date_now.
Hypothesis console_ok : forall line, respects R (console_log line).
Hypothesis update_ok : forall cond f, respects R (update_deployments cond f).
Hypothesis insert_ok : forall v st msg, respects R (insert_deployment v st msg).
Hypothesis log_ok : forall d ty msg, respects R (addBuildLog d ty msg).

Lemma deploy_invocation (projectId : jsval) (userId : Z) (msg : string) :
  respects R (deploy projectId userId msg).
Proof.
  unfold deploy. apply respects_bind; preorder_side;
    [exact clock_ok | intros startTime].
  apply respects_try_catch; preorder_side.
  - rewrite deploy_try_run. unfold select_project, select_files.
    repeat first [ apply insert_ok | apply log_ok
                 | apply pipeline_stage; solve [ auto ] | respects_step ].
  - intros e. unfold deploy_catch, optional_id.
    repeat first [ apply console_ok | apply update_ok | respects_step ].
Qed.

End Invocations.

(** ** The tables around a deployment *)

#[local] Instance same_catalogue_preorder : PreOrder same_catalogue.
Proof.
  split.
  - intros w. split; reflexivity.
  - intros a b c [H1 H2] [K1 K2]. split; congruence.
Qed.

Lemma deploy_same_catalogue (projectId : jsval) (userId : Z) (msg : string) :
  respects same_catalogue (deploy projectId userId msg).
Proof.
  apply deploy_invocation; try typeclasses eauto.
  - intros c w. split; reflexivity.
  - intros w. split; reflexivity.
  - intros line w. split; reflexivity.
  - intros cond f w. split; reflexivity.
  - intros v st m. unfold insert_deployment.
    respects_with ltac:(apply respects_modify; preorder_side; intros; split; reflexivity).
  - intros d ty m w. rewrite addBuildLog_run. split; reflexivity.
Qed.

Lemma retire_id (pid n : Z) (ds : list deployment) :
  map id (map (retire pid n) ds) = map id ds.
Proof.
  rewrite map_map. apply map_ext. intros d. unfold retire.
  destruct (_ && _); reflexivity.
Qed.

Lemma retire_other_projects (pid n : Z) (ds : list deployment) :
  of_other_projects pid (map (retire pid n) ds) = of_other_projects pid ds.
Proof.
  unfold of_other_projects.
  induction ds as [| d ds IH]; [reflexivity |]. cbn [map filter].
  rewrite IH. unfold retire.
  destruct (int_is (project_id d) pid) eqn:P; cbn [andb negb].
  - match goal with
    | |- context [if ?b then set_status _ _ else _] => destruct b
    end; cbn [project_id set_status]; rewrite P; reflexivity.
  - rewrite P. reflexivity.
Qed.

Lemma retire_running_elsewhere (pid n q : Z) (ds : list deployment) :
  q <> pid ->
  running_of q (map (retire pid n) ds) = running_of q ds.
Proof.
  intros N. unfold running_of.
  induction ds as [| d ds IH]; [reflexivity |]. cbn [map filter].
  rewrite IH. unfold retire.
  destruct (int_is (project_id d) pid) eqn:P; cbn [andb]; [| reflexivity].
  assert (Q : int_is (project_id d) q = false).
  { destruct (project_id d) as [m |]; [| reflexivity]. cbn in *.
    apply Z.eqb_eq in P. subst m. now apply Z.eqb_neq, not_eq_sym. }
  match goal with
  | |- context [if ?b then set_status _ _ else _] => destruct b
  end; cbn [project_id set_status status]; rewrite Q; reflexivity.
Qed.

(** The table of deployments after an invocation of [deploy]. *)
Lemma deploy_table (projectId : jsval) (userId : Z) (msg : string) (w : world) :
  deployments (snd (deploy projectId userId msg w)) = deployments w \/
  exists pid,
    param projectId = Some pid /\
    existsb (fun d => Z.eqb (id d) (deployments_id_seq w)) (deployments w) = false /\
    (deployments (snd (deploy projectId userId msg w)) =
       (deployments w ++ [building_row (deployments_id_seq w) pid msg])%list \/
     exists cid cname u duration,
       deployments (snd (deploy projectId userId msg w)) =
         (map (retire pid (deployments_id_seq w)) (deployments w) ++
          [set_running cid cname u duration
             (building_row (deployments_id_seq w) pid msg)])%list).
Proof.
  destruct (deploy projectId userId msg w) as [[res | e] w'] eqn:H; cbn [snd].
  - destruct (deploy_succeeds_or_raises projectId userId msg w) as [(u & t & S) | S];
      rewrite H in S; cbn [fst] in S; [| discriminate S].
    injection S as ->. apply deploy_success_table in H.
    destruct H as (pid & cid & cname & P & _ & _ & F & D).
    right. exists pid. split; [exact P |]. split; [exact F |].
    right. exists cid, cname, u, t. exact D.
  - revert H. rewrite deploy_run.
    destruct (deploy_try _ _ _ _ _) as [[r | e'] w1] eqn:T; [discriminate |].
    intros H. injection H as _ <-. apply deploy_try_table in T.
    cbn [deployments deployments_id_seq with_ticks with_console] in *.
    destruct T as [T | (pid & P & F & T)]; [now left |].
    right. exists pid. split; [exact P |]. split; [exact F |]. now left.
Qed.

(** X6. An invocation of [deploy] leaves the projects and the files as
    they were and never deletes a deployment; the deployments of the other
    projects are left as they were, in their order. *)
Theorem deploy_touches_its_project_only
    (projectId : jsval) (userId : Z) (msg : string) (w : world) :
  let w' := snd (deploy projectId userId msg w) in
  same_catalogue w w' /\
  (param projectId = None -> deployments w' = deployments w) /\
  (forall pid, param projectId = Some pid ->
     of_other_projects pid (deployments w') =
     of_other_projects pid (deployments w)) /\
  exists added,
    map id (deployments w') = (map id (deployments w) ++ added)%list.
Proof.
  cbn zeta. split; [apply deploy_same_catalogue |].
  destruct (deploy_table projectId userId msg w)
    as [D | (pid & P & F & [D | (cid & cname & u & t & D)])]; rewrite D.
  - split; [reflexivity |]. split; [reflexivity |].
    exists []. now rewrite app_nil_r.
  - split; [intros N; congruence |]. split.
    + intros pid' P'. assert (pid' = pid) by congruence. subst pid'.
      unfold of_other_projects. rewrite filter_app. cbn [filter building_row project_id int_is].
      rewrite Z.eqb_refl. cbn [negb]. now rewrite app_nil_r.
    + eexists. rewrite map_app. reflexivity.
  - split; [intros N; congruence |]. split.
    + intros pid' P'. assert (pid' = pid) by congruence. subst pid'.
      unfold of_other_projects at 1. rewrite filter_app.
      fold (of_other_projects pid (map (retire pid (deployments_id_seq w)) (deployments w))).
      rewrite retire_other_projects.
      cbn [filter building_row set_running project_id int_is].
      rewrite Z.eqb_refl. cbn [negb]. now rewrite app_nil_r.
    + eexists. rewrite map_app, retire_id. reflexivity.
Qed.

(** X7. If no project has more than one deployment that is [running], this
    is still so after an invocation of [deploy], whatever its outcome. *)
Theorem deploy_keeps_one_running_per_project
    (projectId : jsval) (userId : Z) (msg : string) (w : world) :
  one_running_per_project (deployments w) ->
  one_running_per_project (deployments (snd (deploy projectId userId msg w))).
Proof.
  intros I q.
  destruct (deploy_table projectId userId msg w)
    as [D | (pid & P & F & [D | (cid & cname & u & t & D)])]; rewrite D.
  - apply I.
  - unfold running_of. rewrite filter_app. cbn [filter building_row status].
    rewrite andb_false_r, app_nil_r. apply I.
  - unfold running_of. rewrite filter_app.
    fold (running_of q (map (retire pid (deployments_id_seq w)) (deployments w))).
    destruct (Z.eq_dec q pid) as [-> | N].
    + rewrite (retire_old_not_running _ _ _ F). cbn [app filter].
      destruct (_ && _); cbn; lia.
    + rewrite (retire_running_elsewhere _ _ _ _ N).
      cbn [filter building_row set_running project_id status int_is].
      assert (Q : Z.eqb pid q = false) by now apply Z.eqb_neq, not_eq_sym.
      rewrite Q. cbn [andb]. rewrite app_nil_r. apply I.
Qed.

(** X5. A deployment asked for a project that is not found for the user
    (no such project, the project of someone else, an identifier that is no
    integer) raises and leaves the tables, the host, the logs and the
    socket server as they were: all there is of it is a line on the
    console. *)
Theorem deploy_of_a_project_not_found_changes_nothing
    (projectId : jsval) (userId : Z) (msg : string) (w : world) :
  (forall p, fst (select_project projectId userId w) <> Return (Some p)) ->
  let w' := snd (deploy projectId userId msg w) in
  fst (deploy projectId userId msg w) =
    Throw (ReferenceError "deployment is not defined") /\
  same_tables w w' /\ trace w' = trace w /\
  build_logs w' = build_logs w /\ emitted w' = emitted w /\
  exists reason,
    console w' = (console w ++ [("Erro no deploy: " ++ reason)%string])%list.
Proof.
  intros N. cbn zeta. revert N.
  rewrite deploy_run, deploy_try_run, bind_run, !select_project_run.
  cbn [projects with_ticks].
  destruct (param projectId) as [pid |].
  - destruct (hd_error _) as [p |]; intros N; [now destruct (N p) |].
    cbn. repeat split. eexists. reflexivity.
  - intros _. cbn. repeat split. eexists. reflexivity.
Qed.

(** ** The rule of the reverse proxy *)

Ltac tolerated_events :=
  repeat first
    [ apply Forall_nil
    | apply Forall_cons;
      [ first [ left; eexists; reflexivity | right; reflexivity ] | ] ].

(** How a run of [configureNginx] goes. *)
Lemma configureNginx_outcome
    (projectId hp : jsval) (domain : option string) (w : world) :
  let w' := snd (configureNginx projectId hp domain w) in
  match fst (configureNginx projectId hp domain w) with
  | Return name =>
      name = server_name projectId domain /\
      map fst (events_since w w') = proxy_plan projectId hp domain /\
      Forall (tolerated projectId) (events_since w w') /\
      console w' = console w
  | Throw e =>
      exists pre c rest,
        events_since w w' = (pre ++ [(c, Failed (message e))])%list /\
        Forall (tolerated projectId) pre /\
        proxy_plan projectId hp domain = (map fst pre ++ c :: rest)%list /\
        c <> Unlink (proxy_link projectId) /\
        console w' =
          (console w ++ [("Erro ao configurar Nginx: " ++ message e)%string])%list
  end.
Proof.
  unfold configureNginx, proxy_plan, tolerated, succeeded. exec_unfold. cbn.
  fold (proxy_rule projectId). fold (proxy_link projectId).
  host_cases; events_norm.
  all: try (split; [reflexivity |]; split; [reflexivity |];
            split; [tolerated_events | reflexivity]).
  all: try (eexists [_; _; _; _], _, _; split; [reflexivity |];
            split; [tolerated_events |]; split; [reflexivity |];
            split; [discriminate | reflexivity]).
  all: try (eexists [_; _; _], _, _; split; [reflexivity |];
            split; [tolerated_events |]; split; [reflexivity |];
            split; [discriminate | reflexivity]).
  all: try (eexists [_; _], _, _; split; [reflexivity |];
            split; [tolerated_events |]; split; [reflexivity |];
            split; [discriminate | reflexivity]).
  all: try (eexists [], _, _; split; [reflexivity |];
            split; [tolerated_events |]; split; [reflexivity |];
            split; [discriminate | reflexivity]).
Qed.

(** X8. [configureNginx] works through its plan: the rule, the removal of
    the former link, the new link, the syntax check, the reload.  A failure
    of the removal is ignored; any other failure ends the plan and is
    raised, after one entry on the console that opens with
    [Erro ao configurar Nginx:].  When it returns, every command of the
    plan has been issued, nothing is on the console, and the name returned
    is the domain, or the local name of the project without one. *)
Theorem configureNginx_follows_its_plan
    (projectId hp : jsval) (domain : option string) (w : world) :
  let w' := snd (configureNginx projectId hp domain w) in
  match fst (configureNginx projectId hp domain w) with
  | Return name =>
      name = server_name projectId domain /\
      map fst (events_since w w') = proxy_plan projectId hp domain /\
      Forall (tolerated projectId) (events_since w w') /\
      console w' = console w
  | Throw e =>
      exists pre c rest,
        events_since w w' = (pre ++ [(c, Failed (message e))])%list /\
        Forall (tolerated projectId) pre /\
        proxy_plan projectId hp domain = (map fst pre ++ c :: rest)%list /\
        c <> Unlink (proxy_link projectId) /\
        exists report,
          console w' =
            (console w ++ [("Erro ao configurar Nginx: " ++ report)%string])%list
  end.
Proof.
  cbn zeta. pose proof (configureNginx_outcome projectId hp domain w) as H.
  cbn zeta in H.
  destruct (fst (configureNginx projectId hp domain w)) as [name | e];
    [exact H |].
  destruct H as (pre & c & rest & E & F & P & N & C).
  exists pre, c, rest. split; [exact E |]. split; [exact F |].
  split; [exact P |]. split; [exact N |]. exists (message e). exact C.
Qed.

(** ** Stopping a deployment *)

(** X9. [stopDeployment] changes the table of deployments in one case only:
    the deployment is found, it has a container name, and the stop and the
    removal of that container, the two commands the host has seen, both
    succeeded.  The rows with the identifier are then [stopped], the answer
    is [true], and no other row is changed. *)
Theorem stopDeployment_stops_after_the_container_is_gone
    (deploymentId : jsval) (w : world) :
  let w' := snd (stopDeployment deploymentId w) in
  deployments w' = deployments w \/
  exists did d out1 out2,
    param deploymentId = Some did /\
    hd_error (filter (fun r => Z.eqb (id r) did) (deployments w)) = Some d /\
    truthy (container_name d) = true /\
    events_since w w' =
      [ (Exec ("docker stop " ++ or_else (container_name d) EmptyString)
              None None, Done out1);
        (Exec ("docker rm " ++ or_else (container_name d) EmptyString)
              None None, Done out2) ] /\
    fst (stopDeployment deploymentId w) = Return true /\
    deployments w' = map (halt did) (deployments w).
Proof.
  unfold stopDeployment, halt. exec_unfold. unfold sql_int. exec_unfold.
  destruct deploymentId as [n | s]; cbn [param]; [| destruct (int4in s) as [n |]].
  3: cbn; left; reflexivity.
  all: cbn; destruct (hd_error _) as [d |] eqn:F; cbn; [| now left].
  all: destruct (truthy (container_name d)) eqn:T; cbn; [| now left].
  all: host_cases; try (left; reflexivity).
  all: right; eexists n, d, _, _; repeat split; try assumption.
  all: events_norm; reflexivity.
Qed.

Lemma halt_cases (did : Z) (d : deployment) :
  halt did d = d \/
  status (halt did d) = "stopped" /\ project_id (halt did d) = project_id d.
Proof. unfold halt. destruct (Z.eqb (id d) did); [right; split |left]; reflexivity. Qed.

Lemma halt_running (did q : Z) (ds : list deployment) :
  (List.length (running_of q (map (halt did) ds)) <=
   List.length (running_of q ds))%nat.
Proof.
  unfold running_of. induction ds as [| d ds IH]; [apply le_n |].
  cbn [map filter].
  destruct (halt_cases did d) as [-> | [S P]].
  - destruct (_ && _); cbn [List.length]; lia.
  - rewrite S, P. change (String.eqb "stopped" "running") with false.
    rewrite andb_false_r.
    destruct (_ && _); cbn [List.length]; lia.
Qed.

(** X10. If no project has more than one deployment that is [running],
    this is still so after [stopDeployment]. *)
Theorem stopDeployment_keeps_one_running_per_project
    (deploymentId : jsval) (w : world) :
  one_running_per_project (deployments w) ->
  one_running_per_project (deployments (snd (stopDeployment deploymentId w))).
Proof.
  intros I q.
  assert (D : deployments (snd (stopDeployment deploymentId w)) = deployments w \/
              exists did, deployments (snd (stopDeployment deploymentId w)) =
                            map (halt did) (deployments w)).
  { unfold stopDeployment, halt. exec_unfold. unfold sql_int. exec_unfold.
    destruct deploymentId as [n | s]; [| destruct (int4in s) as [n |]].
    3: cbn; left; reflexivity.
    all: cbn; destruct (hd_error _) as [d |]; cbn; [| now left].
    all: destruct (truthy (container_name d)); cbn; [| now left].
    all: host_cases; try (left; reflexivity).
    all: right; exists n; reflexivity. }
  destruct D as [D | [did D]]; rewrite D; [apply I |].
  etransitivity; [apply halt_running | apply I].
Qed.

(** ** The clock *)

#[local] Instance no_earlier_preorder : PreOrder no_earlier.
Proof.
  split.
  - intros w. apply le_n.
  - intros a b c H K. unfold no_earlier in H, K |- *. lia.
Qed.

Ltac no_earlier_leaf :=
  intros; intro;
  unfold no_earlier, run, Date_now, console_log, update_deployments, modify,
    addBuildLog, insert_build_log, io_emit, bind;
  cbn; lia.

(** X11. On a clock that never goes back, the duration a successful
    [deploy] returns is not negative; it is the duration recorded in the
    row of the deployment, which is [running] under the address
    returned. *)
Theorem build_duration_is_not_negative
    (projectId : jsval) (userId : Z) (msg : string) (w w' : world)
    (n : Z) (u : string) (t : Z) :
  clock_never_goes_back ->
  deploy projectId userId msg w = (Return (DeploySucceeded n u t), w') ->
  0 <= t /\
  exists row,
    In row (deployments w') /\ id row = n /\ status row = "running" /\
    url row = Some u /\ build_duration row = Some t.
Proof.
  intros Mono H. split.
  - revert H. rewrite deploy_run.
    destruct (deploy_try _ _ _ _ _) as [[r | e] w1] eqn:T; [| discriminate].
    intros H. injection H as -> ->. revert T.
    rewrite deploy_try_run, bind_run, select_project_run.
    destruct (param projectId) as [pid |] eqn:P; [| discriminate].
    destruct (hd_error _) as [p |]; [| discriminate].
    rewrite bind_run, insert_deployment_run, P. cbn zeta.
    destruct (existsb _ _); [discriminate |].
    rewrite bind_run, addBuildLog_run, bind_run, select_files_run, P.
    cbn [deployments files with_emitted with_ticks with_build_logs
         with_deployments with_seq].
    destruct (Nat.eqb _ 0); [discriminate |].
    intros T.
    apply (pipeline_inv no_earlier) in T.
    + destruct T as [(e & E & _) | (c & wm & Rm & _ & F)]; [discriminate E |].
      match type of F with
      | finish_deploy ?a ?b ?s ?c ?sn ?wm = _ =>
          destruct (finish_deploy_run a b s c sn wm) as (w2 & F2 & _)
      end.
      rewrite F2, P in F. injection F as _ _ <- _.
      apply Z.div_pos; [| lia].
      unfold no_earlier in Rm. cbn [ticks with_emitted with_ticks with_build_logs
        with_deployments with_seq] in Rm.
      assert (now (ticks w) <= now (ticks wm)) by (apply Mono; lia). lia.
    + no_earlier_leaf.
    + apply saveProjectFiles_stage; try typeclasses eauto; no_earlier_leaf.
    + intros dir. apply build_stage_stage; try typeclasses eauto; no_earlier_leaf.
    + intros dir. apply createContainer_stage; try typeclasses eauto; no_earlier_leaf.
    + intros hp. apply configureNginx_stage; try typeclasses eauto; no_earlier_leaf.
  - apply deploy_success_table in H.
    destruct H as (pid & cid & cname & P & -> & _ & F & D).
    eexists. split; [rewrite D; apply in_or_app; right; left; reflexivity |].
    repeat split.
Qed.

(** ** The build stage *)

Lemma buildReactProject_returns (dir : string) (d : Z) (p : project)
    (w w' : world) (b : bool) :
  buildReactProject dir d p w = (Return b, w') ->
  exists out1 out2 l1 l3,
    events_since w w' =
      [ (npm_install dir, Done out1);
        (Exec (or_else (build_command p) "npm run build") (Some dir) (Some 600000),
         Done out2) ] /\
    build_logs w' =
      (build_logs w ++
       [ l1; {| deployment_id := d; log_type := "info"; log_message := out1 |};
         l3; {| deployment_id := d; log_type := "info"; log_message := out2 |} ])%list.
Proof.
  unfold buildReactProject. intros H.
  step_in H. step_in H.
  - step_in H. step_in H. step_in H.
    + step_in H. finish_in H. do 4 eexists. split.
      * events_norm. reflexivity.
      * rewrite <- !app_assoc. reflexivity.
    + step_in H. discriminate H.
  - step_in H. discriminate H.
Qed.

Lemma buildNextProject_returns (dir : string) (d : Z) (p : project)
    (w w' : world) (b : bool) :
  buildNextProject dir d p w = (Return b, w') ->
  exists out1 out2 l1 l3,
    events_since w w' =
      [ (npm_install dir, Done out1);
        (Exec "npm run build" (Some dir) (Some 600000), Done out2) ] /\
    build_logs w' =
      (build_logs w ++
       [ l1; {| deployment_id := d; log_type := "info"; log_message := out1 |};
         l3; {| deployment_id := d; log_type := "info"; log_message := out2 |} ])%list.
Proof.
  unfold buildNextProject. intros H.
  step_in H. step_in H.
  - step_in H. step_in H. step_in H.
    + step_in H. finish_in H. do 4 eexists. split.
      * events_norm. reflexivity.
      * rewrite <- !app_assoc. reflexivity.
    + step_in H. discriminate H.
  - step_in H. discriminate H.
Qed.

(** What the build stage has done when it returns. *)
Lemma build_stage_returns
    (dir : string) (d : Z) (p : project) (w w' : world) :
  build_stage dir d p w = (Return tt, w') ->
  if has_build_stage p then
    exists out1 out2 l1 l3,
      events_since w w' =
        [(npm_install dir, Done out1); (npm_build dir p, Done out2)] /\
      build_logs w' =
        (build_logs w ++
         [ l1; {| deployment_id := d; log_type := "info"; log_message := out1 |};
           l3; {| deployment_id := d; log_type := "info"; log_message := out2 |} ])%list
  else w' = w.
Proof.
  unfold build_stage, has_build_stage, npm_build.
  destruct (framework_is p "react" || framework_is p "html"); cbn [orb].
  - rewrite bind_run.
    destruct (buildReactProject dir d p w) as [[b | e] w1] eqn:B;
      [| discriminate].
    intros H. injection H as <-. now apply buildReactProject_returns in B.
  - destruct (framework_is p "nextjs").
    + rewrite bind_run.
      destruct (buildNextProject dir d p w) as [[b | e] w1] eqn:B;
        [| discriminate].
      intros H. injection H as <-. now apply buildNextProject_returns in B.
    + intros H. injection H as <-. reflexivity.
Qed.

(** X12. When the build stage of [deploy] returns for a project whose
    framework is [react], [html] or [nextjs], the host has run two commands
    in the project directory, both with success: [npm install], then the
    build command (the one of the project for [react] and [html] when it
    has one, [npm run build] otherwise), and the output of each is in the
    logs of the deployment.  For any other framework the stage does
    nothing. *)
Theorem build_stage_installs_then_builds
    (dir : string) (d : Z) (p : project) (w w' : world) :
  build_stage dir d p w = (Return tt, w') ->
  if has_build_stage p then
    exists out1 out2 l1 l3,
      events_since w w' =
        [(npm_install dir, Done out1); (npm_build dir p, Done out2)] /\
      build_logs w' =
        (build_logs w ++
         [ l1; {| deployment_id := d; log_type := "info"; log_message := out1 |};
           l3; {| deployment_id := d; log_type := "info"; log_message := out2 |} ])%list
  else w' = w.
Proof. apply build_stage_returns. Qed.

(** ** The middleware *)

Lemma split_space_word (a : string) :
  no_space a = true -> split_space a = [a].
Proof.
  induction a as [| c a IH]; cbn [no_space split_space]; [reflexivity |].
  destruct (Ascii.eqb c " "); cbn [negb andb]; [discriminate |].
  intros H. now rewrite (IH H).
Qed.

Lemma split_space_app (a b : string) :
  no_space a = true ->
  split_space (a ++ String " " b) = a :: split_space b.
Proof.
  induction a as [| c a IH]; intros H.
  - reflexivity.
  - change (String c a ++ String " " b) with (String c (a ++ String " " b)).
    cbn [no_space] in H. cbn [split_space].
    destruct (Ascii.eqb c " "); cbn [negb andb] in H; [discriminate H |].
    now rewrite (IH H).
Qed.

Lemma append_space_not_empty (a b : string) :
  String.eqb (a ++ String " " b) EmptyString = false.
Proof. destruct a; reflexivity. Qed.

Lemma header_token_second_word (scheme rest : string) :
  no_space scheme = true ->
  header_token (Some (scheme ++ String " " rest)) =
  hd_error (split_space rest).
Proof.
  intros H. unfold header_token.
  rewrite append_space_not_empty, (split_space_app _ _ H).
  cbn [nth_error]. now destruct (split_space rest).
Qed.

(** X13. The middleware takes for the token the second word of the
    [Authorization] header, whatever the first word is ([Bearer] is not
    asked for) and whatever follows the second: when both words are free
    of spaces and the second is not empty, the request is refused with 403
    or handed on with the payload exactly as the verification of that word
    against the key decides. *)
Theorem authenticateToken_reads_the_second_word
    (env : option string) (scheme token rest : string) :
  no_space scheme = true -> no_space token = true -> token <> EmptyString ->
  authenticateToken env (Some (scheme ++ " " ++ token)) =
    match jwt_verify token (jwt_secret env) with
    | None => Refused 403 "Token inválido"
    | Some user => Passed user
    end /\
  authenticateToken env (Some (scheme ++ " " ++ token ++ " " ++ rest)) =
    authenticateToken env (Some (scheme ++ " " ++ token)).
Proof.
  intros S T N.
  assert (E : String.eqb token EmptyString = false)
    by (destruct token; [now destruct N | reflexivity]).
  change (" " ++ token ++ " " ++ rest) with (String " " (token ++ String " " rest)).
  change (" " ++ token) with (String " " token).
  unfold authenticateToken.
  rewrite !(header_token_second_word _ _ S), (split_space_app _ _ T),
    (split_space_word _ T).
  cbn [hd_error truthy or_else]. rewrite E. cbn [negb]. split; reflexivity.
Qed.

(** X14. The middleware refuses with 401, without consulting the
    verification, a request that has no [Authorization] header, a header
    of one word only (the empty header included), and a header whose first
    word is followed by two spaces. *)
Theorem authenticateToken_refuses_a_header_without_token (env : option string) :
  authenticateToken env None = Refused 401 "Token não fornecido" /\
  (forall word, no_space word = true ->
     authenticateToken env (Some word) = Refused 401 "Token não fornecido") /\
  (forall scheme rest, no_space scheme = true ->
     authenticateToken env (Some (scheme ++ "  " ++ rest)) =
       Refused 401 "Token não fornecido").
Proof.
  split; [reflexivity |]. split.
  - intros word W. unfold authenticateToken, header_token.
    destruct (String.eqb word EmptyString); [reflexivity |].
    now rewrite (split_space_word _ W).
  - intros scheme rest S.
    change ("  " ++ rest) with (String " " (String " " rest)).
    unfold authenticateToken.
    rewrite (header_token_second_word _ _ S). reflexivity.
Qed.

(** ** The routes of deployments *)

(** X15. [POST /api/deploy/:projectId] never raises.  It answers 403 and
    leaves the world as it was when the project is not one of the user; it
    answers 500, with the tables and the host untouched, when the
    identifier is no integer; otherwise its answer is 200 [Deploy
    iniciado], whatever becomes of the deployment.  An event
    [deploy-complete] is sent only for a deployment that succeeded, to the
    room of the project; a deployment that failed is only on the console. *)
Theorem post_deploy_answers_and_announces
    (projectId : string) (userId : Z) (commitMessage : option string)
    (w : world) :
  let w' := snd (post_deploy projectId userId commitMessage w) in
  exists answer settled,
    fst (post_deploy projectId userId commitMessage w) = Return (answer, settled) /\
    match fst (select_project (JStr projectId) userId w) with
    | Throw _ =>
        answer = res_status_json 500 (ErrorBody "Erro ao iniciar deploy") /\
        settled = None /\ same_tables w w' /\ trace w' = trace w
    | Return None =>
        answer = res_status_json 403 (ErrorBody "Acesso negado") /\
        settled = None /\ w' = w
    | Return (Some _) =>
        answer = res_json (DeployStarted "Deploy iniciado" "building") /\
        match settled with
        | Some n =>
            notice_room n = "project-" ++ projectId /\
            notice_event n = "deploy-complete" /\
            success (notice_result n) = true /\
            fst (route_deploy projectId userId commitMessage w) =
              Return (notice_result n)
        | None =>
            fst (route_deploy projectId userId commitMessage w) =
              Throw (ReferenceError "deployment is not defined")
        end
    end.
Proof.
  cbn zeta. unfold post_deploy.
  rewrite try_catch_run, bind_run, select_project_run. cbn [param].
  destruct (int4in projectId) as [pid |].
  2: { do 2 eexists. cbn. repeat split. }
  cbn [fst]. destruct (hd_error _) as [p |].
  2: { do 2 eexists. cbn. repeat split. }
  rewrite bind_run, try_catch_run, bind_run.
  pose proof (deploy_succeeds_or_raises (JStr projectId) userId
                (or_else commitMessage "Deploy manual") w) as D.
  fold (route_deploy projectId userId commitMessage) in D.
  destruct (route_deploy projectId userId commitMessage w) as [[r | e] w1];
    cbn [fst] in D |- *.
  - destruct D as [(u & t & D) | D]; [| discriminate D]. injection D as ->.
    do 2 eexists. cbn. repeat split.
  - destruct D as [(u & t & D) | D]; [discriminate D |]. injection D as ->.
    do 2 eexists. cbn. repeat split.
Qed.

(** *** Stopping through the route *)

Lemma stopDeployment_table (deploymentId : jsval) (w : world) :
  deployments (snd (stopDeployment deploymentId w)) = deployments w \/
  exists did,
    param deploymentId = Some did /\
    deployments (snd (stopDeployment deploymentId w)) =
      map (halt did) (deployments w).
Proof.
  unfold stopDeployment, halt. exec_unfold. unfold sql_int. exec_unfold.
  destruct deploymentId as [n | s]; cbn [param]; [| destruct (int4in s) as [n |]].
  3: cbn; left; reflexivity.
  all: cbn; destruct (hd_error _) as [d |]; cbn; [| now left].
  all: destruct (truthy (container_name d)); cbn; [| now left].
  all: host_cases; try (left; reflexivity).
  all: right; exists n; split; reflexivity.
Qed.

Lemma select_owned_deployment_run (v : jsval) (u : Z) (w : world) :
  select_owned_deployment v u w =
  match param v with
  | Some did =>
      (Return
         (flat_map
            (fun d =>
               map (fun _ => d)
                 (filter (fun p => int_is (project_id d) (proj_id p)
                                   && int_is (user_id p) u)
                         (projects w)))
            (filter (fun d => Z.eqb (id d) did) (deployments w))), w)
  | None => (Throw (JsError "invalid input syntax for type integer"), w)
  end.
Proof.
  unfold select_owned_deployment. rewrite bind_run, sql_int_run.
  destruct (param v); reflexivity.
Qed.

Lemma same_id_same_row (ds : list deployment) (a b : deployment) :
  NoDup (map id ds) -> In a ds -> In b ds -> id a = id b -> a = b.
Proof.
  induction ds as [| d ds IH]; intros N Ia Ib E; [destruct Ia |].
  cbn [map] in N. inversion N as [| x l Out N' ]; subst.
  destruct Ia as [<- | Ia], Ib as [<- | Ib].
  - reflexivity.
  - exfalso. apply Out. rewrite E. now apply in_map.
  - exfalso. apply Out. rewrite <- E. now apply in_map.
  - now apply IH.
Qed.

Lemma owned_rows (did userId : Z) (w : world) (d : deployment) :
  In d (flat_map
          (fun d =>
             map (fun _ => d)
               (filter (fun p => int_is (project_id d) (proj_id p)
                                 && int_is (user_id p) userId)
                       (projects w)))
          (filter (fun d => Z.eqb (id d) did) (deployments w))) ->
  In d (deployments w) /\ id d = did /\ owned_by userId w d.
Proof.
  intros I. apply in_flat_map in I. destruct I as (d' & F & I).
  apply in_map_iff in I. destruct I as (p & <- & I).
  apply filter_In in F. destruct F as [Fd Fi].
  apply filter_In in I. destruct I as [Ip Io].
  apply andb_prop in Io. destruct Io as [O1 O2].
  split; [exact Fd |]. split; [now apply Z.eqb_eq |].
  exists p. split; [exact Ip |].
  destruct (project_id d') as [m |]; [| discriminate O1].
  destruct (user_id p) as [o |]; [| discriminate O2].
  cbn in O1, O2. apply Z.eqb_eq in O1, O2. now subst.
Qed.

(** X16. Through [POST /api/deploy/:deployId/stop] a user changes no
    deployment but their own: where identifiers are unique, every row of
    the table after the request is a row of the table before it, or is
    such a row with status [stopped], of a project of the user.  The route
    never raises. *)
Theorem post_stop_stops_only_the_deployments_of_the_user
    (deployId : string) (userId : Z) (w : world) :
  NoDup (map id (deployments w)) ->
  let w' := snd (post_stop deployId userId w) in
  (exists answer, fst (post_stop deployId userId w) = Return answer) /\
  forall row,
    In row (deployments w') ->
    In row (deployments w) \/
    exists old,
      In old (deployments w) /\ row = set_status "stopped" old /\
      owned_by userId w old.
Proof.
  intros U. cbn zeta. unfold post_stop.
  rewrite try_catch_run, bind_run, select_owned_deployment_run. cbn [param].
  destruct (int4in deployId) as [did |] eqn:P.
  2: { split; [eexists; reflexivity |]. intros row I. left. exact I. }
  match goal with
  | |- context [Nat.eqb (List.length ?l) 0] =>
      destruct l as [| d rest] eqn:L
  end; cbn [List.length Nat.eqb].
  { split; [eexists; reflexivity |]. intros row I. left. exact I. }
  assert (O : In d (deployments w) /\ id d = did /\ owned_by userId w d).
  { apply owned_rows. rewrite L. now left. }
  clear L. destruct O as (Id & Ed & Od).
  rewrite bind_run.
  destruct (stopDeployment_table (JStr deployId) w) as [T | (did' & P' & T)];
    destruct (stopDeployment (JStr deployId) w) as [[b | e] w1];
    cbn [snd fst] in T |- *.
  all: split; [eexists; reflexivity |].
  all: intros row I; cbn in I; rewrite T in I.
  1, 2: left; exact I.
  all: cbn [param] in P'; rewrite P in P'; injection P' as <-.
  all: apply in_map_iff in I; destruct I as (old & <- & I).
  all: unfold halt; destruct (Z.eqb_spec (id old) did) as [E | E];
    [right | left; exact I].
  all: assert (old = d) by (apply (same_id_same_row (deployments w)); congruence).
  all: subst old; exists d; auto.
Qed.

(** ** The identifiers of the deployments *)

#[local] Instance same_sequence_preorder : PreOrder same_sequence.
Proof.
  split.
  - intros w. reflexivity.
  - intros a b c H K. unfold same_sequence in H, K |- *. congruence.
Qed.

Lemma pipeline_same_sequence (projectId : jsval) (p : project) (d : Z)
    (fs : list file) (startTime : Z) :
  respects same_sequence (pipeline projectId p d fs startTime).
Proof.
  apply pipeline_stage; try typeclasses eauto.
  - intros c w. reflexivity.
  - intros w. reflexivity.
  - intros line w. reflexivity.
  - intros cond f w. reflexivity.
  - intros ty m w. reflexivity.
Qed.

(** X17. An invocation of [deploy] draws one identifier from the sequence
    of the deployments when the project is found for the user, whatever
    comes of the deployment afterwards, and none when it is not. *)
Theorem deploy_draws_one_identifier_when_the_project_is_found
    (projectId : jsval) (userId : Z) (msg : string) (w : world) :
  deployments_id_seq (snd (deploy projectId userId msg w)) =
    match fst (select_project projectId userId w) with
    | Return (Some _) => deployments_id_seq w + 1
    | _ => deployments_id_seq w
    end.
Proof.
  rewrite deploy_run, deploy_try_run, bind_run, !select_project_run.
  cbn [projects with_ticks].
  destruct (param projectId) as [pid |] eqn:P; [| reflexivity].
  cbn [fst]. destruct (hd_error _) as [p |]; [| reflexivity].
  rewrite bind_run, insert_deployment_run, P. cbn zeta.
  cbn [deployments deployments_id_seq with_ticks].
  destruct (existsb _ _); [reflexivity |].
  rewrite bind_run, addBuildLog_run, bind_run, select_files_run, P.
  cbn [files with_emitted with_ticks with_build_logs with_deployments with_seq].
  destruct (Nat.eqb _ 0); [reflexivity |].
  match goal with
  | |- context [pipeline ?a ?b ?c ?e ?f ?w2] =>
      pose proof (pipeline_same_sequence a b c e f w2) as K;
      destruct (pipeline a b c e f w2) as [[r | e'] w3]
  end; cbn [snd] in K |- *; unfold same_sequence in K;
    cbn [deployments_id_seq with_console] in K |- *; exact K.
Qed.

(** ** A deployment and its end *)

Lemma pipeline_container (projectId : jsval) (p : project) (d : Z)
    (fs : list file) (startTime : Z) (w w' : world) (res : deploy_result) :
  pipeline projectId p d fs startTime w = (Return res, w') ->
  exists c wm tc,
    containerName c = container_name_at projectId tc /\
    deployments wm = deployments w /\
    finish_deploy projectId d startTime c (server_name projectId None) wm =
      (Return res, w').
Proof.
  unfold pipeline. intros H.
  apply bind_returns in H. destruct H as (u1 & w1 & S1 & H).
  apply bind_returns in H. destruct H as (dir & w2 & S2 & H).
  apply bind_returns in H. destruct H as (u3 & w3 & S3 & H).
  apply bind_returns in H. destruct H as (c & w4 & S4 & H).
  apply bind_returns in H. destruct H as (u5 & w5 & S5 & H).
  apply bind_returns in H. destruct H as (sn & w6 & S6 & H).
  pose proof (addBuildLog_same_tables d "info" "📁 Salvando arquivos..." w) as T1.
  pose proof (saveProjectFiles_same_tables projectId fs w1) as T2.
  pose proof (build_stage_same_tables dir d p w2) as T3.
  pose proof (createContainer_same_tables projectId d p dir w3) as T4.
  pose proof (addBuildLog_same_tables d "info"
                "⚙️ Configurando proxy reverso..." w4) as T5.
  pose proof (configureNginx_same_tables projectId (hostPort c) None w5) as T6.
  rewrite S1 in T1. rewrite S2 in T2. rewrite S3 in T3. rewrite S4 in T4.
  rewrite S5 in T5. rewrite S6 in T6. cbn [snd] in T1, T2, T3, T4, T5, T6.
  destruct T1 as (_ & _ & T1 & _), T2 as (_ & _ & T2 & _),
    T3 as (_ & _ & T3 & _), T4 as (_ & _ & T4 & _), T5 as (_ & _ & T5 & _),
    T6 as (_ & _ & T6 & _).
  apply configureNginx_returns in S6. subst sn.
  apply createContainer_outcome in S4. cbv zeta in S4.
  destruct S4 as (ev1 & stops & out & _ & _ & _ & ->).
  eexists _, w6, _. split; [| split; [| exact H]]; [reflexivity | congruence].
Qed.

(** The row a successful [deploy] leaves for its deployment has a container
    name that is not empty. *)
Lemma deploy_success_row (projectId : jsval) (userId : Z) (msg : string)
    (w w' : world) (n : Z) (u : string) (t : Z) :
  deploy projectId userId msg w = (Return (DeploySucceeded n u t), w') ->
  exists pid cid tc,
    param projectId = Some pid /\
    existsb (fun d => Z.eqb (id d) n) (deployments w) = false /\
    deployments w' =
      (map (retire pid n) (deployments w) ++
       [set_running cid (container_name_at projectId tc) u t
          (building_row n pid msg)])%list.
Proof.
  rewrite deploy_run.
  destruct (deploy_try _ _ _ _ _) as [[r | e] w1] eqn:T; [| discriminate].
  intros H. injection H as -> ->. revert T.
  rewrite deploy_try_run, bind_run, select_project_run.
  destruct (param projectId) as [pid |] eqn:P; [| discriminate].
  destruct (hd_error _) as [p |]; [| discriminate].
  rewrite bind_run, insert_deployment_run, P. cbn zeta.
  cbn [deployments deployments_id_seq with_ticks].
  destruct (existsb _ _) eqn:F; [discriminate |].
  rewrite bind_run, addBuildLog_run, bind_run, select_files_run, P.
  cbn [deployments files with_emitted with_ticks with_build_logs
       with_deployments with_seq].
  destruct (Nat.eqb _ 0); [discriminate |].
  intros T. apply pipeline_container in T.
  destruct T as (c & wm & tc & N & D & T).
  cbn [deployments with_emitted with_ticks with_build_logs with_deployments
       with_seq] in D.
  destruct (finish_deploy_run projectId (deployments_id_seq w) (now (ticks w)) c
              (server_name projectId None) wm) as (w2 & F2 & _ & _ & D2).
  rewrite F2, P in T. rewrite P, D in D2.
  injection T as <- <- <- <-.
  exists pid, (containerId c), tc. split; [reflexivity |]. split; [exact F |].
  rewrite D2, <- N, !map_app, (promote_old _ _ _ _ _ _ F). cbn [map].
  unfold promote at 1. cbn [id]. rewrite Z.eqb_refl.
  unfold retire at 2. cbn [id set_running].
  rewrite Z.eqb_refl. cbn [negb]. now rewrite andb_false_r.
Qed.

Lemma retire_keeps_fresh (pid n : Z) (ds : list deployment) :
  existsb (fun d => Z.eqb (id d) n) ds = false ->
  filter (fun d => Z.eqb (id d) n) (map (retire pid n) ds) = [].
Proof.
  induction ds as [| d ds IH]; [reflexivity |]. cbn [existsb map filter].
  intros F. apply orb_false_elim in F. destruct F as [Fd F].
  rewrite (IH F).
  assert (E : Z.eqb (id (retire pid n d)) n = false).
  { unfold retire. now destruct (_ && _). }
  now rewrite E.
Qed.

Lemma halt_none_running (pid n : Z) (ds : list deployment) :
  running_of pid ds = [] -> running_of pid (map (halt n) ds) = [].
Proof.
  intros E. pose proof (halt_running n pid ds) as L. rewrite E in L.
  destruct (running_of pid (map (halt n) ds)); [reflexivity |].
  cbn in L. lia.
Qed.

Lemma select_deployment_run (v : jsval) (w : world) :
  select_deployment v w =
  match param v with
  | Some did =>
      (Return (hd_error (filter (fun d => Z.eqb (id d) did) (deployments w))), w)
  | None => (Throw (JsError "invalid input syntax for type integer"), w)
  end.
Proof.
  unfold select_deployment. rewrite bind_run, sql_int_run.
  destruct (param v); reflexivity.
Qed.

Lemma container_name_at_truthy (projectId : jsval) (t : Z) :
  truthy (Some (container_name_at projectId t)) = true /\
  or_else (Some (container_name_at projectId t)) EmptyString =
    container_name_at projectId t.
Proof. split; reflexivity. Qed.

(** When [stopDeployment] answers [true] for a deployment that has a
    container, the container was stopped and removed, and the rows with the
    identifier are [stopped]. *)
Lemma stopDeployment_true (n : Z) (w : world) (d : deployment) :
  hd_error (filter (fun r => Z.eqb (id r) n) (deployments w)) = Some d ->
  truthy (container_name d) = true ->
  fst (stopDeployment (JNum n) w) = Return true ->
  exists out1 out2,
    events_since w (snd (stopDeployment (JNum n) w)) =
      [ (Exec ("docker stop " ++ or_else (container_name d) EmptyString)
              None None, Done out1);
        (Exec ("docker rm " ++ or_else (container_name d) EmptyString)
              None None, Done out2) ] /\
    deployments (snd (stopDeployment (JNum n) w)) =
      map (halt n) (deployments w).
Proof.
  intros Fd T. unfold stopDeployment.
  rewrite try_catch_run, bind_run, select_deployment_run. cbn [param].
  rewrite Fd. cbv iota beta. rewrite bind_run, T, bind_run, execPromise_run.
  destruct (respond _ _) as [out1 | reason1]; cbv iota beta;
    [| intros H; discriminate H].
  rewrite bind_run, execPromise_run.
  destruct (respond _ _) as [out2 | reason2]; cbv iota beta;
    [| intros H; discriminate H].
  intros _. exists out1, out2. split.
  - events_norm. reflexivity.
  - reflexivity.
Qed.

(** X18. A deployment that succeeded can be stopped: when [deploy] has
    returned a success and [stopDeployment], called next with the
    identifier returned, answers [true], the host has stopped and removed
    the container that [deploy] named, the row of the deployment is
    [stopped], and the project has no deployment that is [running] any
    more. *)
Theorem stopping_a_fresh_deployment_leaves_none_running
    (projectId : jsval) (userId : Z) (msg : string) (w w' : world)
    (n : Z) (u : string) (t : Z) :
  deploy projectId userId msg w = (Return (DeploySucceeded n u t), w') ->
  fst (stopDeployment (JNum n) w') = Return true ->
  let w'' := snd (stopDeployment (JNum n) w') in
  exists pid tc out1 out2,
    param projectId = Some pid /\
    running_of pid (deployments w'') = [] /\
    events_since w' w'' =
      [ (Exec ("docker stop " ++ container_name_at projectId tc) None None,
         Done out1);
        (Exec ("docker rm " ++ container_name_at projectId tc) None None,
         Done out2) ] /\
    exists row,
      In row (deployments w'') /\ id row = n /\ status row = "stopped" /\
      container_name row = Some (container_name_at projectId tc).
Proof.
  intros H S. cbn zeta. apply deploy_success_row in H.
  destruct H as (pid & cid & tc & P & F & D).
  set (row := set_running cid (container_name_at projectId tc) u t
                (building_row n pid msg)) in D.
  assert (Fd : hd_error (filter (fun r => Z.eqb (id r) n) (deployments w')) =
               Some row).
  { rewrite D, filter_app, (retire_keeps_fresh _ _ _ F). cbn [app filter].
    subst row. cbn [id set_running building_row]. now rewrite Z.eqb_refl. }
  destruct (stopDeployment_true n w' row Fd) as (out1 & out2 & E & T);
    [reflexivity | exact S |].
  exists pid, tc, out1, out2. split; [exact P |]. split; [| split; [exact E |]].
  - rewrite T, D, map_app. unfold running_of. rewrite filter_app.
    fold (running_of pid (map (halt n) (map (retire pid n) (deployments w)))).
    rewrite (halt_none_running _ _ _ (retire_old_not_running _ _ _ F)).
    cbn [map filter app]. unfold halt. subst row.
    cbn [id set_running building_row]. rewrite Z.eqb_refl.
    cbn [set_status project_id status].
    change (String.eqb "stopped" "running") with false.
    now rewrite andb_false_r.
  - exists (halt n row). split; [| split; [| split]].
    + rewrite T, D, map_app. apply in_or_app. right. now left.
    + unfold halt. subst row. cbn [id set_running building_row].
      now rewrite Z.eqb_refl.
    + unfold halt. subst row. cbn [id set_running building_row].
      now rewrite Z.eqb_refl.
    + unfold halt. subst row. cbn [id set_running building_row].
      now rewrite Z.eqb_refl.
Qed.

(** ** The statuses of the deployments *)

(** X19. The statuses an invocation of [deploy] writes are [building],
    [running] and [stopped]: every row of the table after it is a row of
    the table before it or has one of these; in particular no row is ever
    given the status [failed]. *)
Theorem deploy_writes_three_statuses
    (projectId : jsval) (userId : Z) (msg : string) (w : world) :
  forall row,
    In row (deployments (snd (deploy projectId userId msg w))) ->
    In row (deployments w) \/ In (status row) engine_statuses.
Proof.
  intros row.
  destruct (deploy_table projectId userId msg w)
    as [D | (pid & P & F & [D | (cid & cname & u & t & D)])]; rewrite D.
  - now left.
  - intros I. apply in_app_or in I. destruct I as [I | [<- | []]]; [now left |].
    right. now left.
  - intros I. apply in_app_or in I. destruct I as [I | [<- | []]].
    + apply in_map_iff in I. destruct I as (old & <- & I). unfold retire.
      destruct (_ && _); [right; cbn; auto | now left].
    + right. cbn. auto.
Qed.

(** ** The rooms of the socket server *)

Lemma room_of_project_is_no_deployment_room (projectId : jsval) (s : string) :
  String.eqb (room_of (JoinProject projectId)) ("deployment-" ++ s) = false.
Proof. reflexivity. Qed.

(** X20. The events of a deployment go to the room of the deployment and
    to no other: of the events an invocation of [deploy] sends, a socket
    that has joined the room of the deployment it creates gets all, and a
    socket that has joined rooms of projects only gets none. *)
Theorem build_logs_reach_the_room_of_the_deployment_only
    (projectId : jsval) (userId : Z) (msg : string) (w : world)
    (joined : list join_request) :
  let sent := emitted_since w (snd (deploy projectId userId msg w)) in
  Forall (fun e => delivered [JoinDeployment (JNum (deployments_id_seq w))] e = true)
         sent /\
  (Forall joins_a_project joined ->
   Forall (fun e => delivered joined e = false) sent).
Proof.
  cbn zeta.
  destruct (deploy_logs projectId userId msg w)
    as (ls & es & _ & E & A & D).
  unfold emitted_since. rewrite E, skipn_length_app. clear E.
  assert (R : Forall (fun e => room e =
                        "deployment-" ++ string_of_Z (deployments_id_seq w)) es).
  { revert D. induction A as [| l e ls es [Rm _] A IH]; intros D; [constructor |].
    inversion D as [| ? ? Dl D']; subst. constructor; [| now apply IH].
    now rewrite Rm, Dl. }
  clear A D. split.
  - eapply Forall_impl; [| exact R]. intros e Rm. unfold delivered.
    cbn [existsb room_of to_string]. rewrite Rm, String.eqb_refl. reflexivity.
  - intros J. eapply Forall_impl; [| exact R]. intros e Rm. unfold delivered.
    rewrite Rm. clear Rm. induction J as [| j joined [p ->] J IH]; [reflexivity |].
    cbn [existsb]. rewrite room_of_project_is_no_deployment_room. exact IH.
Qed.

(** ** The order of the stages *)

#[local] Instance trace_grows_preorder : PreOrder trace_grows.
Proof.
  split.
  - intros w. unfold trace_grows. now rewrite events_since_refl, app_nil_r.
  - intros a b c H K. unfold trace_grows in H, K |- *.
    unfold events_since at 1. rewrite K, H, <- app_assoc, skipn_length_app.
    now rewrite app_assoc.
Qed.

Lemma trace_grows_same (w w' : world) : trace w' = trace w -> trace_grows w w'.
Proof.
  intros E. unfold trace_grows, events_since. now rewrite E, skipn_all, app_nil_r.
Qed.

Lemma trace_grows_by (w w' : world) (t : list event) :
  trace w' = (trace w ++ t)%list -> trace_grows w w'.
Proof.
  intros E. unfold trace_grows, events_since. now rewrite E, skipn_length_app.
Qed.

Ltac trace_grows_leaf :=
  intros; intro;
  first [ apply trace_grows_same; reflexivity
        | eapply trace_grows_by; reflexivity ].

Lemma events_since_chain (a b c : world) :
  trace_grows a b -> trace_grows b c ->
  events_since a c = (events_since a b ++ events_since b c)%list.
Proof.
  intros H K. unfold trace_grows in H, K. unfold events_since at 1.
  now rewrite K, H, <- app_assoc, skipn_length_app.
Qed.

Lemma events_since_from (a b c : world) :
  trace a = trace b -> events_since a c = events_since b c.
Proof. unfold events_since. now intros ->. Qed.

Lemma events_since_to (a b c : world) :
  trace b = trace c -> events_since a b = events_since a c.
Proof. unfold events_since. now intros ->. Qed.

Lemma superseded_names_building (projectId : jsval) (d pid : Z) (msg : string)
    (a b : world) :
  deployments a = (deployments b ++ [building_row d pid msg])%list ->
  superseded_names projectId d a = superseded_names projectId d b.
Proof.
  unfold superseded_names. intros ->. destruct (param projectId); [| reflexivity].
  rewrite filter_app, map_app. cbn [filter building_row status id].
  rewrite andb_false_r. cbn [andb map]. now rewrite app_nil_r.
Qed.

(** A run of the pipeline that gets to the end, stage by stage. *)
Lemma pipeline_order (projectId : jsval) (p : project) (d : Z)
    (fs : list file) (startTime : Z) (w w' : world) (res : deploy_result) :
  pipeline projectId p d fs startTime w = (Return res, w') ->
  exists saved built made stops tc out proxied,
    events_since w w' =
      (saved ++ built ++ made ++ stops ++
       (docker_run projectId p tc, Done out) :: proxied)%list /\
    ran_through (save_plan projectId fs) saved /\
    (if has_build_stage p then
       exists out1 out2,
         built = [ (npm_install (project_dir projectId), Done out1);
                   (npm_build (project_dir projectId) p, Done out2) ]
     else built = []) /\
    ran_through
      (recipe_plan (project_dir projectId) p ++
       [docker_build projectId (project_dir projectId)])%list made /\
    best_effort (cleanup_plan (superseded_names projectId d w)) stops /\
    map fst proxied = proxy_plan projectId (host_port projectId) None /\
    Forall (tolerated projectId) proxied.
Proof.
  unfold pipeline. intros H.
  apply bind_returns in H. destruct H as (u1 & w1 & S1 & H).
  apply bind_returns in H. destruct H as (dir & w2 & S2 & H).
  apply bind_returns in H. destruct H as (u3 & w3 & S3 & H).
  apply bind_returns in H. destruct H as (c & w4 & S4 & H).
  apply bind_returns in H. destruct H as (u5 & w5 & S5 & H).
  apply bind_returns in H. destruct H as (sn & w6 & S6 & H).
  (* the tables *)
  pose proof (addBuildLog_same_tables d "info" "📁 Salvando arquivos..." w) as T1.
  pose proof (saveProjectFiles_same_tables projectId fs w1) as T2.
  pose proof (build_stage_same_tables dir d p w2) as T3.
  rewrite S1 in T1. rewrite S2 in T2. rewrite S3 in T3. cbn [snd] in T1, T2, T3.
  destruct T1 as (_ & _ & T1 & _), T2 as (_ & _ & T2 & _), T3 as (_ & _ & T3 & _).
  assert (T : deployments w3 = deployments w) by congruence. clear T1 T2 T3.
  (* the traces *)
  assert (G1 : trace w1 = trace w).
  { rewrite addBuildLog_run in S1. now injection S1 as _ <-. }
  assert (G2 : trace_grows w1 w2).
  { pose proof (saveProjectFiles_stage trace_grows) as K.
    specialize (K ltac:(trace_grows_leaf) projectId fs w1).
    now rewrite S2 in K. }
  assert (G3 : trace_grows w2 w3).
  { pose proof (build_stage_stage trace_grows d) as K.
    specialize (K ltac:(trace_grows_leaf) ltac:(trace_grows_leaf) dir p w2).
    now rewrite S3 in K. }
  assert (G4 : trace_grows w3 w4).
  { pose proof (createContainer_stage trace_grows d) as K.
    specialize (K ltac:(trace_grows_leaf) ltac:(trace_grows_leaf)
                  ltac:(trace_grows_leaf) ltac:(trace_grows_leaf)
                  projectId p dir w3).
    now rewrite S4 in K. }
  assert (G5 : trace w5 = trace w4).
  { rewrite addBuildLog_run in S5. now injection S5 as _ <-. }
  assert (G6 : trace_grows w5 w6).
  { pose proof (configureNginx_stage trace_grows) as K.
    specialize (K ltac:(trace_grows_leaf) ltac:(trace_grows_leaf)
                  projectId (hostPort c) None w5).
    now rewrite S6 in K. }
  assert (G7 : trace w' = trace w6).
  { destruct (finish_deploy_run projectId d startTime c sn w6) as (w7 & F & Tr & _).
    rewrite F in H. now injection H as _ <-. }
  (* the stages *)
  assert (E2 : dir = project_dir projectId /\
               ran_through (save_plan projectId fs) (events_since w1 w2)).
  { revert S2. rewrite saveProjectFiles_run_all, bind_run.
    destruct (run_all (save_plan projectId fs) w1) as [[u | e] wx] eqn:P;
      [| discriminate].
    intros S2. injection S2 as <- <-. apply run_all_outcome in P.
    split; [reflexivity | apply P]. }
  destruct E2 as [-> E2]. destruct u3.
  apply build_stage_returns in S3.
  pose proof (createContainer_hostPort _ _ _ _ _ _ _ S4) as HP.
  apply createContainer_outcome in S4. cbv zeta in S4.
  destruct S4 as (made & stops & out & E4 & M & B & _).
  rewrite (superseded_names_tables projectId d w3 w T) in B.
  pose proof (configureNginx_outcome projectId (hostPort c) None w5) as E6.
  cbv zeta in E6. rewrite S6 in E6. cbn [fst snd] in E6.
  destruct E6 as (_ & E6 & F6 & _). rewrite HP in E6.
  exists (events_since w1 w2), (events_since w2 w3), made, stops,
    (now (ticks w3)), out, (events_since w5 w6).
  split; [| split; [exact E2 | split; [| split; [exact M | split; [exact B |
    split; [exact E6 | exact F6]]]]]].
  - rewrite (events_since_to w w' w6 G7), (events_since_from w w1 w6 (eq_sym G1)).
    rewrite (events_since_chain w1 w2 w6 G2); [| now transitivity w3;
      [| transitivity w4; [| transitivity w5; [apply trace_grows_same |]]]].
    rewrite (events_since_chain w2 w3 w6 G3); [| now transitivity w4;
      [| transitivity w5; [apply trace_grows_same |]]].
    rewrite (events_since_chain w3 w4 w6 G4);
      [| now transitivity w5; [apply trace_grows_same |]].
    rewrite (events_since_from w4 w5 w6 (eq_sym G5)), E4, <- !app_assoc.
    reflexivity.
  - destruct (has_build_stage p).
    + destruct S3 as (o1 & o2 & _ & _ & S3 & _). exists o1, o2. exact S3.
    + now rewrite S3, events_since_refl.
Qed.

(** X21. A deployment that succeeds has gone through its stages in order.
    Of an invocation of [deploy] that returns a success, the host has seen:
    the files of the project saved in its directory; for [react], [html]
    and [nextjs], the install and the build in that directory; the image
    recipe and the build of the image; the stop and removal of the
    containers of the deployments the new one supersedes, as far as they
    went; the start of the new container; and the commands of the proxy
    rule, from the write of the rule to the reload. *)
Theorem successful_deploy_runs_the_stages_in_order
    (projectId : jsval) (userId : Z) (msg : string) (w w' : world)
    (n : Z) (u : string) (t : Z) :
  deploy projectId userId msg w = (Return (DeploySucceeded n u t), w') ->
  exists p fs saved built made stops tc out proxied,
    fst (select_project projectId userId w) = Return (Some p) /\
    fst (select_files projectId w) = Return fs /\
    events_since w w' =
      (saved ++ built ++ made ++ stops ++
       (docker_run projectId p tc, Done out) :: proxied)%list /\
    ran_through (save_plan projectId fs) saved /\
    (if has_build_stage p then
       exists out1 out2,
         built = [ (npm_install (project_dir projectId), Done out1);
                   (npm_build (project_dir projectId) p, Done out2) ]
     else built = []) /\
    ran_through
      (recipe_plan (project_dir projectId) p ++
       [docker_build projectId (project_dir projectId)])%list made /\
    best_effort (cleanup_plan (superseded_names projectId n w)) stops /\
    map fst proxied = proxy_plan projectId (host_port projectId) None /\
    Forall (tolerated projectId) proxied.
Proof.
  intros H.
  assert (N : n = deployments_id_seq w).
  { apply deploy_success_table in H. now destruct H as (? & ? & ? & _ & N & _). }
  subst n. revert H. rewrite deploy_run.
  destruct (deploy_try _ _ _ _ _) as [[r | e] w1] eqn:T; [| discriminate].
  intros H. injection H as -> ->. revert T.
  rewrite deploy_try_run, bind_run, !select_project_run, select_files_run.
  cbn [projects with_ticks].
  destruct (param projectId) as [pid |] eqn:P; [| discriminate].
  destruct (hd_error _) as [p |]; [| discriminate].
  rewrite bind_run, insert_deployment_run, P. cbn zeta.
  cbn [deployments deployments_id_seq with_ticks].
  destruct (existsb _ _) eqn:F; [discriminate |].
  rewrite bind_run, addBuildLog_run, bind_run, select_files_run, P.
  cbn [deployments files with_emitted with_ticks with_build_logs
       with_deployments with_seq].
  destruct (Nat.eqb _ 0); [discriminate |].
  intros T. apply pipeline_order in T.
  destruct T as (saved & built & made & stops & tc & out & proxied &
                 E & S & B & M & C & X & Y).
  match type of C with
  | context [superseded_names _ _ ?a] =>
      rewrite (superseded_names_building projectId (deployments_id_seq w) pid
                 msg a w) in C by reflexivity
  end.
  exists p. eexists. exists saved, built, made, stops, tc, out, proxied.
  split; [reflexivity |]. split; [reflexivity |].
  split; [| split; [exact S | split; [exact B | split; [exact M |
    split; [exact C | split; [exact X | exact Y]]]]]].
  rewrite <- E. apply events_since_from. reflexivity.
Qed.

End Engine.

(** * The properties on the sample runtime *)

(** C1 on [busy_world]: project 7, running from deployment 1, is deployed
    again; deployment 3 is then its only running deployment and deployment 1
    is stopped. *)
Lemma busy_world_redeployed :
  let run := deploy sample_join sample_dirname sample_trim sample_int4in
               obliging sample_clock (JNum 7) 1 "second" busy_world in
  run = (Return (DeploySucceeded 3 "http://project-7.local" 19), snd run) /\
  exists row,
    running_of 7 (deployments (snd run)) = [row] /\ id row = 3 /\
    In (set_status "stopped" earlier_deployment) (deployments (snd run)).
Proof.
  intros run.
  assert (H : run = (Return (DeploySucceeded 3 "http://project-7.local" 19),
                     snd run)) by (vm_compute; reflexivity).
  pose proof (successful_deploy_leaves_exactly_one_running
                sample_join sample_dirname sample_trim sample_int4in obliging
                sample_clock (JNum 7) 1 "second" busy_world _ 3
                "http://project-7.local" 19 H) as T.
  clearbody run. split; [exact H |].
  destruct T as (pid & P & (row & R & I & _) & S).
  injection P as <-. exists row.
  split; [exact R |]. split; [exact I |].
  apply S; [left; reflexivity | reflexivity | reflexivity].
Defined.



(** C5 on [fresh_world], with a host whose [npm install] fails. *)
Lemma failed_install_is_logged_and_ends_the_run :
  let host := failing_on "npm install" "Command failed: npm install" in
  let run := deploy sample_join sample_dirname sample_trim sample_int4in
               host sample_clock (JNum 7) 1 "broken" fresh_world in
  let dir := "/var/criacode/deploys/project-7" in
  let pre :=
    [ (Mkdir dir, Done EmptyString);
      (Mkdir dir, Done EmptyString);
      (WriteFile (dir ++ "/index.html")
         "<!doctype html><script src=app.js></script>", Done EmptyString);
      (Mkdir dir, Done EmptyString);
      (WriteFile (dir ++ "/app.js") "document.title = 'app'", Done EmptyString) ] in
  events_since fresh_world (snd run) =
    (pre ++ (Exec "npm install" (Some dir) (Some 300000),
             Failed "Command failed: npm install") :: [])%list /\
  (300000 = 300000 \/ 300000 = 600000) /\
  In (build_error_log 1 "Command failed: npm install") (build_logs (snd run)) /\
  @nil event = [].
Proof.
  intros host run dir pre.
  assert (H : events_since fresh_world (snd run) =
              (pre ++ (Exec "npm install" (Some dir) (Some 300000),
                       Failed "Command failed: npm install") :: [])%list)
    by (vm_compute; reflexivity).
  assert (B : 300000 = 300000 \/ 300000 = 600000) by (left; reflexivity).
  pose proof (failed_build_is_logged_and_ends_the_run
                sample_join sample_dirname sample_trim sample_int4in host
                sample_clock (JNum 7) 1 "broken" fresh_world pre [] "npm install"
                (Some dir) 300000 "Command failed: npm install" H B) as T.
  split; [exact H |]. split; [exact B |]. exact T.
Defined.

(** C6 on [fresh_world], with a host whose [nginx -t] fails. *)
Lemma failed_syntax_check_stops_the_reload :
  let host := failing_on "nginx -t" "nginx: configuration file test failed" in
  let run := configureNginx sample_join host (JNum 7) (JNum 10007) None
               fresh_world in
  let rule := "/etc/nginx/sites-available/criacode-project-7" in
  let link := "/etc/nginx/sites-enabled/criacode-project-7" in
  let pre :=
    [ (WriteFile rule (nginxConfig "project-7.local" (JNum 10007)),
       Done EmptyString);
      (Unlink link, Done EmptyString);
      (Symlink rule link, Done EmptyString) ] in
  let o := Failed "nginx: configuration file test failed" in
  events_since fresh_world (snd run) =
    (pre ++ (Exec "nginx -t" None None, o) :: [])%list /\
  ("nginx -t" = "nginx -s reload" ->
     exists pre' out,
       pre = (pre' ++ [(Exec "nginx -t" None None, Done out)])%list) /\
  ("nginx -t" = "nginx -t" -> forall reason, o = Failed reason ->
     @nil event = [] /\ fst run = Throw (JsError reason)).
Proof.
  intros host run rule link pre o.
  assert (H : events_since fresh_world (snd run) =
              (pre ++ (Exec "nginx -t" None None, o) :: [])%list)
    by (vm_compute; reflexivity).
  pose proof (nginx_checks_before_it_reloads sample_join host (JNum 7)
                (JNum 10007) None fresh_world pre [] "nginx -t" o H) as T.
  split; [exact H | exact T].
Defined.

(** C7, as stated, on [fresh_world]: in the deployment of project 9, whose
    framework is [node], these are all the child processes, in order; no
    install step is run before containerization. *)
Lemma node_service_runs_no_install_step :
  let run := deploy sample_join sample_dirname sample_trim sample_int4in
               obliging sample_clock (JNum 9) 1 "api" fresh_world in
  map fst (filter is_exec (events_since fresh_world (snd run))) =
    [ Exec "docker build -t criacode-9:latest ."
           (Some "/var/criacode/deploys/project-9") (Some 900000);
      Exec ("docker run -d --name criacode-project-9-1700000004500 "
            ++ "-p 10009:8080 --restart unless-stopped criacode-9:latest")
           None None;
      Exec "nginx -t" None None;
      Exec "nginx -s reload" None None ].
Proof. vm_compute. reflexivity. Qed.

(** C7 (amended) on [fresh_world]. *)
Lemma node_project_installs_only_inside_the_image :
  let run := deploy sample_join sample_dirname sample_trim sample_int4in
               obliging sample_clock (JNum 9) 1 "api" fresh_world in
  fst (select_project sample_int4in (JNum 9) 1 fresh_world) =
    Return (Some node_project) /\
  framework node_project = Some "node" /\
  no_line_feed (or_else (start_command node_project) "node index.js") = true /\
  Forall quiet (events_since fresh_world (snd run)) /\
  Forall off_the_package_manager (events_since fresh_world (snd run)) /\
  (forall dir w1,
     events_since w1 (snd (createDockerfile sample_join obliging dir
                             node_project w1)) =
       [(WriteFile (sample_join dir "Dockerfile") (dockerfile_node node_project),
         obliging (trace w1)
           (WriteFile (sample_join dir "Dockerfile")
                      (dockerfile_node node_project)))]) /\
  run_instructions (dockerfile_node node_project) =
    ["RUN npm install --production"].
Proof.
  intros run.
  assert (H1 : fst (select_project sample_int4in (JNum 9) 1 fresh_world) =
               Return (Some node_project)) by reflexivity.
  assert (H2 : framework node_project = Some "node") by reflexivity.
  assert (H3 : no_line_feed (or_else (start_command node_project)
                                     "node index.js") = true) by reflexivity.
  destruct (node_service_installs_only_inside_the_image
              sample_join sample_dirname sample_trim sample_int4in obliging
              sample_clock (JNum 9) 1 "api" fresh_world node_project H1 H2)
    as (Q & O & D & R).
  split; [exact H1 |]. split; [exact H2 |]. split; [exact H3 |].
  split; [exact Q |]. split; [exact O |]. split; [exact D | exact (R H3)].
Defined.

(** C9 on [busy_world]: deployment 2 never got a container, and stopping
    it is a success that leaves the world as it is; deployment 1 has one,
    and when [docker stop] fails the answer is [false]. *)
Lemma stopping_on_busy_world :
  let unwilling :=
    failing_on "docker stop criacode-project-7-1699999990000"
               "No such container" in
  fst (select_deployment sample_int4in (JStr "2") busy_world) =
    Return (Some aborted_deployment) /\
  stopDeployment sample_int4in obliging (JStr "2") busy_world =
    (Return true, busy_world) /\
  In (Exec "docker stop criacode-project-7-1699999990000" None None,
      Failed "No such container")
     (events_since busy_world
        (snd (stopDeployment sample_int4in unwilling (JStr "1") busy_world))) /\
  fst (stopDeployment sample_int4in unwilling (JStr "1") busy_world) =
    Return false.
Proof.
  intros unwilling.
  assert (H1 : fst (select_deployment sample_int4in (JStr "2") busy_world) =
               Return (Some aborted_deployment)) by reflexivity.
  assert (H2 : In (Exec "docker stop criacode-project-7-1699999990000" None None,
                   Failed "No such container")
                  (events_since busy_world
                     (snd (stopDeployment sample_int4in unwilling (JStr "1")
                             busy_world))))
    by (vm_compute; left; reflexivity).
  destruct (stopDeployment_is_best_effort sample_int4in obliging (JStr "2")
              busy_world) as (_ & Idle & _).
  destruct (stopDeployment_is_best_effort sample_int4in unwilling (JStr "1")
              busy_world) as (_ & _ & Fails).
  split; [exact H1 |]. split.
  - apply (Idle (Some aborted_deployment) H1).
    intros d E. injection E as <-. reflexivity.
  - split; [exact H2 |]. exact (Fails _ _ H2).
Defined.

(** C10 on the project whose framework is [svelte]. *)
Lemma svelte_project_gets_an_empty_recipe :
  let dir := "/var/criacode/deploys/project-11" in
  let recipe := WriteFile (sample_join dir "Dockerfile") EmptyString in
  (forall name, In name ["react"; "html"; "nextjs"; "node"] ->
                framework svelte_project <> Some name) /\
  events_since fresh_world
    (snd (createDockerfile sample_join obliging dir svelte_project fresh_world)) =
    [(recipe, obliging (trace fresh_world) recipe)] /\
  (forall out, obliging (trace fresh_world) recipe = Done out ->
     fst (createDockerfile sample_join obliging dir svelte_project fresh_world) =
       Return tt).
Proof.
  intros dir recipe.
  assert (U : forall name, In name ["react"; "html"; "nextjs"; "node"] ->
                           framework svelte_project <> Some name).
  { intros name [<- | [<- | [<- | [<- | []]]]]; discriminate. }
  split; [exact U |].
  exact (unrecognized_framework_gets_an_empty_recipe sample_join obliging dir
           svelte_project fresh_world U).
Defined.

(** C2 on [fresh_world], with a host whose [npm install] fails, called as
    the route calls it: the invocation ends by raising [ReferenceError],
    the failure of the build is only on the console, and the deployment it
    created is left [building]. *)
Theorem failed_stage_escapes_the_catch_block :
  let host := failing_on "npm install" "Command failed: npm install" in
  let run := route_deploy sample_join sample_dirname sample_trim sample_int4in
               host sample_clock "7" 1 (Some "broken") fresh_world in
  fst run = Throw (ReferenceError "deployment is not defined") /\
  deployments (snd run) = [building_row 1 7 "broken"] /\
  console (snd run) = ["Erro no deploy: Command failed: npm install"].
Proof. vm_compute. repeat split. Qed.

(** C3 on [fresh_world], through the route: project 7 is deployed under the
    identifier [7] and then under [07], which the database reads as the
    same project.  Both deployments succeed and both are deployments of
    project 7; the container of the first is published on [100007], that
    of the second on [1000007].  Neither is the base port plus the
    identifier, [10007], which is the port the engine gives the number [7];
    and one project has been given two ports. *)
Theorem one_project_is_allocated_two_ports :
  let first := route_deploy sample_join sample_dirname sample_trim sample_int4in
                 obliging sample_clock "7" 1 None fresh_world in
  let second := route_deploy sample_join sample_dirname sample_trim
                  sample_int4in obliging sample_clock "07" 1 None (snd first) in
  param sample_int4in (JStr "7") = Some 7 /\
  param sample_int4in (JStr "07") = Some 7 /\
  fst first = Return (DeploySucceeded 1 "http://project-7.local" 19) /\
  fst second = Return (DeploySucceeded 2 "http://project-07.local" 19) /\
  map project_id (deployments (snd second)) = [Some 7; Some 7] /\
  host_port (JStr "7") = JStr "100007" /\
  host_port (JStr "07") = JStr "1000007" /\
  host_port (JNum 7) = JNum 10007 /\
  filter (String.prefix "docker run")
    (flat_map (fun c => match c with Exec command _ _ => [command] | _ => [] end)
       (map fst (trace (snd second)))) =
    [ "docker run -d --name criacode-project-7-1700000010500 "
        ++ "-p 100007:3000 --restart unless-stopped criacode-7:latest";
      "docker run -d --name criacode-project-07-1700000034500 "
        ++ "-p 1000007:3000 --restart unless-stopped criacode-07:latest" ].
Proof. vm_compute. repeat split. Qed.

(** C8 on [fresh_world], with a host on which everything succeeds, called
    as the route calls it for project 7: the deployment is [running] under
    [project-7.local], and the host port, the sum of [10000] and the text
    [7], is [100007]. *)
Theorem routed_deploy_of_project_seven :
  let run := route_deploy sample_join sample_dirname sample_trim sample_int4in
               obliging sample_clock "7" 1 None fresh_world in
  fst run = Return (DeploySucceeded 1 "http://project-7.local" 19) /\
  map status (deployments (snd run)) = ["running"] /\
  host_port (JStr "7") = JStr "100007" /\
  map fst (filter is_exec (trace (snd run))) =
    [ Exec "npm install" (Some "/var/criacode/deploys/project-7") (Some 300000);
      Exec "npm run build" (Some "/var/criacode/deploys/project-7") (Some 600000);
      Exec "docker build -t criacode-7:latest ."
           (Some "/var/criacode/deploys/project-7") (Some 900000);
      Exec ("docker run -d --name criacode-project-7-1700000010500 "
            ++ "-p 100007:3000 --restart unless-stopped criacode-7:latest")
           None None;
      Exec "nginx -t" None None;
      Exec "nginx -s reload" None None ] /\
  In (WriteFile "/etc/nginx/sites-available/criacode-project-7"
                (nginxConfig "project-7.local" (JStr "100007")))
     (map fst (trace (snd run))).
Proof. vm_compute. repeat split. do 11 right. left. reflexivity. Qed.

(** The same deployment when the engine is handed the number [7]: the host
    port is [10007]. *)
Lemma numeric_deploy_of_project_seven :
  let run := deploy sample_join sample_dirname sample_trim sample_int4in
               obliging sample_clock (JNum 7) 1 "Deploy manual" fresh_world in
  fst run = Return (DeploySucceeded 1 "http://project-7.local" 19) /\
  map status (deployments (snd run)) = ["running"] /\
  host_port (JNum 7) = JNum 10007 /\
  In (Exec ("docker run -d --name criacode-project-7-1700000010500 "
            ++ "-p 10007:3000 --restart unless-stopped criacode-7:latest")
           None None)
     (map fst (trace (snd run))).
Proof. vm_compute. repeat split. do 10 right. left. reflexivity. Qed.

(** X1 on the two files of project 7. *)
Lemma files_of_project_seven_are_saved :
  let run := saveProjectFiles sample_join sample_dirname obliging (JNum 7)
               [index_html; app_js] fresh_world in
  run = (Return "/var/criacode/deploys/project-7", snd run) /\
  "/var/criacode/deploys/project-7" =
    sample_join deploysDir ("project-" ++ to_string (JNum 7)) /\
  ran_through (save_plan sample_join sample_dirname (JNum 7) [index_html; app_js])
    (events_since fresh_world (snd run)).
Proof.
  intros run.
  assert (H : run = (Return "/var/criacode/deploys/project-7", snd run))
    by (vm_compute; reflexivity).
  pose proof (saveProjectFiles_follows_its_plan sample_join sample_dirname
                obliging (JNum 7) [index_html; app_js] fresh_world _ _ H) as T.
  split; [exact H | exact T].
Defined.


(** X3 on [building_world], with a host on which the image cannot be
    built. *)
Lemma failed_image_build_is_logged :
  let host := failing_on "docker build -t criacode-7:latest ."
                         "Command failed: docker build" in
  let run := createContainer sample_join sample_trim sample_int4in host
               sample_clock (JNum 7) 1 spa_project
               "/var/criacode/deploys/project-7" building_world in
  let e := JsError "Command failed: docker build" in
  recorded 1 building_world /\
  run = (Throw e, snd run) /\
  (stopped_short
     (recipe_plan sample_join "/var/criacode/deploys/project-7" spa_project ++
      [docker_build (JNum 7) "/var/criacode/deploys/project-7"])%list
     (events_since building_world (snd run)) (message e) \/
   exists ev1 stops,
     events_since building_world (snd run) =
       (ev1 ++ stops ++
        [(docker_run (JNum 7) spa_project
            (sample_clock (ticks building_world)), Failed (message e))])%list /\
     ran_through
       (recipe_plan sample_join "/var/criacode/deploys/project-7" spa_project ++
        [docker_build (JNum 7) "/var/criacode/deploys/project-7"])%list ev1 /\
     best_effort
       (cleanup_plan (superseded_names sample_int4in (JNum 7) 1 building_world))
       stops) /\
  recorded 1 (snd run) /\
  exists logs,
    build_logs (snd run) = (logs ++ [container_error_log 1 (message e)])%list.
Proof.
  intros host run e.
  assert (Row : recorded 1 building_world) by reflexivity.
  assert (H : run = (Throw e, snd run)) by (vm_compute; reflexivity).
  pose proof (createContainer_logs_the_failure_it_raises sample_join
                sample_trim sample_int4in host sample_clock (JNum 7) 1
                spa_project "/var/criacode/deploys/project-7" building_world _
                e Row H) as T.
  split; [exact Row |]. split; [exact H | exact T].
Defined.

(** X5 on [fresh_world]: user 2 asks for the deployment of project 7, which
    is the project of user 1. *)
Lemma deploy_of_the_project_of_someone_else :
  let run := deploy sample_join sample_dirname sample_trim sample_int4in
               obliging sample_clock (JNum 7) 2 "not mine" fresh_world in
  (forall p, fst (select_project sample_int4in (JNum 7) 2 fresh_world) <>
             Return (Some p)) /\
  fst run = Throw (ReferenceError "deployment is not defined") /\
  same_tables fresh_world (snd run) /\ trace (snd run) = trace fresh_world /\
  build_logs (snd run) = build_logs fresh_world /\
  emitted (snd run) = emitted fresh_world /\
  exists reason,
    console (snd run) =
      (console fresh_world ++ [("Erro no deploy: " ++ reason)%string])%list.
Proof.
  intros run.
  assert (H : forall p, fst (select_project sample_int4in (JNum 7) 2 fresh_world)
                        <> Return (Some p))
    by (intros p; vm_compute; discriminate).
  split; [exact H |].
  exact (deploy_of_a_project_not_found_changes_nothing sample_join
           sample_dirname sample_trim sample_int4in obliging sample_clock
           (JNum 7) 2 "not mine" fresh_world H).
Defined.

(** X7 on [busy_world], where project 7 is deployed again. *)
Lemma busy_world_keeps_one_running_after_deploy :
  one_running_per_project (deployments busy_world) /\
  one_running_per_project
    (deployments
       (snd (deploy sample_join sample_dirname sample_trim sample_int4in
               obliging sample_clock (JNum 7) 1 "second" busy_world))).
Proof.
  assert (H : one_running_per_project (deployments busy_world)).
  { intros q. unfold running_of.
    cbn [deployments busy_world filter earlier_deployment aborted_deployment
         project_id status int_is].
    destruct (Z.eqb 7 q), (Z.eqb 9 q); cbn; lia. }
  split; [exact H |].
  exact (deploy_keeps_one_running_per_project sample_join sample_dirname
           sample_trim sample_int4in obliging sample_clock (JNum 7) 1 "second"
           busy_world H).
Defined.

(** X10 on [busy_world], where deployment 1 is stopped. *)
Lemma busy_world_keeps_one_running_after_stop :
  one_running_per_project (deployments busy_world) /\
  one_running_per_project
    (deployments (snd (stopDeployment sample_int4in obliging (JNum 1) busy_world))).
Proof.
  assert (H : one_running_per_project (deployments busy_world)).
  { intros q. unfold running_of.
    cbn [deployments busy_world filter earlier_deployment aborted_deployment
         project_id status int_is].
    destruct (Z.eqb 7 q), (Z.eqb 9 q); cbn; lia. }
  split; [exact H |].
  exact (stopDeployment_keeps_one_running_per_project sample_int4in obliging
           (JNum 1) busy_world H).
Defined.

(** X11 on [fresh_world]: the deployment of project 7 takes 19 seconds of
    the sample clock. *)
Lemma duration_of_the_deploy_of_project_seven :
  let run := deploy sample_join sample_dirname sample_trim sample_int4in
               obliging sample_clock (JNum 7) 1 "first" fresh_world in
  clock_never_goes_back sample_clock /\
  run = (Return (DeploySucceeded 1 "http://project-7.local" 19), snd run) /\
  0 <= 19 /\
  exists row,
    In row (deployments (snd run)) /\ id row = 1 /\ status row = "running" /\
    url row = Some "http://project-7.local" /\ build_duration row = Some 19.
Proof.
  intros run.
  assert (C : clock_never_goes_back sample_clock)
    by (intros a b L; unfold sample_clock; lia).
  assert (H : run = (Return (DeploySucceeded 1 "http://project-7.local" 19),
                     snd run)) by (vm_compute; reflexivity).
  pose proof (build_duration_is_not_negative sample_join sample_dirname
                sample_trim sample_int4in obliging sample_clock (JNum 7) 1
                "first" fresh_world _ 1 "http://project-7.local" 19 C H) as T.
  split; [exact C |]. split; [exact H | exact T].
Defined.

(** X12 on [building_world]: the build of project 7, a [react] project
    with a build command of its own. *)
Lemma build_of_project_seven :
  let run := build_stage obliging sample_clock "/var/criacode/deploys/project-7"
               1 spa_project building_world in
  run = (Return tt, snd run) /\
  exists out1 out2 l1 l3,
    events_since building_world (snd run) =
      [ (npm_install "/var/criacode/deploys/project-7", Done out1);
        (npm_build "/var/criacode/deploys/project-7" spa_project, Done out2) ] /\
    build_logs (snd run) =
      (build_logs building_world ++
       [ l1; {| deployment_id := 1; log_type := "info"; log_message := out1 |};
         l3; {| deployment_id := 1; log_type := "info"; log_message := out2 |} ])%list.
Proof.
  intros run.
  assert (H : run = (Return tt, snd run)) by (vm_compute; reflexivity).
  pose proof (build_stage_installs_then_builds obliging sample_clock
                "/var/criacode/deploys/project-7" 1 spa_project building_world _ H)
    as T.
  split; [exact H | exact T].
Defined.

(** X13 on a header of three words: the second is the token, the scheme
    and the third word play no part. *)
Lemma token_of_a_bearer_header :
  no_space "Bearer" = true /\ no_space "header.payload.signature" = true /\
  "header.payload.signature" <> EmptyString /\
  authenticateToken sample_verify None (Some "Bearer header.payload.signature") =
    Passed {| session_user := 1; session_email := "ana@criacode.dev" |} /\
  authenticateToken sample_verify None
    (Some "Bearer header.payload.signature trailing") =
    authenticateToken sample_verify None (Some "Bearer header.payload.signature").
Proof.
  assert (S : no_space "Bearer" = true) by reflexivity.
  assert (T : no_space "header.payload.signature" = true) by reflexivity.
  assert (N : "header.payload.signature" <> EmptyString) by discriminate.
  split; [exact S |]. split; [exact T |]. split; [exact N |].
  exact (authenticateToken_reads_the_second_word sample_verify None "Bearer"
           "header.payload.signature" "trailing" S T N).
Defined.

(** X16 on [busy_world]: user 1 stops deployment 1, of project 7, which is
    theirs. *)
Lemma stop_request_on_busy_world :
  let run := post_stop sample_int4in obliging "1" 1 busy_world in
  NoDup (map id (deployments busy_world)) /\
  (exists answer, fst run = Return answer) /\
  forall row,
    In row (deployments (snd run)) ->
    In row (deployments busy_world) \/
    exists old,
      In old (deployments busy_world) /\ row = set_status "stopped" old /\
      owned_by 1 busy_world old.
Proof.
  intros run.
  assert (U : NoDup (map id (deployments busy_world))).
  { cbn. repeat constructor; cbn; intuition discriminate. }
  split; [exact U |].
  exact (post_stop_stops_only_the_deployments_of_the_user sample_int4in obliging
           "1" 1 busy_world U).
Defined.

(** X18 on [busy_world]: project 7 is deployed again, and the new
    deployment, 3, is stopped. *)
Lemma second_deployment_of_project_seven_is_stopped :
  let run := deploy sample_join sample_dirname sample_trim sample_int4in
               obliging sample_clock (JNum 7) 1 "second" busy_world in
  let stop := stopDeployment sample_int4in obliging (JNum 3) (snd run) in
  run = (Return (DeploySucceeded 3 "http://project-7.local" 19), snd run) /\
  fst stop = Return true /\
  exists pid tc out1 out2,
    param sample_int4in (JNum 7) = Some pid /\
    running_of pid (deployments (snd stop)) = [] /\
    events_since (snd run) (snd stop) =
      [ (Exec ("docker stop " ++ container_name_at (JNum 7) tc) None None,
         Done out1);
        (Exec ("docker rm " ++ container_name_at (JNum 7) tc) None None,
         Done out2) ] /\
    exists row,
      In row (deployments (snd stop)) /\ id row = 3 /\ status row = "stopped" /\
      container_name row = Some (container_name_at (JNum 7) tc).
Proof.
  intros run stop.
  assert (H : run = (Return (DeploySucceeded 3 "http://project-7.local" 19),
                     snd run)) by (vm_compute; reflexivity).
  assert (S : fst stop = Return true) by (vm_compute; reflexivity).
  pose proof (stopping_a_fresh_deployment_leaves_none_running sample_join
                sample_dirname sample_trim sample_int4in obliging sample_clock
                (JNum 7) 1 "second" busy_world (snd run) 3
                "http://project-7.local" 19 H S) as T.
  split; [exact H |]. split; [exact S | exact T].
Defined.

(** X19 on [busy_world]: after project 7 is deployed again, the row of its
    earlier deployment, which the invocation has changed, is [stopped]. *)
Lemma status_of_the_superseded_deployment :
  let run := deploy sample_join sample_dirname sample_trim sample_int4in
               obliging sample_clock (JNum 7) 1 "second" busy_world in
  let row := set_status "stopped" earlier_deployment in
  In row (deployments (snd run)) /\
  (In row (deployments busy_world) \/ In (status row) engine_statuses).
Proof.
  intros run row.
  assert (H : In row (deployments (snd run))) by (vm_compute; left; reflexivity).
  split; [exact H |].
  exact (deploy_writes_three_statuses sample_join sample_dirname sample_trim
           sample_int4in obliging sample_clock (JNum 7) 1 "second" busy_world
           row H).
Defined.

(** X21 on [fresh_world]: the first deployment of project 7. *)
Lemma stages_of_the_deploy_of_project_seven :
  let run := deploy sample_join sample_dirname sample_trim sample_int4in
               obliging sample_clock (JNum 7) 1 "first" fresh_world in
  run = (Return (DeploySucceeded 1 "http://project-7.local" 19), snd run) /\
  exists p fs saved built made stops tc out proxied,
    fst (select_project sample_int4in (JNum 7) 1 fresh_world) = Return (Some p) /\
    fst (select_files sample_int4in (JNum 7) fresh_world) = Return fs /\
    events_since fresh_world (snd run) =
      (saved ++ built ++ made ++ stops ++
       (docker_run (JNum 7) p tc, Done out) :: proxied)%list /\
    ran_through (save_plan sample_join sample_dirname (JNum 7) fs) saved /\
    map fst proxied = proxy_plan sample_join (JNum 7) (host_port (JNum 7)) None.
Proof.
  intros run.
  assert (H : run = (Return (DeploySucceeded 1 "http://project-7.local" 19),
                     snd run)) by (vm_compute; reflexivity).
  destruct (successful_deploy_runs_the_stages_in_order sample_join
              sample_dirname sample_trim sample_int4in obliging sample_clock
              (JNum 7) 1 "first" fresh_world _ 1 "http://project-7.local" 19 H)
    as (p & fs & saved & built & made & stops & tc & out & proxied &
        Sp & Sf & E & S & _ & _ & _ & X & _).
  split; [exact H |].
  exists p, fs, saved, built, made, stops, tc, out, proxied.
  split; [exact Sp |]. split; [exact Sf |]. split; [exact E |].
  split; [exact S | exact X].
Defined.
